(** * Job status tracker: domain detection, status classification,
      Workday login ordering and row processing

    A shallow embedding of [job_status_tracker_gsheets.py].

    - A Python [str] is the list of its code points ([list N]).  Literals
      are written as Rocq strings and decoded from UTF-8 by [u], so that
      the one non-ASCII pattern of the source reads as it does there.
    - The tables of the Python runtime that the code calls but does not
      define ([str.lower], the white space stripped by [str.strip], the
      decimal digits matched by [\d]) are the fields of the class [Unicode].
    - The browser page, the clock, the random pause and the process
      environment are the fields of the class [World]; every call on the
      page may raise, and an exception is known by the name of its class.
    - The cache dictionary that [main] creates and hands to every call is
      one component of the state, next to the page; the third component is
      a log of what the run does that can be seen from outside: the line
      printed before each password attempt and each [ws.update_cell].  The
      sheet takes every write; the other printed lines are left out.
    - The functions that take the cache are embedded twice.  With the
      cache a dict, as their signatures declare it ([cache: dict]), it is
      the finite map of the state, and this is the embedding of the whole
      run.  [workday_try_login], the one function that operates on the
      cache, is embedded once more over any value that [json.load] can
      return ([workday_try_login_any]), as [main] passes on what
      [load_workday_cache] gave; on a dict the two agree.
    - [json.dump] and [json.load] are the fields of the class [Json], bound
      by two laws to what the library does on the objects of integers that
      the cache file holds.  The file system is a map from paths to files,
      each with the permissions that [open] looks at. *)

From Stdlib Require Import ZArith NArith Ascii String DecimalString Sorted.
From stdpp Require Import base option list gmap.

Local Open Scope N_scope.

Set Default Proof Using "Type*".

(** ** Strings *)

Definition char : Type := N.
Definition str : Type := list N.

(** Decoding of a UTF-8 byte sequence into code points (used for literals
    only; a malformed tail is dropped). *)
Fixpoint utf8_decode (bs : list N) : str :=
  match bs with
  | [] => []
  | b0 :: r0 =>
    if b0 <? 128 then b0 :: utf8_decode r0
    else match r0 with
    | [] => []
    | b1 :: r1 =>
      if b0 <? 224 then ((b0 - 192) * 64 + (b1 - 128)) :: utf8_decode r1
      else match r1 with
      | [] => []
      | b2 :: r2 =>
        if b0 <? 240
        then ((b0 - 224) * 4096 + (b1 - 128) * 64 + (b2 - 128)) :: utf8_decode r2
        else match r2 with
        | [] => []
        | b3 :: r3 =>
          ((b0 - 240) * 262144 + (b1 - 128) * 4096 + (b2 - 128) * 64 + (b3 - 128))
            :: utf8_decode r3
        end
      end
    end
  end.

Definition u (lit : string) : str :=
  utf8_decode (map N_of_ascii (list_ascii_of_string lit)).
Arguments u lit%_string.

(** [p in t] on strings: [p] occurs in [t] as a contiguous substring. *)
Fixpoint starts_with (p t : str) : bool :=
  match p, t with
  | [], _ => true
  | _ :: _, [] => false
  | a :: p', b :: t' => (a =? b) && starts_with p' t'
  end.

Fixpoint str_in (p t : str) : bool :=
  starts_with p t ||
  match t with
  | [] => false
  | _ :: t' => str_in p t'
  end.

(** [a == b] on strings. *)
Definition str_eq (a b : str) : bool := bool_decide (a = b).

(** Truth value of a string: the empty string is falsy. *)
Definition truthy (s : str) : bool :=
  match s with [] => false | _ :: _ => true end.

(** Lower-casing of the ASCII letters, every other character kept. *)
Definition ascii_lower (s : str) : str :=
  map (λ c, if (65 <=? c) && (c <=? 90) then c + 32 else c) s.

Definition is_ascii (c : char) : bool := c <? 128.

(** The runtime's character tables.  [lower_ascii] is the one fact about
    [str.lower] that is used: lower-casing works character by character
    and does to an ASCII character what [ascii_lower] does, whatever
    stands around it. *)
Class Unicode := {
  lower : str → str;
  isspace : char → bool;
  isdecimal : char → bool;
  lower_ascii : ∀ a p b : str,
    forallb is_ascii p = true →
    ∃ a' b', lower (a ++ p ++ b) = a' ++ ascii_lower p ++ b'
}.

Section Text.
Context `{Unicode}.

(** [s.strip()]: leading and trailing white space removed. *)
Fixpoint lstrip (s : str) : str :=
  match s with
  | [] => []
  | c :: s' => if isspace c then lstrip s' else s
  end.

Definition rstrip (s : str) : str := reverse (lstrip (reverse s)).

Definition strip (s : str) : str := rstrip (lstrip s).

(** ** 1. Patterns for status detection *)

Definition CLOSED_PATTERNS : list str := [
  u "no longer accepting applications";
  u "no longer available";
  u "job has expired";
  u "position has been filled";
  u "position filled";
  u "job is closed";
  u "this job is closed";
  u "no longer posted";
  u "no longer active"
].

Definition LINKEDIN_REJECT_PATTERNS : list str := [
  u "no longer being considered for this job";
  u "you’re no longer being considered";
  u "you are no longer in consideration"
].

Definition LINKEDIN_REVIEW_PATTERNS : list str := [
  u "your application is under review";
  u "your application is being reviewed"
].

Definition LINKEDIN_VIEWED_PATTERNS : list str := [
  u "your application has been viewed";
  u "your application was viewed"
].

Definition LINKEDIN_SUBMITTED_PATTERNS : list str := [
  u "we received your application";
  u "application submitted"
].

Definition WORKDAY_REJECT_PATTERNS : list str := [
  u "no longer in consideration";
  u "not selected";
  u "no longer being considered"
].

Definition WORKDAY_INPROCESS_PATTERNS : list str := [
  u "in progress";
  u "under review";
  u "under consideration"
].

(** [for p in ps: if p in t: return ...] reaches its [return] exactly when
    some pattern of the list occurs in [t]. *)
Definition any_in (ps : list str) (t : str) : bool :=
  existsb (λ p, str_in p t) ps.

(** ** 2. Helpers *)

Definition detect_domain (url : str) : str :=
  let url := lower url in
  if str_in (u "linkedin.com") url then u "linkedin"
  else if str_in (u "myworkdayjobs.com") url then u "workday"
  else if str_in (u "greenhouse.io") url then u "greenhouse"
  else if str_in (u "lever.co") url then u "lever"
  else if str_in (u "taleo.net") url then u "taleo"
  else if str_in (u "smartrecruiters.com") url then u "smartrecruiters"
  else u "generic".

(** ** 5. Status classification *)

Definition classify_status (text domain : str) : str :=
  let t := lower text in
  if str_eq domain (u "linkedin") then
    if any_in LINKEDIN_REJECT_PATTERNS t then u "APPLICATION REJECTED (LinkedIn)"
    else if any_in LINKEDIN_REVIEW_PATTERNS t then u "APPLICATION UNDER REVIEW (LinkedIn)"
    else if any_in LINKEDIN_VIEWED_PATTERNS t then u "APPLICATION VIEWED (LinkedIn)"
    else if any_in LINKEDIN_SUBMITTED_PATTERNS t then u "APPLICATION SUBMITTED (LinkedIn)"
    else if any_in CLOSED_PATTERNS t then u "JOB CLOSED (LinkedIn)"
    else u "UNKNOWN (LinkedIn)"
  else if str_eq domain (u "workday") then
    if any_in WORKDAY_REJECT_PATTERNS t then u "APPLICATION REJECTED (Workday)"
    else if any_in WORKDAY_INPROCESS_PATTERNS t then u "APPLICATION IN PROCESS (Workday)"
    else if any_in CLOSED_PATTERNS t then u "JOB CLOSED (Workday)"
    else u "UNKNOWN (Workday)"
  else if any_in CLOSED_PATTERNS t then u "JOB CLOSED (" ++ domain ++ u ")"
  else u "UNKNOWN (" ++ domain ++ u ")".


(** ** Regular expressions

    The fragment of [re] that the source uses: a sequence of pieces, each
    one character matcher or its greedy repetition [+], around one
    capturing group.  Matching backtracks as [re] does: a repetition first
    takes as much as it can and gives characters back when the rest of the
    pattern fails. *)

Inductive cls :=
| Lit (c : char)            (* the character itself, escaped or not *)
| NotOf (cs : list char)    (* [^...] *)
| Digit.                    (* \d *)

Inductive piece :=
| One (k : cls)
| Plus (k : cls).

Record regex := Regex {
  re_before : list piece;
  re_group1 : list piece;
  re_after : list piece
}.

Definition cls_ok (k : cls) (c : char) : bool :=
  match k with
  | Lit c' => c =? c'
  | NotOf cs => negb (existsb (N.eqb c) cs)
  | Digit => isdecimal c
  end.

Fixpoint match_plus {A} (k : cls) (s : str) (cont : str → option A) : option A :=
  match s with
  | [] => None
  | c :: s' =>
    if cls_ok k c then
      match match_plus k s' cont with
      | Some r => Some r
      | None => cont s'
      end
    else None
  end.

Fixpoint match_seq {A} (ps : list piece) (s : str) (cont : str → option A) : option A :=
  match ps with
  | [] => cont s
  | One k :: ps' =>
    match s with
    | [] => None
    | c :: s' => if cls_ok k c then match_seq ps' s' cont else None
    end
  | Plus k :: ps' => match_plus k s (λ s', match_seq ps' s' cont)
  end.

(** A match that starts at the head of [s]; the result is group 1. *)
Definition match_at (r : regex) (s : str) : option str :=
  match_seq (re_before r) s (λ s1,
  match_seq (re_group1 r) s1 (λ s2,
  match_seq (re_after r) s2 (λ _,
  Some (take (length s1 - length s2) s1)))).

(** [re.search]: the match at the leftmost position that has one. *)
Fixpoint re_search (r : regex) (s : str) : option str :=
  match match_at r s with
  | Some g => Some g
  | None =>
    match s with
    | [] => None
    | _ :: s' => re_search r s'
    end
  end.

Definition lits (s : str) : list piece := map (λ c, One (Lit c)) s.

(** [r"https://([^\.]+)\.wd\d+\.myworkdayjobs\.com"] *)
Definition WORKDAY_TENANT_RE : regex := {|
  re_before := lits (u "https://");
  re_group1 := [Plus (NotOf (u "."))];
  re_after := lits (u ".wd") ++ [Plus Digit] ++ lits (u ".myworkdayjobs.com")
|}.

Definition extract_workday_tenant (url : str) : option str :=
  match re_search WORKDAY_TENANT_RE url with
  | Some group1 => Some group1
  | None => None
  end.


End Text.

(** ** Values of the cache

    What [json.load] can return.  A float is kept exactly, as [m * 2^e],
    which is all that [==] against an integer needs. *)

Inductive pyfloat :=
| Finite (m e : Z)
| Infinite (negative : bool)
| NaN.

Local Unset Elimination Schemes.
Inductive pyval :=
| PNone
| PBool (b : bool)
| PInt (z : Z)
| PFloat (f : pyfloat)
| PStr (s : str)
| PList (l : list pyval)
| PDict (d : gmap str pyval).
Local Set Elimination Schemes.

(** [v == z] for an integer [z]: numbers compare by value ([True] is 1 and
    [False] is 0), anything else is unequal. *)
Definition py_eq_int (v : pyval) (z : Z) : bool :=
  match v with
  | PBool b => (Z.b2z b =? z)%Z
  | PInt n => (n =? z)%Z
  | PFloat (Finite m e) =>
    if (0 <=? e)%Z then (m * 2 ^ e =? z)%Z else (m =? z * 2 ^ (- e))%Z
  | _ => false
  end.

(** ** The outside world *)

(** An exception is known by the name of its class. *)
Definition exn : Type := str.

Inductive result (A : Type) :=
| Ok (a : A)
| Raised (e : exn).
Arguments Ok {A} a.
Arguments Raised {A} e.

Class World (W : Type) := {
  os_getenv : str → option str;
  page_goto : str → N → W → result unit * W;
  page_fill : str → str → W → result unit * W;
  keyboard_press : str → W → result unit * W;
  page_url : W → str;
  page_content : W → result str * W;
  time_sleep : N → W → W;
  (* time.sleep(random.uniform(lo, hi)) *)
  sleep_uniform : N → N → W → W
}.

(** What the run leaves behind: the password tried for a tenant (the line
    printed before each attempt) and the cell written by
    [ws.update_cell]. *)
Inductive event :=
| TryPassword (tenant : str) (idx : Z)
| UpdateCell (row col : nat) (value : str).

Record state (W : Type) := State {
  page : W;
  workday_cache : gmap str pyval;
  log : list event
}.
Arguments State {W} page workday_cache log.
Arguments page {W} s.
Arguments workday_cache {W} s.
Arguments log {W} s.

(** Computations that read and change the state and may raise. *)
Definition M (W A : Type) : Type := state W → result A * state W.

Definition ret {W A} (a : A) : M W A := λ s, (Ok a, s).

Definition bind {W A B} (m : M W A) (k : A → M W B) : M W B :=
  λ s, match m s with
       | (Ok a, s') => k a s'
       | (Raised e, s') => (Raised e, s')
       end.

Declare Scope py_scope.
Delimit Scope py_scope with py.
Notation "x <- m ;; k" := (bind m (λ x, k))
  (at level 100, m at next level, right associativity) : py_scope.
Notation "m ;; k" := (bind m (λ _, k))
  (at level 100, right associativity) : py_scope.

(** [try: body except Exception as e: handler(e)] *)
Definition try_except {W A} (body : M W A) (handler : exn → M W A) : M W A :=
  λ s, match body s with
       | (Ok a, s') => (Ok a, s')
       | (Raised e, s') => handler e s'
       end.

Section Run.
Context `{Unicode} {W : Type} `{World W}.
Local Open Scope py_scope.

Definition on_page {A} (op : W → result A * W) : M W A :=
  λ s, let '(r, w) := op (page s) in (r, State w (workday_cache s) (log s)).

Definition goto (url : str) (timeout : N) : M W unit := on_page (page_goto url timeout).
Definition fill (selector value : str) : M W unit := on_page (page_fill selector value).
Definition press (key : str) : M W unit := on_page (keyboard_press key).
Definition content : M W str := on_page page_content.
Definition get_url : M W str := λ s, (Ok (page_url (page s)), s).
Definition sleep (seconds : N) : M W unit := on_page (λ w, (Ok (), time_sleep seconds w)).
Definition sleep_random (lo hi : N) : M W unit := on_page (λ w, (Ok (), sleep_uniform lo hi w)).

Definition emit (e : event) : M W unit :=
  λ s, (Ok (), State (page s) (workday_cache s) (log s ++ [e])).
Definition get_cache : M W (gmap str pyval) := λ s, (Ok (workday_cache s), s).
(** [cache[tenant] = v] *)
Definition set_cache (tenant : str) (v : pyval) : M W unit :=
  λ s, (Ok (), State (page s) (<[tenant := v]> (workday_cache s)) (log s)).

(** ** 4. Login functions *)

(** [not x] for the result of [os.getenv]. *)
Definition unset (x : option str) : bool :=
  match x with
  | None => true
  | Some s => negb (truthy s)
  end.

Definition attempt_login (login_url email password : str) : M W bool :=
  try_except
    (goto login_url 45000 ;;
     sleep 3 ;;
     fill (u "input[type=email], input[type=text]") email ;;
     fill (u "input[type=password]") password ;;
     press (u "Enter") ;;
     sleep 5 ;;
     url <- get_url ;;
     if negb (str_in (u "login") (lower url)) then ret true else ret false)
    (λ _, ret false).

(** The order in which the two passwords are tried. *)
Definition login_order (tenant : str) (cache : gmap str pyval) : list Z :=
  match cache !! tenant with
  | Some cached_idx => if py_eq_int cached_idx 2 then [2; 1]%Z else [1; 2]%Z
  | None => [1; 2]%Z
  end.

(** [for idx in order: ...], and what follows the loop. *)
Fixpoint login_loop (tenant login_url email pwd1 pwd2 : str) (order : list Z) : M W bool :=
  match order with
  | [] => ret false
  | idx :: order' =>
    let pwd := if (idx =? 1)%Z then pwd1 else pwd2 in
    emit (TryPassword tenant idx) ;;
    ok <- attempt_login login_url email pwd ;;
    if ok then
      set_cache tenant (PInt idx) ;;
      ret true
    else login_loop tenant login_url email pwd1 pwd2 order'
  end.

Definition workday_try_login (tenant : str) : M W bool :=
  let email := os_getenv (u "WORKDAY_EMAIL") in
  let pwd1 := os_getenv (u "WORKDAY_PASSWORD_1") in
  let pwd2 := os_getenv (u "WORKDAY_PASSWORD_2") in
  if unset email || unset pwd1 || unset pwd2 then ret false
  else
    let login_url := u "https://" ++ tenant ++ u ".myworkday.com/" ++ tenant ++ u "/login.htm" in
    cache <- get_cache ;;
    let order := login_order tenant cache in
    login_loop tenant login_url (default [] email) (default [] pwd1) (default [] pwd2) order.

(** ** 6. Sheet processing *)

Fixpoint find_columns_from (i : nat) (header_row : list str)
    (url_idx decision_idx : option nat) : option nat * option nat :=
  match header_row with
  | [] => (url_idx, decision_idx)
  | h :: rest =>
    (* [h or the empty string] is [h]: a header cell is a string *)
    let name := lower (strip h) in
    let url_idx := if str_eq name (u "url") then Some i else url_idx in
    let decision_idx := if str_eq name (u "decision") then Some i else decision_idx in
    find_columns_from (S i) rest url_idx decision_idx
  end.

Definition find_columns (header_row : list str) : option nat * option nat :=
  find_columns_from 0 header_row None None.

(** [row[idx].strip()] when the row is long enough and the cell is not
    empty, the empty string otherwise. *)
Definition cell (row : list str) (idx : nat) : str :=
  match row !! idx with
  | Some c => if truthy c then strip c else []
  | None => []
  end.

Definition update_cell (row col : nat) (value : str) : M W unit :=
  emit (UpdateCell row col value).

(** A data row that is visited: long enough, with an address and without
    a decision yet. *)
Definition eligible (url_idx decision_idx : nat) (row : list str) : bool :=
  negb (bool_decide (length row ≤ max url_idx decision_idx)%nat) &&
  truthy (cell row url_idx) &&
  negb (truthy (cell row decision_idx)).

(** Workday: the tenant's login, whose result is not used. *)
Definition workday_login_step (url domain : str) : M W unit :=
  if str_eq domain (u "workday") then
    match extract_workday_tenant url with
    | Some tenant =>
      if truthy tenant then (_ <- workday_try_login tenant ;; ret ())
      else ret ()
    | None => ret ()
    end
  else ret ().

(** The body of the [try] around the page fetch. *)
Definition fetch_status (url domain : str) : M W str :=
  goto url 45000 ;;
  sleep 5 ;;
  text <- content ;;
  ret (classify_status text domain).

(** The body of the loop over the rows; the result is [updated]. *)
Definition process_row (url_idx decision_idx i : nat) (row : list str)
    (updated : nat) : M W nat :=
  let sheet_row_idx := (i + 1)%nat in
  if bool_decide (length row ≤ max url_idx decision_idx)%nat then ret updated
  else
    let url := cell row url_idx in
    let decision_val := cell row decision_idx in
    if negb (truthy url) then ret updated
    else if truthy decision_val then ret updated
    else
      let domain := detect_domain url in
      workday_login_step url domain ;;
      status <- try_except (fetch_status url domain) (λ e, ret (u "ERROR: " ++ e)) ;;
      update_cell sheet_row_idx (decision_idx + 1)%nat status ;;
      let updated := (updated + 1)%nat in
      sleep_random 3 6 ;;
      ret updated.

(** [for i in range(1, len(values))], entered at row [i] with the rows
    from there on. *)
Fixpoint process_rows (url_idx decision_idx i : nat) (rows : list (list str))
    (updated : nat) : M W nat :=
  match rows with
  | [] => ret updated
  | row :: rows' =>
    updated <- process_row url_idx decision_idx i row updated ;;
    process_rows url_idx decision_idx (S i) rows' updated
  end.

(** [values] is what [ws.get_all_values()] returned. *)
Definition process_worksheet (values : list (list str)) : M W nat :=
  match values with
  | [] => ret 0%nat
  | header :: rows =>
    match find_columns header with
    | (Some url_idx, Some decision_idx) => process_rows url_idx decision_idx 1 rows 0
    | _ => ret 0%nat
    end
  end.

End Run.

(** ** The LinkedIn login and the loop over the sheets

    [linkedin_login] uses two more calls on the page. *)

Class Session (W : Type) := {
  page_click : str → W → result unit * W;
  page_wait_for_load_state : str → N → W → result unit * W
}.

Section Run2.
Context `{Unicode} {W : Type} `{World W} `{Session W}.
Local Open Scope py_scope.

Definition click (selector : str) : M W unit := on_page (page_click selector).
Definition wait_for_load_state (state : str) (timeout : N) : M W unit :=
  on_page (page_wait_for_load_state state timeout).

Definition linkedin_login : M W bool :=
  let email := os_getenv (u "LINKEDIN_EMAIL") in
  let pwd := os_getenv (u "LINKEDIN_PASSWORD") in
  if unset email || unset pwd then ret false
  else
    try_except
      (goto (u "https://www.linkedin.com/login") 45000 ;;
       sleep 3 ;;
       fill (u "#username") (default [] email) ;;
       fill (u "#password") (default [] pwd) ;;
       click (u "button[type=submit]") ;;
       wait_for_load_state (u "networkidle") 45000 ;;
       sleep 4 ;;
       url <- get_url ;;
       if str_in (u "feed") url || str_in (u "/jobs") url then ret true
       else ret true)
      (λ _, ret false).

(** [for ws in worksheets: ...] of [main], with the values that each
    sheet gives when it is read; the result is [total_updated]. *)
Fixpoint process_worksheets (sheets : list (list (list str))) (total_updated : nat)
    : M W nat :=
  match sheets with
  | [] => ret total_updated
  | values :: sheets' =>
    updated <- process_worksheet values ;;
    let total_updated := (total_updated + updated)%nat in
    process_worksheets sheets' total_updated
  end.

End Run2.

(** ** Any value as the cache

    [workday_try_login] declares its cache a dict, and [main] hands it what
    [load_workday_cache] returned, which is a dict only when the cache file
    holds a JSON object.  The three operations that the function applies to
    its cache are written out here for every value that [json.load] can
    return, and the function once more over them. *)

(** [tenant in cache]: a key of a dict, an element of a list, a part of a
    string; nothing else is a container. *)
Definition py_contains (cache : pyval) (tenant : str) : result bool :=
  match cache with
  | PDict d => Ok (bool_decide (is_Some (d !! tenant)))
  | PList l =>
    Ok (existsb (λ v, match v with PStr s => str_eq s tenant | _ => false end) l)
  | PStr s => Ok (str_in tenant s)
  | _ => Raised (u "TypeError")
  end.

(** [cache[tenant]], where [tenant] is a string. *)
Definition py_getitem (cache : pyval) (tenant : str) : result pyval :=
  match cache with
  | PDict d =>
    match d !! tenant with
    | Some v => Ok v
    | None => Raised (u "KeyError")
    end
  | _ => Raised (u "TypeError")
  end.

(** [cache[tenant] = v]: the cache after the assignment. *)
Definition py_setitem (cache : pyval) (tenant : str) (v : pyval) : result pyval :=
  match cache with
  | PDict d => Ok (PDict (<[tenant := v]> d))
  | _ => Raised (u "TypeError")
  end.

(** The state of a run whose cache is any value. *)
Record run (W : Type) := Run {
  run_page : W;
  run_cache : pyval;
  run_log : list event
}.
Arguments Run {W} run_page run_cache run_log.
Arguments run_page {W} r.
Arguments run_cache {W} r.
Arguments run_log {W} r.

Section AnyCache.
Context `{Unicode} {W : Type} `{World W}.

Definition R (A : Type) : Type := run W → result A * run W.

Definition ret_any {A} (a : A) : R A := λ t, (Ok a, t).

Definition bind_any {A B} (m : R A) (k : A → R B) : R B :=
  λ t, match m t with
       | (Ok a, t') => k a t'
       | (Raised e, t') => (Raised e, t')
       end.

(** A computation that does not use the cache (an attempt, a printed
    line) runs as it is, on the page and the log. *)
Definition on_state {A} (m : M W A) : R A :=
  λ t, let '(r, s') := m (State (run_page t) ∅ (run_log t)) in
       (r, Run (page s') (run_cache t) (log s')).

Definition set_any (tenant : str) (v : pyval) : R unit :=
  λ t, match py_setitem (run_cache t) tenant v with
       | Ok cache => (Ok (), Run (run_page t) cache (run_log t))
       | Raised e => (Raised e, t)
       end.

(** [order = [1, 2]; if tenant in cache: ...] *)
Definition login_order_any (tenant : str) : R (list Z) :=
  λ t, match py_contains (run_cache t) tenant with
       | Raised e => (Raised e, t)
       | Ok false => (Ok [1; 2]%Z, t)
       | Ok true =>
         match py_getitem (run_cache t) tenant with
         | Raised e => (Raised e, t)
         | Ok cached_idx =>
           (Ok (if py_eq_int cached_idx 2 then [2; 1]%Z else [1; 2]%Z), t)
         end
       end.

Fixpoint login_loop_any (tenant login_url email pwd1 pwd2 : str) (order : list Z)
    : R bool :=
  match order with
  | [] => ret_any false
  | idx :: order' =>
    let pwd := if (idx =? 1)%Z then pwd1 else pwd2 in
    bind_any (on_state (emit (TryPassword tenant idx))) (λ _,
    bind_any (on_state (attempt_login login_url email pwd)) (λ ok,
    if ok then bind_any (set_any tenant (PInt idx)) (λ _, ret_any true)
    else login_loop_any tenant login_url email pwd1 pwd2 order'))
  end.

Definition workday_try_login_any (tenant : str) : R bool :=
  let email := os_getenv (u "WORKDAY_EMAIL") in
  let pwd1 := os_getenv (u "WORKDAY_PASSWORD_1") in
  let pwd2 := os_getenv (u "WORKDAY_PASSWORD_2") in
  if unset email || unset pwd1 || unset pwd2 then ret_any false
  else
    let login_url := u "https://" ++ tenant ++ u ".myworkday.com/" ++ tenant ++ u "/login.htm" in
    bind_any (login_order_any tenant) (λ order,
    login_loop_any tenant login_url (default [] email) (default [] pwd1)
      (default [] pwd2) order).

End AnyCache.

(** ** The cache file

    [json.dump] and [json.load] are library code.  The part of them that
    the cache file of this program needs is written out here: the text
    that [json.dump] writes for a dict of integers with an indentation,
    and the objects of integers that [json.load] reads.  The class [Json]
    takes the two functions on every value, bound to that part by its two
    laws. *)

(** Every value of the mapping is the index 1 or 2. *)
Definition index_mapping (cache : gmap str pyval) : Prop :=
  ∀ tenant v, cache !! tenant = Some v → v = PInt 1 ∨ v = PInt 2.

(** A code point of a Python string, and the two halves of a surrogate
    pair. *)
Definition code_point (c : char) : bool := c <? 1114112.
Definition high_surrogate (c : char) : bool := (55296 <=? c) && (c <=? 56319).
Definition low_surrogate (c : char) : bool := (56320 <=? c) && (c <=? 57343).

(** *** What [json.dump] writes

    A string goes between double quotes; with [ensure_ascii], which is the
    default, the quote, the backslash and five control characters have a
    short escape, the other characters outside the visible ASCII range are
    written [\uXXXX] with four lower-case hexadecimal digits, and a
    character above [0xFFFF] as the two halves of its surrogate pair. *)
Definition hex_digit (n : N) : char := if n <? 10 then 48 + n else 87 + n.

Definition hex4 (n : N) : str :=
  [hex_digit (n / 4096 mod 16); hex_digit (n / 256 mod 16);
   hex_digit (n / 16 mod 16); hex_digit (n mod 16)].

Definition escape_ascii (c : char) : str :=
  if c =? 34 then [92; 34]
  else if c =? 92 then [92; 92]
  else if c =? 10 then [92; 110]
  else if c =? 13 then [92; 114]
  else if c =? 9 then [92; 116]
  else if c =? 12 then [92; 102]
  else if c =? 8 then [92; 98]
  else if (32 <=? c) && (c <=? 126) then [c]
  else if c <? 65536 then [92; 117] ++ hex4 c
  else
    let n := c - 65536 in
    [92; 117] ++ hex4 (55296 + n / 1024 mod 1024) ++
    [92; 117] ++ hex4 (56320 + n mod 1024).

Definition json_string (s : str) : str := [34] ++ flat_map escape_ascii s ++ [34].

Definition decimal (z : Z) : str := u (NilEmpty.string_of_int (Z.to_int z)).

Fixpoint join (sep : str) (parts : list str) : str :=
  match parts with
  | [] => []
  | [p] => p
  | p :: parts' => p ++ sep ++ join sep parts'
  end.

(** One entry of an object on its line, and the object: its entries in
    the order of the dict, a comma and a new line between them. *)
Definition entry_text (indent : N) (e : str * Z) : str :=
  replicate (N.to_nat indent) 32 ++ json_string e.1 ++ u ": " ++ decimal e.2.

Definition object_text (indent : N) (entries : list (str * Z)) : str :=
  match entries with
  | [] => u "{}"
  | _ =>
    u "{" ++ [10] ++
    join (u "," ++ [10]) (map (entry_text indent) entries) ++
    [10] ++ u "}"
  end.

(** *** What [json.load] reads

    The reader goes through the text one character at a time; [place] is
    where it stands.  It reads an object whose values are integers; on any
    other text, where [json.load] raises or returns something else, it
    gives [None]. *)
Inductive place :=
| AtStart
| AtKeyOrClose
| AtKey
| InKey (k : str)
| InEscape (k : str)
| InHex (k : str) (high : option N) (more : nat) (n : N)
| AfterHigh (k : str) (high : N)
| HighEscape (k : str) (high : N)
| AtColon (k : str)
| AtValue (k : str)
| AtDigits (k : str)
| AfterZero (k : str)
| InInt (k : str) (negative : bool) (n : Z) (digits : N)
| AfterValue
| AtEnd.

Definition blank_char (c : char) : bool :=
  (c =? 32) || (c =? 10) || (c =? 13) || (c =? 9).

Definition is_digit (c : char) : bool := (48 <=? c) && (c <=? 57).

Definition signed (negative : bool) (n : Z) : Z := if negative then (- n)%Z else n.

Definition hex_value (c : char) : option N :=
  if (48 <=? c) && (c <=? 57) then Some (c - 48)
  else if (97 <=? c) && (c <=? 102) then Some (c - 87)
  else if (65 <=? c) && (c <=? 70) then Some (c - 55)
  else None.

(** The character that follows a backslash. *)
Definition unescape (c : char) : option char :=
  if (c =? 34) || (c =? 92) || (c =? 47) then Some c
  else if c =? 98 then Some 8
  else if c =? 102 then Some 12
  else if c =? 110 then Some 10
  else if c =? 114 then Some 13
  else if c =? 116 then Some 9
  else None.

(** The place after a [\uXXXX] of value [n]: a low surrogate joins the
    high one just before it; a high surrogate waits for what follows. *)
Definition after_hex (k : str) (high : option N) (n : N) : place :=
  match high with
  | Some h =>
    if low_surrogate n then InKey (k ++ [65536 + (h - 55296) * 1024 + (n - 56320)])
    else if high_surrogate n then AfterHigh (k ++ [h]) n
    else InKey (k ++ [h; n])
  | None =>
    if high_surrogate n then AfterHigh k n else InKey (k ++ [n])
  end.

(** [int] takes at most this many digits. *)
Definition MAX_STR_DIGITS : N := 4300.

Fixpoint read_from (p : place) (acc : gmap str pyval) (s : str)
    : option (gmap str pyval) :=
  match s with
  | [] => match p with AtEnd => Some acc | _ => None end
  | c :: s' =>
    match p with
    | AtStart =>
      if blank_char c then read_from AtStart acc s'
      else if c =? 123 then read_from AtKeyOrClose acc s' else None
    | AtKeyOrClose =>
      if blank_char c then read_from AtKeyOrClose acc s'
      else if c =? 34 then read_from (InKey []) acc s'
      else if c =? 125 then read_from AtEnd acc s' else None
    | AtKey =>
      if blank_char c then read_from AtKey acc s'
      else if c =? 34 then read_from (InKey []) acc s' else None
    | InKey k =>
      if c =? 34 then read_from (AtColon k) acc s'
      else if c =? 92 then read_from (InEscape k) acc s'
      else if c <? 32 then None
      else read_from (InKey (k ++ [c])) acc s'
    | InEscape k =>
      if c =? 117 then read_from (InHex k None 3 0) acc s'
      else
        match unescape c with
        | Some c' => read_from (InKey (k ++ [c'])) acc s'
        | None => None
        end
    | InHex k high more n =>
      match hex_value c with
      | Some d =>
        match more with
        | O => read_from (after_hex k high (16 * n + d)) acc s'
        | S more' => read_from (InHex k high more' (16 * n + d)) acc s'
        end
      | None => None
      end
    | AfterHigh k high =>
      if c =? 34 then read_from (AtColon (k ++ [high])) acc s'
      else if c =? 92 then read_from (HighEscape k high) acc s'
      else if c <? 32 then None
      else read_from (InKey (k ++ [high; c])) acc s'
    | HighEscape k high =>
      if c =? 117 then read_from (InHex k (Some high) 3 0) acc s'
      else
        match unescape c with
        | Some c' => read_from (InKey (k ++ [high; c'])) acc s'
        | None => None
        end
    | AtColon k =>
      if blank_char c then read_from (AtColon k) acc s'
      else if c =? 58 then read_from (AtValue k) acc s' else None
    | AtValue k =>
      if blank_char c then read_from (AtValue k) acc s'
      else if c =? 45 then read_from (AtDigits k) acc s'
      else if c =? 48 then read_from (AfterZero k) acc s'
      else if is_digit c then read_from (InInt k false (Z.of_N (c - 48)) 1) acc s'
      else None
    | AtDigits k =>
      if c =? 48 then read_from (AfterZero k) acc s'
      else if is_digit c then read_from (InInt k true (Z.of_N (c - 48)) 1) acc s'
      else None
    | AfterZero k =>
      if blank_char c then read_from AfterValue (<[k := PInt 0]> acc) s'
      else if c =? 44 then read_from AtKey (<[k := PInt 0]> acc) s'
      else if c =? 125 then read_from AtEnd (<[k := PInt 0]> acc) s'
      else None
    | InInt k negative n digits =>
      if is_digit c then
        if MAX_STR_DIGITS <=? digits then None
        else read_from (InInt k negative (10 * n + Z.of_N (c - 48)) (digits + 1)) acc s'
      else if blank_char c
      then read_from AfterValue (<[k := PInt (signed negative n)]> acc) s'
      else if c =? 44
      then read_from AtKey (<[k := PInt (signed negative n)]> acc) s'
      else if c =? 125
      then read_from AtEnd (<[k := PInt (signed negative n)]> acc) s'
      else None
    | AfterValue =>
      if blank_char c then read_from AfterValue acc s'
      else if c =? 44 then read_from AtKey acc s'
      else if c =? 125 then read_from AtEnd acc s' else None
    | AtEnd => if blank_char c then read_from AtEnd acc s' else None
    end
  end.

Definition read_object (text : str) : option (gmap str pyval) :=
  read_from AtStart ∅ text.

Class Json := {
  (* json.dump(v, f, indent=indent): the text written *)
  json_dump : pyval → N → str;
  (* json.load(f) on a file with this text; [None] when it raises *)
  json_load : str → option pyval;
  (* a dict of the indices 1 and 2 is written as the object of its
     entries, in the order that the dict has them in *)
  json_dump_object (d : gmap str pyval) (indent : N) :
    index_mapping d →
    ∃ entries : list (str * Z),
      prod_map id PInt <$> entries ≡ₚ map_to_list d ∧
      json_dump (PDict d) indent = object_text indent entries;
  (* an object of integers is loaded as the dict of its entries *)
  json_load_object (text : str) (d : gmap str pyval) :
    read_object text = Some d → json_load text = Some (PDict d)
}.

(** A file: whether it may be opened for reading and for writing, and the
    text that reading it gives, [None] when its bytes do not decode. *)
Record file := File {
  may_read : bool;
  may_write : bool;
  file_text : option str
}.

Section Cache.
Context `{Json}.

Definition WORKDAY_CACHE_PATH : str := u "workday_cache.json".

(** [path.exists()] fails for a file that is not there; every exception
    of [open] and [json.load] gives the empty dict. *)
Definition load_workday_cache (files : gmap str file) : pyval :=
  match files !! WORKDAY_CACHE_PATH with
  | None => PDict ∅
  | Some f =>
    if may_read f then
      match file_text f with
      | Some text =>
        match json_load text with
        | Some v => v
        | None => PDict ∅
        end
      | None => PDict ∅
      end
    else PDict ∅
  end.

(** [open(path, "w")] creates a file that is not there, one that the
    process may read and write; it empties a file that is there and keeps
    its mode, and it raises when the mode forbids writing.  The result is
    the file system after the call. *)
Definition save_workday_cache (cache : pyval) (files : gmap str file)
    : result unit * gmap str file :=
  match files !! WORKDAY_CACHE_PATH with
  | None =>
    (Ok (), <[WORKDAY_CACHE_PATH := File true true (Some (json_dump cache 2))]> files)
  | Some f =>
    if may_write f then
      (Ok (),
       <[WORKDAY_CACHE_PATH := File (may_read f) true (Some (json_dump cache 2))]> files)
    else (Raised (u "PermissionError"), files)
  end.

End Cache.

(** ** The vocabulary of the statements *)

(** A character that lower-casing leaves alone: ASCII and not an
    upper-case letter. *)
Definition lower_stable (c : char) : bool :=
  is_ascii c && negb ((65 <=? c) && (c <=? 90)).

(** The full stop. *)
Definition dot : char := 46.

(** The address [https://<tenant>.wd<digits>.myworkdayjobs.com<rest>]. *)
Definition workday_url (tenant digits rest : str) : str :=
  u "https://" ++ tenant ++ u ".wd" ++ digits ++ u ".myworkdayjobs.com" ++ rest.

(** The ordered list of host markers, as the specification gives it. *)
Definition HOST_MARKERS : list (str * str) := [
  (u "linkedin.com", u "linkedin");
  (u "myworkdayjobs.com", u "workday");
  (u "greenhouse.io", u "greenhouse");
  (u "lever.co", u "lever");
  (u "taleo.net", u "taleo");
  (u "smartrecruiters.com", u "smartrecruiters")
].

(** The float [m * 2^e] has the integer value [z]. *)
Definition float_is (m e z : Z) : Prop :=
  (if (0 <=? e)%Z then m * 2 ^ e = z else m = z * 2 ^ (- e))%Z.

(** No cell is written in this stretch of the log. *)
Definition no_writes (new : list event) : Prop :=
  ∀ r c v, UpdateCell r c v ∉ new.

Section Shapes.
Context `{Unicode}.

(** [tenant] is a label (not empty, no dot) and [digits] a run of decimal
    digits (not empty). *)
Definition well_shaped (tenant digits : str) : Prop :=
  tenant ≠ [] ∧ (dot ∉ tenant) ∧
  digits ≠ [] ∧ Forall (λ c, isdecimal c = true) digits.

(** The address has exactly the shape [https://<tenant>.wd<digits>.myworkdayjobs.com...]. *)
Definition exact_shape (url tenant : str) : Prop :=
  ∃ digits rest, well_shaped tenant digits ∧ url = workday_url tenant digits rest.

(** The shape occurs in the address after the prefix [pre]. *)
Definition shape_after (pre url tenant : str) : Prop :=
  ∃ digits rest, well_shaped tenant digits ∧ url = pre ++ workday_url tenant digits rest.

(** The domain of the first marker that occurs in the lower-cased
    address, [generic] when none does. *)
Definition classify_domain (url : str) : str :=
  match find (λ '(marker, _), str_in marker (lower url)) HOST_MARKERS with
  | Some (_, domain) => domain
  | None => u "generic"
  end.

(** The phrase occurs in the text when case is ignored: it occurs in the
    lower-cased text, as it does when the text has it written in some mix
    of upper and lower case. *)
Definition mentions (text phrase : str) : Prop :=
  str_in phrase (lower text) = true ∨
  ∃ variant, forallb is_ascii variant = true ∧ ascii_lower variant = phrase ∧
    str_in variant text = true.

End Shapes.

Section Runs.
Context {W : Type} `{World W}.

(** The state after the line that announces the attempt with password
    [idx]. *)
Definition announced (tenant : str) (idx : Z) (s : state W) : state W :=
  State (page s) (workday_cache s) (log s ++ [TryPassword tenant idx]).

(** The three Workday settings are there and not empty. *)
Definition credentials_set : Prop :=
  unset (os_getenv (W:=W) (u "WORKDAY_EMAIL")) = false ∧
  unset (os_getenv (W:=W) (u "WORKDAY_PASSWORD_1")) = false ∧
  unset (os_getenv (W:=W) (u "WORKDAY_PASSWORD_2")) = false.

Definition login_url_of (tenant : str) : str :=
  u "https://" ++ tenant ++ u ".myworkday.com/" ++ tenant ++ u "/login.htm".

Definition email_set : str := default [] (os_getenv (W:=W) (u "WORKDAY_EMAIL")).

(** The password with the index [idx]. *)
Definition candidate (idx : Z) : str :=
  if (idx =? 1)%Z then default [] (os_getenv (W:=W) (u "WORKDAY_PASSWORD_1"))
  else default [] (os_getenv (W:=W) (u "WORKDAY_PASSWORD_2")).

(** The state in which a row is left when its fetch raised [kind] and
    ended in state [s2]. *)
Definition after_failure (decision_idx i : nat) (kind : exn) (s2 : state W) : state W :=
  State (sleep_uniform 3 6 (page s2)) (workday_cache s2)
    (log s2 ++ [UpdateCell (i + 1) (decision_idx + 1) (u "ERROR: " ++ kind)]).

End Runs.

Section Attempts.
Context `{Unicode} {W : Type} `{World W}.

(** One attempt with the password of index [idx] as it shows on the page:
    go to the login page of the tenant, wait, fill in the e-mail address
    and that password, press Enter, wait; the attempt logged in when the
    address of the page, lower-cased, no longer contains [login], and it
    failed when a call on the page raised.  The result is the verdict with
    the page that the attempt leaves. *)
Definition attempt_on (tenant : str) (idx : Z) (w : W) : bool * W :=
  match page_goto (login_url_of tenant) 45000 w with
  | (Raised _, w1) => (false, w1)
  | (Ok _, w1) =>
    match page_fill (u "input[type=email], input[type=text]") email_set
            (time_sleep 3 w1) with
    | (Raised _, w2) => (false, w2)
    | (Ok _, w2) =>
      match page_fill (u "input[type=password]") (candidate idx) w2 with
      | (Raised _, w3) => (false, w3)
      | (Ok _, w3) =>
        match keyboard_press (u "Enter") w3 with
        | (Raised _, w4) => (false, w4)
        | (Ok _, w4) =>
          (negb (str_in (u "login") (lower (page_url (time_sleep 5 w4)))),
           time_sleep 5 w4)
        end
      end
    end
  end.

End Attempts.

(** The state of a run with the dict of [s] as its cache. *)
Definition to_run {W : Type} (s : state W) : run W :=
  Run (page s) (PDict (workday_cache s)) (log s).

(** The value is a dict. *)
Definition is_dict (v : pyval) : bool :=
  match v with PDict _ => true | _ => false end.

(** *** Further vocabulary: rules of the classifier, rows, the cache *)

(** The lists of [classify_status] with their labels, in the order in
    which it goes through them. *)
Definition LINKEDIN_RULES : list (list str * str) := [
  (LINKEDIN_REJECT_PATTERNS, u "APPLICATION REJECTED (LinkedIn)");
  (LINKEDIN_REVIEW_PATTERNS, u "APPLICATION UNDER REVIEW (LinkedIn)");
  (LINKEDIN_VIEWED_PATTERNS, u "APPLICATION VIEWED (LinkedIn)");
  (LINKEDIN_SUBMITTED_PATTERNS, u "APPLICATION SUBMITTED (LinkedIn)");
  (CLOSED_PATTERNS, u "JOB CLOSED (LinkedIn)")
].

Definition WORKDAY_RULES : list (list str * str) := [
  (WORKDAY_REJECT_PATTERNS, u "APPLICATION REJECTED (Workday)");
  (WORKDAY_INPROCESS_PATTERNS, u "APPLICATION IN PROCESS (Workday)");
  (CLOSED_PATTERNS, u "JOB CLOSED (Workday)")
].

Definition rules_of (domain : str) : list (list str * str) :=
  if str_eq domain (u "linkedin") then LINKEDIN_RULES
  else if str_eq domain (u "workday") then WORKDAY_RULES
  else [(CLOSED_PATTERNS, u "JOB CLOSED (" ++ domain ++ u ")")].

Definition unknown_of (domain : str) : str :=
  if str_eq domain (u "linkedin") then u "UNKNOWN (LinkedIn)"
  else if str_eq domain (u "workday") then u "UNKNOWN (Workday)"
  else u "UNKNOWN (" ++ domain ++ u ")".

(** The seven domains and the labels that the classifier has for them. *)
Definition DOMAINS : list str := HOST_MARKERS.*2 ++ [u "generic"].

Definition status_labels : list str :=
  flat_map (λ domain, (rules_of domain).*2 ++ [unknown_of domain]) DOMAINS.

(** The sheet rows of the cells written, and the passwords tried, in a
    stretch of the log. *)
Definition written_rows (new : list event) : list nat :=
  omap (λ e, match e with UpdateCell r _ _ => Some r | TryPassword _ _ => None end) new.

Definition tried_passwords (new : list event) : list (str * Z) :=
  omap (λ e, match e with TryPassword t idx => Some (t, idx) | UpdateCell _ _ _ => None end) new.

(** Every entry of the later cache is the entry of the earlier one or the
    index 1 or 2. *)
Definition kept_or_index (c c' : gmap str pyval) : Prop :=
  ∀ tenant, c' !! tenant = c !! tenant ∨
            c' !! tenant = Some (PInt 1) ∨ c' !! tenant = Some (PInt 2).

(** The values of the sheet once a cell is written: [update_cell] counts
    rows and columns from 1. *)
Definition write_cell (values : list (list str)) (e : event) : list (list str) :=
  match e with
  | UpdateCell r c v => alter (λ row, <[pred c := v]> row) (pred r) values
  | TryPassword _ _ => values
  end.

(** The values of the sheet after the writes of a stretch of the log. *)
Definition after_writes (values : list (list str)) (new : list event)
    : list (list str) :=
  foldl write_cell values new.

(** A Python string in which no high surrogate is directly followed by a
    low surrogate: the two halves of a pair, written apart, are read as
    one character. *)
Fixpoint unsplit (s : str) : bool :=
  match s with
  | [] => true
  | c :: s' =>
    code_point c &&
    negb (high_surrogate c && match s' with c' :: _ => low_surrogate c' | [] => false end) &&
    unsplit s'
  end.

Definition starts_low (s : str) : bool :=
  match s with c :: _ => low_surrogate c | [] => false end.

(** The four ways in which a character is written in a string. *)
Inductive escaped (c : char) : str → Prop :=
| escaped_short x :
    x ≠ 117 → unescape x = Some c → escaped c [92; x]
| escaped_plain :
    c ≠ 34 → c ≠ 92 → 32 ≤ c → high_surrogate c = false → low_surrogate c = false →
    escaped c [c]
| escaped_hex :
    c < 65536 → escaped c ([92; 117] ++ hex4 c)
| escaped_pair hi lo :
    hi < 65536 → lo < 65536 →
    high_surrogate hi = true → low_surrogate lo = true →
    65536 + (hi - 55296) * 1024 + (lo - 56320) = c →
    high_surrogate c = false → low_surrogate c = false →
    escaped c (([92; 117] ++ hex4 hi) ++ [92; 117] ++ hex4 lo).

(** One entry put into the mapping read so far. *)
Definition put (acc : gmap str pyval) (e : str * Z) : gmap str pyval :=
  <[e.1 := PInt e.2]> acc.

(** An entry of the cache: a tenant and the index 1 or 2. *)
Definition cache_entry (e : str * Z) : Prop :=
  unsplit e.1 = true ∧ (e.2 = 1 ∨ e.2 = 2)%Z.

(** The cache file is not there, or it may be read and written. *)
Definition cache_file_free (files : gmap str file) : Prop :=
  ∀ f, files !! WORKDAY_CACHE_PATH = Some f → may_read f = true ∧ may_write f = true.

(** Every cell of every sheet is a string without a split pair. *)
Definition unsplit_cells (sheets : list (list (list str))) : Prop :=
  Forall (Forall (Forall (λ c, unsplit c = true))) sheets.

(** Every tenant of the cache is such a string. *)
Definition unsplit_keys (cache : gmap str pyval) : Prop :=
  ∀ tenant, is_Some (cache !! tenant) → unsplit tenant = true.

(** The last position of [l], counted from [i], whose element passes
    [f]; [acc] when there is none. *)
Fixpoint last_index (f : str → bool) (i : nat) (l : list str) (acc : option nat)
    : option nat :=
  match l with
  | [] => acc
  | h :: l' => last_index f (S i) l' (if f h then Some i else acc)
  end.

Section Sheets.
Context `{Unicode}.

(** The visible ASCII characters are not white space. *)
Definition visible_not_space : Prop :=
  ∀ c : char, 33 ≤ c ≤ 126 → isspace c = false.

(** The header cell reads [name] once stripped and lower-cased. *)
Definition named (name h : str) : bool := str_eq (lower (strip h)) name.

(** Column [i] is the last one of the header with the name. *)
Definition last_named (name : str) (header : list str) (i : nat) : Prop :=
  ∃ h, header !! i = Some h ∧ named name h = true ∧
    ∀ j h', (i < j)%nat → header !! j = Some h' → named name h' = false.

(** The row has both cells, an address that is not blank and a decision
    that is blank. *)
Definition to_visit (url_idx decision_idx : nat) (row : list str) : Prop :=
  ∃ url decision,
    row !! url_idx = Some url ∧ row !! decision_idx = Some decision ∧
    strip url ≠ [] ∧ strip decision = [].

(** The sheet rows of the eligible rows, the first of [rows] being row
    [i] of the values. *)
Fixpoint eligible_rows (url_idx decision_idx i : nat) (rows : list (list str))
    : list nat :=
  match rows with
  | [] => []
  | row :: rows' =>
    (if eligible url_idx decision_idx row then [(i + 1)%nat] else []) ++
    eligible_rows url_idx decision_idx (S i) rows'
  end.

End Sheets.

Section Runs2.
Context `{Unicode} {W : Type} `{World W} `{Session W}.
Local Open Scope py_scope.

(** The two LinkedIn settings are there and not empty. *)
Definition linkedin_credentials_set : Prop :=
  unset (os_getenv (W:=W) (u "LINKEDIN_EMAIL")) = false ∧
  unset (os_getenv (W:=W) (u "LINKEDIN_PASSWORD")) = false.

(** The calls of [linkedin_login] on the page, up to the last pause. *)
Definition linkedin_steps : M W unit :=
  goto (u "https://www.linkedin.com/login") 45000 ;;
  sleep 3 ;;
  fill (u "#username") (default [] (os_getenv (W:=W) (u "LINKEDIN_EMAIL"))) ;;
  fill (u "#password") (default [] (os_getenv (W:=W) (u "LINKEDIN_PASSWORD"))) ;;
  click (u "button[type=submit]") ;;
  wait_for_load_state (u "networkidle") 45000 ;;
  sleep 4.

End Runs2.

(** ** Instances to run the definitions on

    The ASCII part of the runtime's tables, a browser whose answers depend
    on the address only, and a reader and writer of JSON objects of
    integers. *)

Definition ascii_isspace (c : char) : bool :=
  ((9 <=? c) && (c <=? 13)) || ((28 <=? c) && (c <=? 32)).

Definition ascii_isdecimal (c : char) : bool := (48 <=? c) && (c <=? 57).

Lemma ascii_lower_app (a p b : str) :
  forallb is_ascii p = true →
  ∃ a' b', ascii_lower (a ++ p ++ b) = a' ++ ascii_lower p ++ b'.
Proof.
  intros _. exists (ascii_lower a), (ascii_lower b).
  unfold ascii_lower. by rewrite !map_app.
Qed.

Definition ascii_tables : Unicode := {|
  lower := ascii_lower;
  isspace := ascii_isspace;
  isdecimal := ascii_isdecimal;
  lower_ascii := ascii_lower_app
|}.

(** The browser of the examples: its state is the address shown and the
    password last typed.  An address with [down] in it times out; pressing
    Enter on a login page with the password ["pw-two"] typed leads to the
    home page; the page content is the address itself. *)
Record browser := Browser { shown : str; typed : str }.

Definition demo_env (name : str) : option str :=
  if str_eq name (u "WORKDAY_EMAIL") then Some (u "me@example.com")
  else if str_eq name (u "WORKDAY_PASSWORD_1") then Some (u "pw-one")
  else if str_eq name (u "WORKDAY_PASSWORD_2") then Some (u "pw-two")
  else None.

Definition demo_world : World browser := {|
  os_getenv := demo_env;
  page_goto := λ url _ b,
    if str_in (u "down") url then (Raised (u "TimeoutError"), b)
    else (Ok (), Browser url (typed b));
  page_fill := λ selector value b,
    if str_eq selector (u "input[type=password]") then (Ok (), Browser (shown b) value)
    else (Ok (), b);
  keyboard_press := λ _ b,
    if str_in (u "login") (shown b) && str_eq (typed b) (u "pw-two")
    then (Ok (), Browser (u "https://acme.myworkday.com/acme/home.htm") (typed b))
    else (Ok (), b);
  page_url := shown;
  page_content := λ b, (Ok (shown b), b);
  time_sleep := λ _ b, b;
  sleep_uniform := λ _ _ b, b
|}.

Definition blank : browser := Browser [] [].

(** The same browser without any setting in the environment. *)
Definition bare_world : World browser := {|
  os_getenv := λ _, None;
  page_goto := page_goto (World:=demo_world);
  page_fill := page_fill (World:=demo_world);
  keyboard_press := keyboard_press (World:=demo_world);
  page_url := shown;
  page_content := page_content (World:=demo_world);
  time_sleep := λ _ b, b;
  sleep_uniform := λ _ _ b, b
|}.

(** A click goes to the feed; waiting changes nothing. *)
Definition demo_session : Session browser := {|
  page_click := λ _ b, (Ok (), Browser (u "https://www.linkedin.com/feed/") (typed b));
  page_wait_for_load_state := λ _ _ b, (Ok (), b)
|}.

(** The environment of [demo_world] with the LinkedIn settings added. *)
Definition linkedin_world : World browser := {|
  os_getenv := λ name,
    if str_eq name (u "LINKEDIN_EMAIL") then Some (u "me@example.com")
    else if str_eq name (u "LINKEDIN_PASSWORD") then Some (u "pw-in")
    else demo_env name;
  page_goto := page_goto (World:=demo_world);
  page_fill := page_fill (World:=demo_world);
  keyboard_press := keyboard_press (World:=demo_world);
  page_url := shown;
  page_content := page_content (World:=demo_world);
  time_sleep := λ _ b, b;
  sleep_uniform := λ _ _ b, b
|}.

(** A reader and writer of JSON for the examples: it is [json] on the
    objects of integers, writes the entries in the order of the map and
    knows no other value. *)
Definition ints_of (d : gmap str pyval) : list (str * Z) :=
  omap (λ e, match e.2 with PInt z => Some (e.1, z) | _ => None end) (map_to_list d).

Definition flat_dump (v : pyval) (indent : N) : str :=
  match v with
  | PDict d => object_text indent (ints_of d)
  | _ => u "null"
  end.

Definition flat_load (text : str) : option pyval := PDict <$> read_object text.

Lemma flat_dump_object (d : gmap str pyval) (indent : N) :
  index_mapping d →
  ∃ entries : list (str * Z),
    prod_map id PInt <$> entries ≡ₚ map_to_list d ∧
    flat_dump (PDict d) indent = object_text indent entries.
Proof.
  intros Hidx. exists (ints_of d). split; [|done].
  assert (Hall : Forall (λ e : str * pyval, e.2 = PInt 1 ∨ e.2 = PInt 2) (map_to_list d)).
  { apply Forall_forall. intros [k v] Hin.
    apply elem_of_map_to_list in Hin. by apply (Hidx k). }
  unfold ints_of. induction Hall as [|[k v] l Hv Hall IH]; [done|].
  cbn [omap list_omap snd fst]. destruct Hv as [Hv|Hv]; cbn [snd] in Hv; subst v;
    cbn [fmap list_fmap prod_map fst snd id]; by f_equiv.
Qed.

Lemma flat_load_object (text : str) (d : gmap str pyval) :
  read_object text = Some d → flat_load text = Some (PDict d).
Proof. unfold flat_load. by intros ->. Qed.

Definition flat_json : Json := {|
  json_dump := flat_dump;
  json_load := flat_load;
  json_dump_object := flat_dump_object;
  json_load_object := flat_load_object
|}.

(** * Properties *)

(** ** Substrings *)

Lemma starts_with_spec (p t : str) :
  starts_with p t = true ↔ ∃ r, t = p ++ r.
Proof.
  revert t. induction p as [|a p IH]; intros t; simpl.
  - split; [intros _; by exists t | done].
  - destruct t as [|b t]; [split; [done | by intros [r Hr]]|].
    rewrite andb_true_iff, IH, N.eqb_eq. split.
    + intros [-> [r ->]]. by exists r.
    + intros [r Hr]. simplify_eq. split; [done | by exists r].
Qed.

Lemma str_in_spec (p t : str) :
  str_in p t = true ↔ ∃ a b, t = a ++ p ++ b.
Proof.
  induction t as [|c t IH]; simpl; rewrite orb_true_iff, starts_with_spec.
  - split.
    + intros [[r Hr] | ?]; [|done]. by exists [], r.
    + intros [a [b Hab]]. left. destruct a; [by exists b | done].
  - rewrite IH. split.
    + intros [[r Hr] | [a [b ->]]]; [by exists [], r | by exists (c :: a), b].
    + intros [[|a0 a] [b Hab]]; [left; by exists b|].
      right. simplify_eq/=. by exists a, b.
Qed.

Lemma any_in_spec (ps : list str) (t : str) :
  any_in ps t = true ↔ ∃ p, p ∈ ps ∧ str_in p t = true.
Proof.
  unfold any_in. rewrite existsb_exists.
  split; intros [p [Hp Hin]]; exists p; split; try done; by apply list_elem_of_In.
Qed.

Lemma ascii_lower_stable (p : str) :
  forallb lower_stable p = true →
  forallb is_ascii p = true ∧ ascii_lower p = p.
Proof.
  induction p as [|c p IH]; simpl; [done|].
  intros [Hc Hp]%andb_prop. destruct (IH Hp) as [Ha Hl].
  unfold lower_stable in Hc. apply andb_prop in Hc as [Hc1 Hc2].
  rewrite Hc1, Ha. split; [done|].
  unfold ascii_lower in *. simpl. rewrite Hl.
  by destruct ((65 <=? c) && (c <=? 90)).
Qed.

Section TextFacts.
Context `{Unicode}.

(** An ASCII text that occurs in a string occurs lower-cased in the
    lower-cased string. *)
Lemma str_in_lower_variant (p t : str) :
  forallb is_ascii p = true →
  str_in p t = true → str_in (ascii_lower p) (lower t) = true.
Proof.
  intros Hp [a [b ->]]%str_in_spec.
  destruct (lower_ascii a p b Hp) as [a' [b' ->]].
  apply str_in_spec. by exists a', b'.
Qed.

(** A phrase of [lower_stable] characters that occurs in a text still
    occurs after lower-casing. *)
Lemma str_in_lower (p t : str) :
  forallb lower_stable p = true →
  str_in p t = true → str_in p (lower t) = true.
Proof.
  intros [Ha Hl]%ascii_lower_stable Hin.
  rewrite <-Hl. by apply str_in_lower_variant.
Qed.

End TextFacts.

(** ** The regular expression of the tenant *)

Section Regex.
Context `{Unicode}.

Lemma match_seq_lits {A} (l : str) (ps : list piece) (s : str) (cont : str → option A) :
  match_seq (lits l ++ ps) s cont =
  if starts_with l s then match_seq ps (drop (length l) s) cont else None.
Proof.
  revert s. induction l as [|a l IH]; intros s; [done|].
  destruct s as [|c s]; [done|].
  cbn [lits map app match_seq cls_ok starts_with length drop].
  rewrite (N.eqb_sym c a). destruct (a =? c); [apply IH | done].
Qed.

Lemma match_plus_sound {A} (k : cls) (s : str) (cont : str → option A) (r : A) :
  match_plus k s cont = Some r →
  ∃ run rest, s = run ++ rest ∧ run ≠ [] ∧
    Forall (λ c, cls_ok k c = true) run ∧ cont rest = Some r.
Proof.
  induction s as [|c s IH]; simpl; [done|].
  destruct (cls_ok k c) eqn:Hc; [|done].
  destruct (match_plus k s cont) as [r'|] eqn:Hm.
  - intros [= ->]. destruct (IH eq_refl) as (run & rest & -> & _ & Hrun & Hrest).
    exists (c :: run), rest. by repeat split; [|constructor|].
  - intros Hr. exists [c], s. by repeat split; [|constructor|].
Qed.

Lemma match_plus_complete {A} (k : cls) (run rest : str) (cont : str → option A) :
  run ≠ [] → Forall (λ c, cls_ok k c = true) run →
  is_Some (cont rest) → is_Some (match_plus k (run ++ rest) cont).
Proof.
  intros Hne Hrun Hrest. induction Hrun as [|c run Hc Hrun IH]; [done|].
  simpl. rewrite Hc.
  destruct run as [|c' run'].
  - simpl in *. by destruct (match_plus k rest cont).
  - by destruct (IH ltac:(done)) as [r ->].
Qed.

(** Two labels that are each followed by a dot in the same text are the
    same label. *)
Lemma label_unique (a b x y : str) :
  dot ∉ a → dot ∉ b → a ++ dot :: x = b ++ dot :: y → a = b.
Proof.
  revert b. induction a as [|c a IH]; intros [|d b] Ha Hb Heq; simplify_eq/=.
  - done.
  - exfalso. apply Hb. by left.
  - exfalso. apply Ha. by left.
  - f_equal. apply IH; [| |done]; intros Hin; [apply Ha | apply Hb]; by right.
Qed.

Lemma match_at_sound (s g : str) :
  match_at WORKDAY_TENANT_RE s = Some g →
  ∃ digits rest, well_shaped g digits ∧ s = workday_url g digits rest.
Proof.
  unfold match_at, WORKDAY_TENANT_RE; cbn [re_before re_group1 re_after].
  rewrite <-(app_nil_r (lits (u "https://"))), match_seq_lits.
  destruct (starts_with _ s) eqn:Hs; [|done].
  apply starts_with_spec in Hs as [s1 ->]. rewrite drop_app_length.
  cbn [match_seq]. intros (t & s2 & -> & Ht & Hnodot & Hm)%match_plus_sound.
  rewrite match_seq_lits in Hm.
  destruct (starts_with _ s2) eqn:Hs2; [|done].
  apply starts_with_spec in Hs2 as [s3 ->]. rewrite drop_app_length in Hm.
  cbn [app match_seq] in Hm.
  apply match_plus_sound in Hm as (ds & s4 & -> & Hds & Hdig & Hm).
  rewrite <-(app_nil_r (lits _)), match_seq_lits in Hm.
  destruct (starts_with _ s4) eqn:Hs4; [|done].
  apply starts_with_spec in Hs4 as [rest ->].
  cbn [match_seq] in Hm.
  rewrite length_app, Nat.add_sub, take_app_length in Hm.
  apply (inj Some) in Hm as <-.
  exists ds, rest. split.
  - repeat split; try done.
    intros Hin. rewrite Forall_forall in Hnodot.
    by specialize (Hnodot _ Hin).
  - done.
Qed.

Lemma match_at_is_Some (t digits rest : str) :
  well_shaped t digits →
  is_Some (match_at WORKDAY_TENANT_RE (workday_url t digits rest)).
Proof.
  intros (Ht & Hnodot & Hds & Hdig).
  unfold match_at, WORKDAY_TENANT_RE, workday_url; cbn [re_before re_group1 re_after].
  rewrite <-(app_nil_r (lits (u "https://"))), match_seq_lits.
  replace (starts_with _ _) with true
    by (symmetry; apply starts_with_spec; by eexists).
  rewrite drop_app_length. cbn [match_seq].
  apply (match_plus_complete _ t); [done| |].
  { apply Forall_forall. intros c Hc.
    change (cls_ok (NotOf (u ".")) c) with (negb ((c =? dot) || false)).
    by destruct (N.eqb_spec c dot) as [->|]. }
  rewrite match_seq_lits.
  replace (starts_with _ _) with true
    by (symmetry; apply starts_with_spec; by eexists).
  rewrite drop_app_length. cbn [app match_seq].
  apply (match_plus_complete _ digits); [done|done|].
  rewrite <-(app_nil_r (lits _)), match_seq_lits.
  replace (starts_with _ _) with true
    by (symmetry; apply starts_with_spec; by eexists).
  done.
Qed.

Lemma match_at_complete (t digits rest : str) :
  well_shaped t digits →
  match_at WORKDAY_TENANT_RE (workday_url t digits rest) = Some t.
Proof.
  intros Hw. destruct (match_at_is_Some t digits rest Hw) as [g Hg].
  rewrite Hg. f_equal.
  destruct (match_at_sound _ _ Hg) as (ds' & rest' & (_ & Hg' & _) & Heq).
  destruct Hw as (_ & Ht & _).
  unfold workday_url in Heq. apply app_inv_head in Heq.
  change (u ".wd") with (dot :: u "wd") in Heq.
  rewrite <-!app_comm_cons in Heq.
  symmetry. eapply label_unique; eauto.
Qed.

Lemma re_search_head (r : regex) (s g : str) :
  match_at r s = Some g → re_search r s = Some g.
Proof. intros Hm. destruct s; simpl; by rewrite Hm. Qed.

(** A successful search stops at the first position with a match. *)
Lemma re_search_Some (r : regex) (s g : str) :
  re_search r s = Some g →
  ∃ pre s', s = pre ++ s' ∧ match_at r s' = Some g ∧
    ∀ pre1 s1, s = pre1 ++ s1 → (length pre1 < length pre)%nat →
      match_at r s1 = None.
Proof.
  induction s as [|c s IH]; simpl.
  - destruct (match_at r []) eqn:Hm; [|done]. intros [= ->].
    exists [], []. repeat split; [done|]. simpl. lia.
  - destruct (match_at r (c :: s)) eqn:Hm.
    + intros [= ->]. exists [], (c :: s). repeat split; [done|]. simpl. lia.
    + intros (pre & s' & -> & Hs' & Hleft)%IH. exists (c :: pre), s'.
      repeat split; [done|].
      intros [|c1 pre1] s1 Heq Hlen; simplify_eq/=; [done|].
      eapply Hleft; [done | lia].
Qed.

Lemma re_search_None (r : regex) (s : str) :
  re_search r s = None ↔ ∀ pre s', s = pre ++ s' → match_at r s' = None.
Proof.
  induction s as [|c s IH]; simpl.
  - destruct (match_at r []) eqn:Hm.
    + split; [done|]. intros Hall. by rewrite (Hall [] []) in Hm.
    + split; [|done]. intros _ pre s' Heq.
      symmetry in Heq. apply app_eq_nil in Heq as [_ ->]. done.
  - destruct (match_at r (c :: s)) eqn:Hm.
    + split; [done|]. intros Hall. by rewrite (Hall [] (c :: s)) in Hm.
    + rewrite IH. split.
      * intros Hall [|c' pre] s' Heq; simplify_eq/=; [done|]. by eapply Hall.
      * intros Hall pre s' ->. by apply (Hall (c :: pre)).
Qed.

End Regex.

(** ** Tenant extraction (C1) *)

Section Tenant.
Context `{Unicode}.

Lemma exact_shape_mentions_workday (url tenant : str) :
  exact_shape url tenant → str_in (u "myworkdayjobs.com") (lower url) = true.
Proof.
  intros (ds & rest & _ & ->). apply str_in_lower; [done|].
  apply str_in_spec. unfold workday_url.
  exists (u "https://" ++ tenant ++ u ".wd" ++ ds ++ [dot]), rest.
  by rewrite <-!app_assoc.
Qed.

(** C1, as amended.  [extract_workday_tenant] never raises and
    - on an address of the exact shape it returns the tenant, the text
      between [https://] and the first dot, and [detect_domain] answers
      [workday] unless the lower-cased address mentions [linkedin.com];
    - a tenant it returns is the tenant of the leftmost place of the
      address where the shape occurs, which need not be its start;
    - it returns nothing exactly when the shape occurs nowhere in the
      address. *)
Theorem extract_workday_tenant_occurrence (url : str) :
  (∀ t, exact_shape url t →
     extract_workday_tenant url = Some t ∧
     (detect_domain url = u "workday" ↔
      str_in (u "linkedin.com") (lower url) = false)) ∧
  (∀ t, extract_workday_tenant url = Some t →
     ∃ pre, shape_after pre url t ∧
       ∀ pre' t', shape_after pre' url t' → (length pre ≤ length pre')%nat) ∧
  (extract_workday_tenant url = None ↔ ∀ pre t, ¬ shape_after pre url t).
Proof.
  assert (Hx : extract_workday_tenant url = re_search WORKDAY_TENANT_RE url).
  { unfold extract_workday_tenant. by destruct (re_search _ _). }
  rewrite Hx. split; [|split].
  - intros t Hshape. split.
    + destruct Hshape as (ds & rest & Hw & ->).
      by apply re_search_head, match_at_complete.
    + unfold detect_domain.
      rewrite (exact_shape_mentions_workday _ _ Hshape).
      by destruct (str_in (u "linkedin.com") _).
  - intros t (pre & s' & -> & Hm & Hleft)%re_search_Some.
    destruct (match_at_sound _ _ Hm) as (ds & rest & Hw & ->).
    exists pre. split; [by exists ds, rest|].
    intros pre' t' (ds' & rest' & Hw' & Heq).
    destruct (decide (length pre' < length pre)%nat) as [Hlt|]; [|lia].
    pose proof (Hleft _ _ Heq Hlt) as Hn.
    by rewrite (match_at_complete _ _ _ Hw') in Hn.
  - rewrite re_search_None. split.
    + intros Hnone pre t (ds & rest & Hw & ->).
      specialize (Hnone pre _ eq_refl).
      by rewrite (match_at_complete _ _ _ Hw) in Hnone.
    + intros Hno pre s' ->.
      destruct (match_at _ s') as [g|] eqn:Hm; [|done].
      destruct (match_at_sound _ _ Hm) as (ds & rest & Hw & ->).
      destruct (Hno pre g). by exists ds, rest.
Qed.

End Tenant.

Section TenantExamples.
Local Existing Instance ascii_tables.

Lemma well_shaped_acme_3 : well_shaped (u "acme") (u "3").
Proof.
  repeat split; [done| |done|by repeat constructor].
  apply (bool_decide_unpack _). by vm_compute.
Qed.

Lemma extract_workday_tenant_occurrence_witness :
  extract_workday_tenant (u "https://acme.wd3.myworkdayjobs.com/careers/job/42")
    = Some (u "acme") ∧
  detect_domain (u "https://acme.wd3.myworkdayjobs.com/careers/job/42")
    = u "workday".
Proof.
  destruct (extract_workday_tenant_occurrence
    (u "https://acme.wd3.myworkdayjobs.com/careers/job/42")) as [Hexact _].
  destruct (Hexact (u "acme")) as [Hx Hd].
  { exists (u "3"), (u "/careers/job/42"). split; [apply well_shaped_acme_3 | by vm_compute]. }
  split; [exact Hx | apply Hd; by vm_compute].
Defined.

(** C1 as stated fails in both directions: an address of the exact shape
    that mentions [linkedin.com] further on is classified [linkedin], and
    an address that does not start with the shape but carries it further
    on still yields a tenant. *)
Lemma exact_shape_claim_fails :
  (exact_shape (u "https://acme.wd3.myworkdayjobs.com/job/42?source=linkedin.com")
     (u "acme") ∧
   detect_domain (u "https://acme.wd3.myworkdayjobs.com/job/42?source=linkedin.com")
     = u "linkedin") ∧
  ((∀ t, ¬ exact_shape (u "http://go.example.org/?to=https://acme.wd3.myworkdayjobs.com/job") t) ∧
   extract_workday_tenant (u "http://go.example.org/?to=https://acme.wd3.myworkdayjobs.com/job")
     = Some (u "acme")).
Proof.
  split; split.
  - exists (u "3"), (u "/job/42?source=linkedin.com").
    split; [apply well_shaped_acme_3 | by vm_compute].
  - by vm_compute.
  - intros t (ds & rest & _ & Heq). unfold workday_url in Heq.
    vm_compute in Heq. discriminate Heq.
  - by vm_compute.
Qed.

End TenantExamples.

(** ** The phrase lists (C3) *)

(** C3, as amended.  The closed-phrase list shared by all domains has nine
    phrases, all different; LinkedIn has 3 reject, 2 review, 2 viewed and
    2 submitted phrases, Workday 3 reject and 3 in-process phrases. *)
Theorem pattern_list_sizes :
  length CLOSED_PATTERNS = 9%nat ∧ NoDup CLOSED_PATTERNS ∧
  length LINKEDIN_REJECT_PATTERNS = 3%nat ∧
  length LINKEDIN_REVIEW_PATTERNS = 2%nat ∧
  length LINKEDIN_VIEWED_PATTERNS = 2%nat ∧
  length LINKEDIN_SUBMITTED_PATTERNS = 2%nat ∧
  length WORKDAY_REJECT_PATTERNS = 3%nat ∧
  length WORKDAY_INPROCESS_PATTERNS = 3%nat.
Proof.
  repeat split.
  apply (bool_decide_unpack _). by vm_compute.
Qed.

(** The closed-phrase list does not have ten phrases. *)
Lemma closed_patterns_not_ten : length CLOSED_PATTERNS ≠ 10%nat.
Proof. discriminate. Qed.

(** ** Domain detection (C9) *)

Section Domain.
Context `{Unicode}.

Lemma mentions_lower (text phrase : str) :
  mentions text phrase → str_in phrase (lower text) = true.
Proof.
  intros [Hin|(variant & Ha & <- & Hin)]; [done|].
  by apply str_in_lower_variant.
Qed.

Lemma find_first {A} (f : A → bool) (earlier later : list A) (x : A) :
  (∀ y, y ∈ earlier → f y = false) → f x = true →
  find f (earlier ++ x :: later) = Some x.
Proof.
  intros Hearlier Hx. induction earlier as [|y earlier IH]; simpl.
  - by rewrite Hx.
  - rewrite (Hearlier y) by by left.
    apply IH. intros z Hz. apply Hearlier. by right.
Qed.

Lemma find_nowhere {A} (f : A → bool) (l : list A) :
  (∀ y, y ∈ l → f y = false) → find f l = None.
Proof.
  intros Hall. induction l as [|y l IH]; simpl; [done|].
  rewrite (Hall y) by by left.
  apply IH. intros z Hz. apply Hall. by right.
Qed.

(** C9.  [detect_domain] is a total function that returns, for every
    string, the domain of the first host marker contained in the
    lower-cased string, in the order linkedin.com, myworkdayjobs.com,
    greenhouse.io, lever.co, taleo.net, smartrecruiters.com, and [generic]
    when no marker is contained.  So a marker that occurs in the string in
    any mix of upper and lower case decides the domain when no earlier
    marker occurs, and the result is one of the seven domain
    identifiers. *)
Theorem detect_domain_first_marker (url : str) :
  detect_domain url = classify_domain url ∧
  detect_domain url ∈ (HOST_MARKERS.*2 ++ [u "generic"]) ∧
  (∀ earlier marker domain later,
     HOST_MARKERS = earlier ++ (marker, domain) :: later →
     (∀ m d, (m, d) ∈ earlier → str_in m (lower url) = false) →
     mentions url marker →
     detect_domain url = domain) ∧
  ((∀ m d, (m, d) ∈ HOST_MARKERS → str_in m (lower url) = false) →
   detect_domain url = u "generic").
Proof.
  assert (Heq : detect_domain url = classify_domain url).
  { unfold detect_domain, classify_domain, HOST_MARKERS. cbn [find].
    by repeat (destruct (str_in _ (lower url)); [done|]). }
  split; [done|]. split; [|split].
  - unfold detect_domain, HOST_MARKERS. cbn [fmap list_fmap snd app].
    repeat (destruct (str_in _ (lower url));
            [rewrite !elem_of_cons; tauto|]).
    rewrite !elem_of_cons; tauto.
  - intros earlier marker domain later Hsplit Hearlier Hm.
    rewrite Heq. unfold classify_domain. rewrite Hsplit.
    rewrite (find_first _ _ _ (marker, domain)); [done| |by apply mentions_lower].
    intros [m d] Hin. by apply (Hearlier m d).
  - intros Hnone. rewrite Heq. unfold classify_domain.
    rewrite find_nowhere; [done|].
    intros [m d] Hin. by apply (Hnone m d).
Qed.

End Domain.

(** ** Status classification (C5) *)

Section Status.
Context `{Unicode}.

(** C5.  On the Workday domain a page text that contains a reject phrase
    and an in-process phrase is classified as rejected: the reject phrases
    are checked first. *)
Theorem classify_status_workday_reject_first (text reject inprocess : str) :
  reject ∈ WORKDAY_REJECT_PATTERNS →
  inprocess ∈ WORKDAY_INPROCESS_PATTERNS →
  mentions text reject →
  mentions text inprocess →
  classify_status text (u "workday") = u "APPLICATION REJECTED (Workday)".
Proof.
  intros Hr _ Hin _.
  assert (Hlow : str_in reject (lower text) = true) by by apply mentions_lower.
  unfold classify_status.
  replace (str_eq (u "workday") (u "linkedin")) with false by (by vm_compute).
  replace (str_eq (u "workday") (u "workday")) with true by (by vm_compute).
  replace (any_in WORKDAY_REJECT_PATTERNS (lower text)) with true; [done|].
  symmetry. apply any_in_spec. by exists reject.
Qed.

End Status.

Section StatusExamples.
Local Existing Instance ascii_tables.

Lemma classify_status_workday_reject_first_witness :
  classify_status
    (u "Status: Under Review. Update: you were Not Selected for this role.")
    (u "workday")
  = u "APPLICATION REJECTED (Workday)".
Proof.
  apply (classify_status_workday_reject_first _ (u "not selected") (u "under review")).
  - apply (bool_decide_unpack _). by vm_compute.
  - apply (bool_decide_unpack _). by vm_compute.
  - right. exists (u "Not Selected"). by vm_compute.
  - right. exists (u "Under Review"). by vm_compute.
Defined.

End StatusExamples.

Section DomainExamples.
Local Existing Instance ascii_tables.

Lemma detect_domain_first_marker_witness :
  detect_domain (u "HTTPS://Jobs.Lever.CO/acme/4711") = u "lever".
Proof.
  destruct (detect_domain_first_marker (u "HTTPS://Jobs.Lever.CO/acme/4711"))
    as (_ & _ & Hfirst & _).
  apply (Hfirst (take 3 HOST_MARKERS) (u "lever.co") (u "lever") (drop 4 HOST_MARKERS)).
  - reflexivity.
  - intros m d Hin. cbn [take HOST_MARKERS] in Hin.
    rewrite !elem_of_cons, elem_of_nil in Hin.
    destruct Hin as [Hin|[Hin|[Hin|[]]]]; apply (inj2 pair) in Hin as [-> _];
      by vm_compute.
  - right. exists (u "Lever.CO"). by vm_compute.
Defined.

End DomainExamples.

(** ** The Workday login (C4, C7, C10) *)

Section Login.
Context `{Unicode} {W : Type} `{World W}.

Ltac page_op :=
  match goal with
  | |- context [page_goto ?a ?b ?c] => destruct (page_goto a b c) as [[[]|?] ?]
  | |- context [page_fill ?a ?b ?c] => destruct (page_fill a b c) as [[[]|?] ?]
  | |- context [keyboard_press ?a ?b] => destruct (keyboard_press a b) as [[[]|?] ?]
  | |- context [page_content ?a] => destruct (page_content a) as [[?|?] ?]
  end; cbn [page workday_cache log].

(** An attempt returns a boolean, whatever the page does, and touches
    neither the cache nor the log. *)
Lemma attempt_login_frame (url email password : str) (s : state W) :
  ∃ ok w, attempt_login url email password s
          = (Ok ok, State w (workday_cache s) (log s)).
Proof.
  unfold attempt_login, try_except, bind, goto, fill, press, sleep, get_url,
    on_page, ret.
  repeat (page_op; try by eauto).
  destruct (negb _); by eauto.
Qed.

Lemma login_loop_run (tenant url email pwd1 pwd2 : str) (order : list Z) (s : state W) :
  ∃ ok s' tried,
    login_loop tenant url email pwd1 pwd2 order s = (Ok ok, s') ∧
    log s' = log s ++ (TryPassword tenant <$> tried) ∧
    (if ok then
       ∃ idx rest, order = tried ++ rest ∧ last tried = Some idx ∧
         workday_cache s' = <[tenant := PInt idx]> (workday_cache s)
     else tried = order ∧ workday_cache s' = workday_cache s).
Proof.
  revert s. induction order as [|idx order IH]; intros s.
  - exists false, s, []. simpl. by rewrite app_nil_r.
  - cbn [login_loop]. unfold bind at 1. unfold emit at 1. unfold bind at 1.
    destruct (attempt_login_frame url email (if (idx =? 1)%Z then pwd1 else pwd2)
                (State (page s) (workday_cache s) (log s ++ [TryPassword tenant idx])))
      as (ok & w & Hatt).
    rewrite Hatt. cbn [workday_cache log]. destruct ok.
    + eexists true, _, [idx]. split; [reflexivity|]. split; [done|].
      exists idx, order. by repeat split.
    + destruct (IH (State w (workday_cache s) (log s ++ [TryPassword tenant idx])))
        as (ok & s' & tried & Hrun & Hlog & Hres).
      cbn [workday_cache log] in *.
      exists ok, s', (idx :: tried). split; [done|].
      split; [by rewrite Hlog, <-app_assoc|].
      destruct ok.
      * destruct Hres as (i & rest & -> & Hlast & Hcache).
        exists i, rest. repeat split; [|done].
        destruct tried; [done|]. by rewrite last_cons_cons.
      * by destruct Hres as [-> ->].
Qed.

(** What a call does: it returns a boolean; the passwords it tried are
    logged in the order of [login_order], up to the first that worked; the
    cache changes only on success, to the index that worked. *)
Lemma workday_try_login_run (tenant : str) (s : state W) :
  ∃ ok s' tried,
    workday_try_login tenant s = (Ok ok, s') ∧
    log s' = log s ++ (TryPassword tenant <$> tried) ∧
    (credentials_set →
       if ok then
         ∃ idx rest, login_order tenant (workday_cache s) = tried ++ rest ∧
           last tried = Some idx ∧
           workday_cache s' = <[tenant := PInt idx]> (workday_cache s)
       else tried = login_order tenant (workday_cache s)) ∧
    (¬ credentials_set → tried = [] ∧ ok = false) ∧
    (ok = false → workday_cache s' = workday_cache s).
Proof.
  unfold workday_try_login, credentials_set.
  destruct (unset (os_getenv (u "WORKDAY_EMAIL"))) eqn:He;
    [|destruct (unset (os_getenv (u "WORKDAY_PASSWORD_1"))) eqn:H1;
      [|destruct (unset (os_getenv (u "WORKDAY_PASSWORD_2"))) eqn:H2]];
    cbn [orb].
  1-3: exists false, s, []; cbn [fmap list_fmap]; rewrite app_nil_r;
       repeat split; try done; by intros (? & ? & ?).
  unfold bind at 1, get_cache at 1.
  destruct (login_loop_run tenant
    (u "https://" ++ tenant ++ u ".myworkday.com/" ++ tenant ++ u "/login.htm")
    (default [] (os_getenv (u "WORKDAY_EMAIL")))
    (default [] (os_getenv (u "WORKDAY_PASSWORD_1")))
    (default [] (os_getenv (u "WORKDAY_PASSWORD_2")))
    (login_order tenant (workday_cache s)) s) as (ok & s' & tried & Hrun & Hlog & Hres).
  exists ok, s', tried. split; [done|]. split; [done|]. split; [|split].
  - intros _. destruct ok; [done|]. by destruct Hres.
  - intros Hno. destruct Hno. by repeat split.
  - intros ->. by destruct Hres.
Qed.

End Login.

Section LoginClaims.
Context `{Unicode} {W : Type} `{World W}.

Lemma login_order_cases (tenant : str) (cache : gmap str pyval) :
  login_order tenant cache = [1; 2]%Z ∨ login_order tenant cache = [2; 1]%Z.
Proof.
  unfold login_order. destruct (cache !! tenant) as [v|]; [|by left].
  destruct (py_eq_int v 2); [by right | by left].
Qed.

Lemma credentials_set_dec : credentials_set (W:=W) ∨ ¬ credentials_set (W:=W).
Proof.
  unfold credentials_set.
  destruct (unset (os_getenv (u "WORKDAY_EMAIL")));
    destruct (unset (os_getenv (u "WORKDAY_PASSWORD_1")));
    destruct (unset (os_getenv (u "WORKDAY_PASSWORD_2")));
    first [by left | right; by intros (? & ? & ?)].
Qed.

(** The passwords tried are logged in the order [first], [other]: none
    without credentials, and with them the first alone when it logged in
    and both otherwise. *)
Lemma workday_try_login_two (tenant : str) (s : state W) (first other : Z) :
  login_order tenant (workday_cache s) = [first; other] →
  ∃ ok s' tried,
    workday_try_login tenant s = (Ok ok, s') ∧
    log s' = log s ++ (TryPassword tenant <$> tried) ∧
    tried `prefix_of` [first; other] ∧
    (credentials_set (W:=W) →
       (tried = [first] ∧ ok = true) ∨ tried = [first; other]).
Proof.
  intros Horder.
  destruct (workday_try_login_run tenant s)
    as (ok & s' & tried & Hrun & Hlog & Hset & Hunset & _).
  exists ok, s', tried. split; [done|]. split; [done|].
  rewrite Horder in Hset.
  destruct credentials_set_dec as [Hcred|Hno].
  - assert (Hcases : (tried = [first] ∧ ok = true) ∨ tried = [first; other]).
    { specialize (Hset Hcred). destruct ok; [|by right].
      destruct Hset as (idx & rest & Heq & Hlast & _).
      destruct tried as [|i1 [|i2 [|i3 tried]]]; simplify_eq/=; [by left | by right]. }
    split; [|done].
    destruct Hcases as [[-> _]| ->]; [by exists [other] | done].
  - destruct (Hunset Hno) as [-> ->]. split; [by eexists | done].
Qed.

(** An attempt of the call is the attempt on the page: the password typed
    into the password field is the candidate with the index. *)
Lemma attempt_login_on (tenant : str) (idx : Z) (s : state W) :
  attempt_login (login_url_of tenant) email_set (candidate idx) s
  = (Ok (attempt_on tenant idx (page s)).1,
     State (attempt_on tenant idx (page s)).2 (workday_cache s) (log s)).
Proof.
  unfold attempt_login, attempt_on, try_except, bind, goto, fill, press, sleep,
    get_url, on_page, ret.
  cbn [page workday_cache log].
  destruct (page_goto (login_url_of tenant) 45000 (page s)) as [[[]|?] w1];
    cbn [page workday_cache log fst snd]; [|done].
  destruct (page_fill _ email_set (time_sleep 3 w1)) as [[[]|?] w2];
    cbn [page workday_cache log fst snd]; [|done].
  destruct (page_fill _ (candidate idx) w2) as [[[]|?] w3];
    cbn [page workday_cache log fst snd]; [|done].
  destruct (keyboard_press _ w3) as [[[]|?] w4];
    cbn [page workday_cache log fst snd]; [|done].
  by destruct (negb _).
Qed.

(** C4, as amended.  With the three Workday settings configured the
    attempts are made in the order that the cache decides.  For a tenant
    whose cache entry is the index 1 or 2 the first attempt types the
    password of that index; for a tenant without an entry, the password 1.
    When it logs in the call returns [True] with that index in the cache
    and the other password is not tried; when it fails the second attempt,
    on the page that the first one left, types the other password, and the
    call returns its verdict.  Each attempt is announced before it is
    made. *)
Theorem workday_try_login_attempt_order (tenant : str) (s : state W) (first other : Z) :
  credentials_set (W:=W) →
  (workday_cache s !! tenant = Some (PInt first) ∧
     (first = 1 ∧ other = 2 ∨ first = 2 ∧ other = 1)%Z) ∨
  (workday_cache s !! tenant = None ∧ first = 1%Z ∧ other = 2%Z) →
  let a1 := attempt_on tenant first (page s) in
  let a2 := attempt_on tenant other a1.2 in
  workday_try_login tenant s
  = if a1.1 then
      (Ok true,
       State a1.2 (<[tenant := PInt first]> (workday_cache s))
         (log s ++ [TryPassword tenant first]))
    else if a2.1 then
      (Ok true,
       State a2.2 (<[tenant := PInt other]> (workday_cache s))
         ((log s ++ [TryPassword tenant first]) ++ [TryPassword tenant other]))
    else
      (Ok false,
       State a2.2 (workday_cache s)
         ((log s ++ [TryPassword tenant first]) ++ [TryPassword tenant other])).
Proof.
  intros (He & H1 & H2) Hcache a1 a2.
  assert (Horder : login_order tenant (workday_cache s) = [first; other]).
  { unfold login_order.
    destruct Hcache as [[-> [[-> ->]|[-> ->]]]|(-> & -> & ->)]; done. }
  unfold workday_try_login. rewrite He, H1, H2. cbn [orb].
  unfold bind at 1, get_cache at 1. rewrite Horder.
  cbn [login_loop]. unfold bind at 1, emit at 1, bind at 1.
  pose proof (attempt_login_on tenant first
                (State (page s) (workday_cache s) (log s ++ [TryPassword tenant first])))
    as Hatt1.
  unfold login_url_of, email_set, candidate in Hatt1.
  rewrite Hatt1. cbn [page workday_cache log]. fold a1.
  destruct (a1.1) eqn:Hok1.
  - unfold bind at 1, set_cache at 1, ret. by cbn [page workday_cache log].
  - unfold bind at 1, emit at 1, bind at 1. cbn [page workday_cache log].
    pose proof (attempt_login_on tenant other
                  (State a1.2 (workday_cache s)
                     ((log s ++ [TryPassword tenant first]) ++ [TryPassword tenant other])))
      as Hatt2.
    unfold login_url_of, email_set, candidate in Hatt2.
    rewrite Hatt2. cbn [page workday_cache log]. fold a2.
    destruct (a2.1) eqn:Hok2.
    + unfold bind at 1, set_cache at 1, ret. by cbn [page workday_cache log].
    + done.
Qed.

(** C10, as amended.  A cached value reverses the order exactly when it
    compares equal to 2, which the integer 2 and a float of value 2 do and
    no other value does; for every other cached value index 1 is tried
    first and index 2 after it, as for a tenant without an entry. *)
Theorem workday_try_login_cached_value (tenant : str) (s : state W) (v : pyval) :
  workday_cache s !! tenant = Some v →
  (py_eq_int v 2 = true ↔
     v = PInt 2 ∨ ∃ m e, v = PFloat (Finite m e) ∧ float_is m e 2) ∧
  login_order tenant (workday_cache s)
    = (if py_eq_int v 2 then [2; 1]%Z else login_order tenant ∅) ∧
  ∃ ok s' tried,
    workday_try_login tenant s = (Ok ok, s') ∧
    log s' = log s ++ (TryPassword tenant <$> tried) ∧
    let first := if py_eq_int v 2 then 2%Z else 1%Z in
    let other := if py_eq_int v 2 then 1%Z else 2%Z in
    tried `prefix_of` [first; other] ∧
    (credentials_set (W:=W) →
       (tried = [first] ∧ ok = true) ∨ tried = [first; other]).
Proof.
  intros Hv. split; [|split].
  - destruct v as [|[]|n|[m e| |]| | |]; simpl; unfold float_is.
    all: try (split; [done | by intros [?|(? & ? & ? & ?)]]).
    + rewrite Z.eqb_eq. split; [intros ->; by left|].
      intros [?|(? & ? & ? & ?)]; by simplify_eq.
    + split.
      * intros Hm. right. exists m, e. split; [done|].
        destruct (0 <=? e)%Z; by apply Z.eqb_eq.
      * intros [?|(m' & e' & ? & Hm)]; simplify_eq.
        destruct (0 <=? e')%Z; by apply Z.eqb_eq.
  - unfold login_order. rewrite Hv, lookup_empty. by destruct (py_eq_int v 2).
  - apply workday_try_login_two.
    unfold login_order. rewrite Hv. by destruct (py_eq_int v 2).
Qed.

(** C7.  When the attempts with both passwords fail the call returns
    [False] and the cache is what it was; in general a call that returns
    [False] leaves the cache unchanged, and a call that returns [True] has
    set the tenant's entry to the index, 1 or 2, of the password tried
    last, the one that logged in. *)
Theorem workday_try_login_cache_update (tenant : str) (s : state W) :
  (∀ first other s1 s2,
     credentials_set (W:=W) →
     login_order tenant (workday_cache s) = [first; other] →
     attempt_login (login_url_of tenant) email_set (candidate first)
       (announced tenant first s) = (Ok false, s1) →
     attempt_login (login_url_of tenant) email_set (candidate other)
       (announced tenant other s1) = (Ok false, s2) →
     workday_try_login tenant s = (Ok false, s2) ∧
     workday_cache s2 = workday_cache s) ∧
  ∃ ok s', workday_try_login tenant s = (Ok ok, s') ∧
    (ok = false → workday_cache s' = workday_cache s) ∧
    (ok = true → ∃ idx, (idx = 1 ∨ idx = 2)%Z ∧
       last (log s') = Some (TryPassword tenant idx) ∧
       workday_cache s' = <[tenant := PInt idx]> (workday_cache s)).
Proof.
  split.
  - intros first other s1 s2 (He & H1 & H2) Horder Hatt1 Hatt2.
    assert (Hc1 : workday_cache s1 = workday_cache s).
    { destruct (attempt_login_frame (login_url_of tenant) email_set
        (candidate first) (announced tenant first s)) as (? & ? & Hf).
      rewrite Hf in Hatt1. by simplify_eq. }
    assert (Hc2 : workday_cache s2 = workday_cache s1).
    { destruct (attempt_login_frame (login_url_of tenant) email_set
        (candidate other) (announced tenant other s1)) as (? & ? & Hf).
      rewrite Hf in Hatt2. by simplify_eq. }
    split; [|congruence].
    unfold workday_try_login. rewrite He, H1, H2. cbn [orb].
    unfold bind at 1, get_cache at 1. rewrite Horder.
    cbn [login_loop]. unfold bind at 1, emit at 1, bind at 1.
    unfold login_url_of, email_set, candidate, announced in Hatt1, Hatt2.
    rewrite Hatt1. unfold bind at 1, emit at 1, bind at 1.
    rewrite Hatt2. done.
  - destruct (workday_try_login_run tenant s)
      as (ok & s' & tried & Hrun & Hlog & Hset & Hunset & Hfalse).
    exists ok, s'. split; [done|]. split; [done|].
    intros ->.
    destruct credentials_set_dec as [Hcred|Hno];
      [|by destruct (Hunset Hno)].
    destruct (Hset Hcred) as (idx & rest & Horder & Hlast & Hcache).
    exists idx. split; [|split; [|done]].
    + assert (Hin : idx ∈ login_order tenant (workday_cache s)).
      { rewrite Horder. apply elem_of_app. left. by apply last_Some_elem_of. }
      destruct (login_order_cases tenant (workday_cache s)) as [Ho|Ho];
        rewrite Ho, !elem_of_cons, elem_of_nil in Hin; tauto.
    + rewrite Hlog. apply last_app_Some. left. by rewrite fmap_last, Hlast.
Qed.

End LoginClaims.

Section LoginExamples.
Local Existing Instance ascii_tables.
Local Existing Instance demo_world.

Lemma demo_credentials_set : credentials_set (W:=browser).
Proof. repeat split; by vm_compute. Qed.

Lemma workday_try_login_attempt_order_witness :
  workday_try_login (u "acme") (State blank {[u "acme" := PInt 2]} [])
  = (Ok true,
     State (Browser (u "https://acme.myworkday.com/acme/home.htm") (u "pw-two"))
       {[u "acme" := PInt 2]} [TryPassword (u "acme") 2]).
Proof.
  rewrite (workday_try_login_attempt_order (u "acme")
             (State blank {[u "acme" := PInt 2]} []) 2 1 demo_credentials_set).
  - by vm_compute.
  - left. split; [by vm_compute | right; done].
Defined.

(** With the cache [{acme: 2}] password 2 is tried first (and logs in). *)
Example cached_two_first :
  workday_try_login (u "acme") (State blank {[u "acme" := PInt 2]} [])
  = (Ok true,
     State (Browser (u "https://acme.myworkday.com/acme/home.htm") (u "pw-two"))
       {[u "acme" := PInt 2]} [TryPassword (u "acme") 2]).
Proof. by vm_compute. Qed.

Lemma workday_try_login_cached_value_witness :
  login_order (u "acme") {[u "acme" := PStr (u "2")]} = login_order (u "acme") ∅.
Proof.
  destruct (workday_try_login_cached_value (u "acme")
              (State blank {[u "acme" := PStr (u "2")]} []) (PStr (u "2")))
    as (_ & Horder & _).
  - by vm_compute.
  - exact Horder.
Defined.

(** C10 as stated fails on the float 2.0, which is not the integer 2 and
    still puts password 2 first (both attempts fail here: the login page
    of this tenant times out). *)
Lemma cached_float_two_reverses :
  PFloat (Finite 2 0) ≠ PInt 2 ∧
  log (workday_try_login (u "downtown")
         (State blank {[u "downtown" := PFloat (Finite 2 0)]} [])).2
  = [TryPassword (u "downtown") 2; TryPassword (u "downtown") 1].
Proof. split; [done | by vm_compute]. Qed.

Lemma workday_try_login_cache_update_witness :
  workday_try_login (u "downtown") (State blank {[u "downtown" := PInt 1]} [])
  = (Ok false,
     State blank {[u "downtown" := PInt 1]}
       [TryPassword (u "downtown") 1; TryPassword (u "downtown") 2]) ∧
  workday_cache
    (State blank {[u "downtown" := PInt 1]}
       [TryPassword (u "downtown") 1; TryPassword (u "downtown") 2])
  = workday_cache (State blank {[u "downtown" := PInt 1]} []).
Proof.
  apply (proj1 (workday_try_login_cache_update (u "downtown")
                  (State blank {[u "downtown" := PInt 1]} [])) 1%Z 2%Z
           (State blank {[u "downtown" := PInt 1]} [TryPassword (u "downtown") 1])).
  - exact demo_credentials_set.
  - by vm_compute.
  - by vm_compute.
  - by vm_compute.
Defined.

End LoginExamples.

Section LoginBareExamples.
Local Existing Instance ascii_tables.
Local Existing Instance bare_world.

(** C4 as stated fails where the Workday settings are missing: with the
    cache [{acme: 2}] the call returns [False] at once and leaves the page
    and the log as they were, while an attempt with the password 2 would
    have taken the page to the login address of the tenant.  No password
    is attempted, neither first nor second. *)
Lemma no_credentials_no_attempt :
  workday_try_login (u "acme") (State blank {[u "acme" := PInt 2]} [])
    = (Ok false, State blank {[u "acme" := PInt 2]} []) ∧
  shown (attempt_on (u "acme") 2 blank).2
    = u "https://acme.myworkday.com/acme/login.htm" ∧
  shown blank = [].
Proof. split; [|split]; by vm_compute. Qed.

End LoginBareExamples.

(** ** Sheet processing (C2, C6) *)

Section Sheet.
Context `{Unicode} {W : Type} `{World W}.

Lemma workday_login_step_run (url domain : str) (s : state W) :
  ∃ s' logins,
    workday_login_step url domain s = (Ok (), s') ∧
    log s' = log s ++ logins ∧ no_writes logins.
Proof.
  assert (Hskip : ∃ s' logins, (Ok (), s) = (Ok (), s') ∧
            log s' = log s ++ logins ∧ no_writes logins).
  { exists s, []. rewrite app_nil_r. repeat split. intros r c v Hin. inversion Hin. }
  unfold workday_login_step.
  destruct (str_eq domain _); [|exact Hskip].
  destruct (extract_workday_tenant url) as [tenant|]; [|exact Hskip].
  destruct (truthy tenant); [|exact Hskip].
  destruct (workday_try_login_run tenant s) as (ok & s' & tried & Hrun & Hlog & _).
  exists s', (TryPassword tenant <$> tried).
  unfold bind, ret. rewrite Hrun. repeat split; [done|].
  intros r c v (idx & Heq & _)%list_elem_of_fmap. done.
Qed.

(** The fetch returns or raises; it touches neither the cache nor the
    log. *)
Lemma fetch_status_frame (url domain : str) (s : state W) :
  ∃ r w, fetch_status url domain s = (r, State w (workday_cache s) (log s)).
Proof.
  unfold fetch_status, bind, goto, sleep, content, on_page, ret.
  destruct (page_goto url 45000 (page s)) as [[[]|?] ?]; cbn [page workday_cache log];
    [|by eauto].
  destruct (page_content _) as [[?|?] ?]; by eauto.
Qed.

Lemma eligible_false_skip (url_idx decision_idx i : nat) (row : list str)
    (updated : nat) (s : state W) :
  eligible url_idx decision_idx row = false →
  process_row url_idx decision_idx i row updated s = (Ok updated, s).
Proof.
  unfold eligible, process_row.
  destruct (bool_decide _); [done|].
  destruct (truthy (cell row url_idx)); [|done].
  by destruct (truthy (cell row decision_idx)).
Qed.

(** A visited row: the login step, the fetch with its handler, the write
    of the status, the counter, the pause. *)
Lemma eligible_true_visit (url_idx decision_idx i : nat) (row : list str)
    (updated : nat) (s s1 s2 : state W) (r : result str) :
  eligible url_idx decision_idx row = true →
  workday_login_step (cell row url_idx) (detect_domain (cell row url_idx)) s
    = (Ok (), s1) →
  fetch_status (cell row url_idx) (detect_domain (cell row url_idx)) s1 = (r, s2) →
  process_row url_idx decision_idx i row updated s
  = (Ok (updated + 1)%nat,
     State (sleep_uniform 3 6 (page s2)) (workday_cache s2)
       (log s2 ++ [UpdateCell (i + 1) (decision_idx + 1)
                     match r with
                     | Ok status => status
                     | Raised e => u "ERROR: " ++ e
                     end])).
Proof.
  unfold eligible, process_row.
  destruct (bool_decide _); [done|].
  destruct (truthy (cell row url_idx)); [|done].
  destruct (truthy (cell row decision_idx)); [done|].
  intros _ Hlogin Hfetch. cbn [negb].
  unfold bind at 1. rewrite Hlogin.
  unfold bind at 1, try_except. rewrite Hfetch.
  by destruct r.
Qed.

Lemma process_row_run (url_idx decision_idx i : nat) (row : list str)
    (updated : nat) (s : state W) :
  ∃ n s' new,
    process_row url_idx decision_idx i row updated s = (Ok n, s') ∧
    log s' = log s ++ new ∧
    if eligible url_idx decision_idx row then
      n = (updated + 1)%nat ∧
      ∃ logins status, no_writes logins ∧
        new = logins ++ [UpdateCell (i + 1) (decision_idx + 1) status]
    else n = updated ∧ new = [].
Proof.
  destruct (eligible url_idx decision_idx row) eqn:Hel.
  - destruct (workday_login_step_run (cell row url_idx)
                (detect_domain (cell row url_idx)) s)
      as (s1 & logins & Hlogin & Hlog1 & Hnw).
    destruct (fetch_status_frame (cell row url_idx)
                (detect_domain (cell row url_idx)) s1) as (r & w & Hfetch).
    eexists _, _, _. split; [by eapply eligible_true_visit|].
    cbn [log]. rewrite Hlog1, <-app_assoc. split; [done|].
    split; [done|]. by eexists _, _.
  - exists updated, s, []. rewrite app_nil_r.
    by rewrite eligible_false_skip.
Qed.

(** The loop never raises; it writes one cell for each eligible row, in
    the decision column of that row, and counts these rows. *)
Lemma process_rows_run (url_idx decision_idx i : nat) (rows : list (list str))
    (updated : nat) (s : state W) :
  ∃ n s' new,
    process_rows url_idx decision_idx i rows updated s = (Ok n, s') ∧
    log s' = log s ++ new ∧
    n = (updated + length (List.filter (eligible url_idx decision_idx) rows))%nat ∧
    ∀ r c v, UpdateCell r c v ∈ new →
      ∃ j row, rows !! j = Some row ∧ r = (i + j + 1)%nat ∧
        c = (decision_idx + 1)%nat ∧ eligible url_idx decision_idx row = true.
Proof.
  revert i updated s. induction rows as [|row rows IH]; intros i updated s.
  - exists updated, s, []. rewrite app_nil_r. simpl.
    repeat split; [lia|]. intros r c v Hin. inversion Hin.
  - destruct (process_row_run url_idx decision_idx i row updated s)
      as (n1 & s1 & new1 & Hrow & Hlog1 & Hel).
    destruct (IH (S i) n1 s1) as (n & s' & new & Hrest & Hlog & Hn & Hw).
    exists n, s', (new1 ++ new).
    cbn [process_rows]. unfold bind at 1. rewrite Hrow.
    split; [done|]. split; [by rewrite Hlog, Hlog1, <-app_assoc|].
    cbn [List.filter].
    destruct (eligible url_idx decision_idx row) eqn:Helig.
    + destruct Hel as (-> & logins & status & Hnw & ->).
      split; [simpl; lia|].
      intros r c v [Hin|Hin]%elem_of_app.
      * apply elem_of_app in Hin as [Hin|Hin]; [by destruct (Hnw r c v)|].
        apply list_elem_of_singleton in Hin. simplify_eq.
        exists 0%nat, row. repeat split; [lia|done].
      * destruct (Hw r c v Hin) as (j & row' & Hj & -> & -> & Hel').
        exists (S j), row'. repeat split; [done|lia|done].
    + destruct Hel as (-> & ->).
      split; [done|].
      intros r c v Hin. cbn [app] in Hin.
      destruct (Hw r c v Hin) as (j & row' & Hj & -> & -> & Hel').
      exists (S j), row'. repeat split; [done|lia|done].
Qed.

End Sheet.

Section SheetClaims.
Context `{Unicode} {W : Type} `{World W}.

Lemma cell_stripped (row : list str) (idx : nat) (c : str) :
  row !! idx = Some c → strip c ≠ [] → truthy (cell row idx) = true.
Proof.
  intros Hc Hs. unfold cell. rewrite Hc.
  destruct c as [|a c]; [by destruct Hs|].
  cbn [truthy]. by destruct (strip (a :: c)).
Qed.

(** C2, as amended.  [process_worksheet] never raises, and a row of the
    sheet whose Decision cell is not empty once the surrounding white
    space is stripped gets no cell written: no [update_cell] names its
    sheet row (row [i] of the values is sheet row [i + 1]). *)
Theorem process_worksheet_keeps_decisions (values : list (list str)) (s : state W) :
  ∃ n s' new,
    process_worksheet values s = (Ok n, s') ∧
    log s' = log s ++ new ∧
    ∀ header url_idx decision_idx i row decision c v,
      values !! 0%nat = Some header →
      find_columns header = (Some url_idx, Some decision_idx) →
      values !! i = Some row →
      row !! decision_idx = Some decision →
      strip decision ≠ [] →
      UpdateCell (i + 1) c v ∉ new.
Proof.
  assert (Hnone : ∃ n s' new, (Ok 0%nat, s) = (Ok n, s') ∧
    log s' = log s ++ new ∧
    ∀ header url_idx decision_idx i row decision c v,
      values !! 0%nat = Some header →
      find_columns header = (Some url_idx, Some decision_idx) →
      values !! i = Some row →
      row !! decision_idx = Some decision →
      strip decision ≠ [] →
      UpdateCell (i + 1) c v ∉ new).
  { exists 0%nat, s, []. rewrite app_nil_r. repeat split.
    intros ????????????? Hin. inversion Hin. }
  destruct values as [|header rows]; [exact Hnone|].
  unfold process_worksheet, ret in *.
  destruct (find_columns header) as [[url_idx|] [decision_idx|]] eqn:Hcols;
    try exact Hnone.
  clear Hnone.
  destruct (process_rows_run url_idx decision_idx 1 rows 0 s)
    as (n & s' & new & Hrun & Hlog & _ & Hw).
  exists n, s', new. split; [done|]. split; [done|].
  intros header' u' d' i row decision c v Hh Hc Hi Hd Hs Hin.
  assert (header' = header) as -> by (by injection Hh).
  rewrite Hcols in Hc. injection Hc as <- <-.
  destruct (Hw _ _ _ Hin) as (j & row' & Hj & Hr & _ & Hel).
  assert (i = S j) as -> by lia.
  assert (rows !! j = Some row) as Hi' by exact Hi.
  rewrite Hj in Hi'. injection Hi' as ->.
  unfold eligible in Hel.
  rewrite (cell_stripped _ _ _ Hd Hs) in Hel.
  by rewrite andb_false_r in Hel.
Qed.

Lemma fetch_failure_step (url_idx decision_idx i : nat) (row : list str)
    (rest : list (list str)) (updated : nat) (s s1 s2 : state W) (kind : exn) :
  eligible url_idx decision_idx row = true →
  workday_login_step (cell row url_idx) (detect_domain (cell row url_idx)) s
    = (Ok (), s1) →
  fetch_status (cell row url_idx) (detect_domain (cell row url_idx)) s1
    = (Raised kind, s2) →
  process_row url_idx decision_idx i row updated s
    = (Ok (updated + 1)%nat, after_failure decision_idx i kind s2) ∧
  process_rows url_idx decision_idx i (row :: rest) updated s
    = process_rows url_idx decision_idx (S i) rest (updated + 1)
        (after_failure decision_idx i kind s2).
Proof.
  intros Hel Hlogin Hfetch.
  pose proof (eligible_true_visit _ _ i _ updated _ _ _ _ Hel Hlogin Hfetch) as Hrow.
  split; [done|].
  cbn [process_rows]. unfold bind at 1. by rewrite Hrow.
Qed.

(** C6.  When the page fetch of a visited row raises, the row gets the
    status [ERROR: <name of the exception>] written to its Decision cell,
    the counter of updated rows goes up by one, and the loop goes on with
    the rows that follow, which it finishes without raising and with the
    write and the count kept. *)
Theorem process_rows_fetch_failure (url_idx decision_idx i : nat) (row : list str)
    (rest : list (list str)) (updated : nat) (s s1 s2 : state W) (kind : exn) :
  eligible url_idx decision_idx row = true →
  workday_login_step (cell row url_idx) (detect_domain (cell row url_idx)) s
    = (Ok (), s1) →
  fetch_status (cell row url_idx) (detect_domain (cell row url_idx)) s1
    = (Raised kind, s2) →
  process_row url_idx decision_idx i row updated s
    = (Ok (updated + 1)%nat, after_failure decision_idx i kind s2) ∧
  process_rows url_idx decision_idx i (row :: rest) updated s
    = process_rows url_idx decision_idx (S i) rest (updated + 1)
        (after_failure decision_idx i kind s2) ∧
  ∃ n s' new,
    process_rows url_idx decision_idx i (row :: rest) updated s = (Ok n, s') ∧
    log s' = log s2 ++
      [UpdateCell (i + 1) (decision_idx + 1) (u "ERROR: " ++ kind)] ++ new ∧
    n = (updated + 1 + length (List.filter (eligible url_idx decision_idx) rest))%nat.
Proof.
  intros Hel Hlogin Hfetch.
  destruct (fetch_failure_step _ _ i _ rest updated _ _ _ _ Hel Hlogin Hfetch)
    as [Hrow Hrows].
  split; [done|]. split; [done|].
  destruct (process_rows_run url_idx decision_idx (S i) rest (updated + 1)
              (after_failure decision_idx i kind s2))
    as (n & s' & new & Hrun & Hlog & Hn & _).
  exists n, s', new. rewrite Hrows. split; [done|]. split; [|done].
  rewrite Hlog. unfold after_failure. cbn [log]. by rewrite <-app_assoc.
Qed.

(** Two failures in a row: each row has its own label, the counter goes
    up by two. *)
Lemma two_fetch_failures (url_idx decision_idx i : nat) (row1 row2 : list str)
    (rest : list (list str)) (updated : nat) (s s1 s2 s3 s4 : state W)
    (kind1 kind2 : exn) :
  eligible url_idx decision_idx row1 = true →
  eligible url_idx decision_idx row2 = true →
  workday_login_step (cell row1 url_idx) (detect_domain (cell row1 url_idx)) s
    = (Ok (), s1) →
  fetch_status (cell row1 url_idx) (detect_domain (cell row1 url_idx)) s1
    = (Raised kind1, s2) →
  workday_login_step (cell row2 url_idx) (detect_domain (cell row2 url_idx))
    (after_failure decision_idx i kind1 s2) = (Ok (), s3) →
  fetch_status (cell row2 url_idx) (detect_domain (cell row2 url_idx)) s3
    = (Raised kind2, s4) →
  process_rows url_idx decision_idx i (row1 :: row2 :: rest) updated s
  = process_rows url_idx decision_idx (S (S i)) rest (updated + 2)
      (after_failure decision_idx (S i) kind2 s4).
Proof.
  intros Hel1 Hel2 Hl1 Hf1 Hl2 Hf2.
  rewrite (proj2 (fetch_failure_step _ _ i _ (row2 :: rest) updated _ _ _ _ Hel1 Hl1 Hf1)).
  rewrite (proj2 (fetch_failure_step _ _ (S i) _ rest (updated + 1) _ _ _ _ Hel2 Hl2 Hf2)).
  by replace (updated + 1 + 1)%nat with (updated + 2)%nat by lia.
Qed.

End SheetClaims.

Section SheetExamples.
Local Existing Instance ascii_tables.
Local Existing Instance demo_world.

(** C2 as stated fails on a Decision cell that holds one blank: it is not
    empty, and the row is visited and its cell overwritten. *)
Lemma blank_decision_overwritten :
  u " " ≠ [] ∧
  process_worksheet
    [[u "URL"; u "Decision"]; [u "https://example.com/job"; u " "]]
    (State blank ∅ [])
  = (Ok 1%nat,
     State (Browser (u "https://example.com/job") []) ∅
       [UpdateCell 2 2 (u "UNKNOWN (generic)")]).
Proof. split; [done | by vm_compute]. Qed.

Lemma process_worksheet_keeps_decisions_witness :
  ∃ n s' new,
    process_worksheet
      [[u "URL"; u "Decision"];
       [u "https://example.com/job"; u "APPLICATION SUBMITTED (LinkedIn)"]]
      (State blank ∅ []) = (Ok n, s') ∧
    log s' = [] ++ new ∧
    UpdateCell (1 + 1) 2 (u "UNKNOWN (generic)") ∉ new.
Proof.
  destruct (process_worksheet_keeps_decisions
    [[u "URL"; u "Decision"];
     [u "https://example.com/job"; u "APPLICATION SUBMITTED (LinkedIn)"]]
    (State blank ∅ [])) as (n & s' & new & Hrun & Hlog & Hkeep).
  exists n, s', new. split; [exact Hrun|]. split; [exact Hlog|].
  apply (Hkeep [u "URL"; u "Decision"] 0%nat 1%nat 1%nat
           [u "https://example.com/job"; u "APPLICATION SUBMITTED (LinkedIn)"]
           (u "APPLICATION SUBMITTED (LinkedIn)")).
  - reflexivity.
  - by vm_compute.
  - reflexivity.
  - reflexivity.
  - by vm_compute.
Defined.

Lemma process_rows_fetch_failure_witness :
  ∃ n s' new,
    process_rows 0 1 1
      [[u "https://down.example.com/a"; []]; [u "https://down.example.com/b"; []]]
      0 (State blank ∅ []) = (Ok n, s') ∧
    log s' = [] ++ [UpdateCell (1 + 1) (1 + 1) (u "ERROR: " ++ u "TimeoutError")] ++ new ∧
    n = (0 + 1 + length (List.filter (eligible 0 1) [[u "https://down.example.com/b"; []]]))%nat.
Proof.
  destruct (process_rows_fetch_failure 0 1 1 [u "https://down.example.com/a"; []]
              [[u "https://down.example.com/b"; []]] 0
              (State blank ∅ []) (State blank ∅ []) (State blank ∅ [])
              (u "TimeoutError")) as (_ & _ & Hrest).
  - by vm_compute.
  - by vm_compute.
  - by vm_compute.
  - exact Hrest.
Defined.

(** Two rows whose pages time out, one after the other. *)
Example two_timeouts :
  process_worksheet
    [[u "URL"; u "Decision"];
     [u "https://down.example.com/a"; []];
     [u "https://down.example.com/b"; []]]
    (State blank ∅ [])
  = (Ok 2%nat,
     State blank ∅
       [UpdateCell 2 2 (u "ERROR: TimeoutError");
        UpdateCell 3 2 (u "ERROR: TimeoutError")]).
Proof. by vm_compute. Qed.

End SheetExamples.

(** ** The cache file (C8) *)

(** *** What is written is read *)

Lemma hex_value_digit (d : N) : d < 16 → hex_value (hex_digit d) = Some d.
Proof.
  intros Hd. unfold hex_value, hex_digit.
  destruct (N.ltb_spec d 10) as [Hlt|Hge].
  - assert ((48 <=? 48 + d) && (48 + d <=? 57) = true) as ->.
    { apply andb_true_iff. split; apply N.leb_le; lia. }
    f_equal. lia.
  - assert ((48 <=? 87 + d) && (87 + d <=? 57) = false) as ->.
    { apply andb_false_iff. right. apply N.leb_gt. lia. }
    assert ((97 <=? 87 + d) && (87 + d <=? 102) = true) as ->.
    { apply andb_true_iff. split; apply N.leb_le; lia. }
    f_equal. lia.
Qed.

Lemma hex4_value (n : N) :
  n < 65536 →
  16 * (16 * (16 * (16 * 0 + n / 4096 mod 16) + n / 256 mod 16) + n / 16 mod 16)
    + n mod 16 = n.
Proof.
  intros Hn. zify. Z.to_euclidean_division_equations. lia.
Qed.

Lemma read_hex4 (k : str) (high : option N) (n : N) (acc : gmap str pyval) (tail : str) :
  n < 65536 →
  read_from (InHex k high 3 0) acc (hex4 n ++ tail)
  = read_from (after_hex k high n) acc tail.
Proof.
  intros Hn. unfold hex4. cbn [app read_from].
  rewrite !hex_value_digit by (apply N.mod_lt; lia).
  by rewrite hex4_value.
Qed.

Lemma escape_ascii_escaped (c : char) :
  code_point c = true → escaped c (escape_ascii c).
Proof.
  unfold code_point, escape_ascii. intros Hc%N.ltb_lt.
  destruct (N.eqb_spec c 34) as [->|H34]; [by apply (escaped_short _ 34)|].
  destruct (N.eqb_spec c 92) as [->|H92]; [by apply (escaped_short _ 92)|].
  destruct (N.eqb_spec c 10) as [->|H10]; [by apply (escaped_short _ 110)|].
  destruct (N.eqb_spec c 13) as [->|H13]; [by apply (escaped_short _ 114)|].
  destruct (N.eqb_spec c 9) as [->|H9]; [by apply (escaped_short _ 116)|].
  destruct (N.eqb_spec c 12) as [->|H12]; [by apply (escaped_short _ 102)|].
  destruct (N.eqb_spec c 8) as [->|H8]; [by apply (escaped_short _ 98)|].
  destruct (N.leb_spec 32 c) as [H32|H32]; cbn [andb].
  - destruct (N.leb_spec c 126) as [H126|H126].
    + apply escaped_plain; [done..| |]; unfold high_surrogate, low_surrogate;
        apply andb_false_iff; left; apply N.leb_gt; lia.
    + destruct (N.ltb_spec c 65536) as [Hlow|Hhigh]; [by apply escaped_hex|].
      cbv zeta. rewrite app_assoc.
      apply escaped_pair.
      * zify. Z.to_euclidean_division_equations. lia.
      * zify. Z.to_euclidean_division_equations. lia.
      * unfold high_surrogate. apply andb_true_iff. split; apply N.leb_le;
          zify; Z.to_euclidean_division_equations; lia.
      * unfold low_surrogate. apply andb_true_iff. split; apply N.leb_le;
          zify; Z.to_euclidean_division_equations; lia.
      * zify. Z.to_euclidean_division_equations. lia.
      * unfold high_surrogate. apply andb_false_iff. right. apply N.leb_gt. lia.
      * unfold low_surrogate. apply andb_false_iff. right. apply N.leb_gt. lia.
  - destruct (N.ltb_spec c 65536) as [Hlow|Hhigh]; [by apply escaped_hex | lia].
Qed.

Section Reading.
Context (acc : gmap str pyval).

Lemma read_short (k : str) (x c : char) (rest : str) :
  x ≠ 117 → unescape x = Some c →
  read_from (InKey k) acc ([92; x] ++ rest) = read_from (InKey (k ++ [c])) acc rest.
Proof.
  intros Hx Hun. cbn [app read_from].
  change (92 =? 34) with false. change (92 =? 92) with true. cbn iota.
  apply N.eqb_neq in Hx. by rewrite Hx, Hun.
Qed.

Lemma read_high_short (k : str) (h x c : char) (rest : str) :
  x ≠ 117 → unescape x = Some c →
  read_from (AfterHigh k h) acc ([92; x] ++ rest)
  = read_from (InKey (k ++ [h; c])) acc rest.
Proof.
  intros Hx Hun. cbn [app read_from].
  change (92 =? 34) with false. change (92 =? 92) with true. cbn iota.
  apply N.eqb_neq in Hx. by rewrite Hx, Hun.
Qed.

Lemma read_plain (k : str) (c : char) (rest : str) :
  c ≠ 34 → c ≠ 92 → 32 ≤ c →
  read_from (InKey k) acc ([c] ++ rest) = read_from (InKey (k ++ [c])) acc rest.
Proof.
  intros H34%N.eqb_neq H92%N.eqb_neq H32%N.ltb_ge. cbn [app read_from].
  by rewrite H34, H92, H32.
Qed.

Lemma read_high_plain (k : str) (h c : char) (rest : str) :
  c ≠ 34 → c ≠ 92 → 32 ≤ c →
  read_from (AfterHigh k h) acc ([c] ++ rest)
  = read_from (InKey (k ++ [h; c])) acc rest.
Proof.
  intros H34%N.eqb_neq H92%N.eqb_neq H32%N.ltb_ge. cbn [app read_from].
  by rewrite H34, H92, H32.
Qed.

Lemma read_hex (k : str) (n : N) (rest : str) :
  n < 65536 →
  read_from (InKey k) acc (([92; 117] ++ hex4 n) ++ rest)
  = read_from (after_hex k None n) acc rest.
Proof.
  intros Hn. rewrite <-app_assoc. cbn [app read_from].
  change (92 =? 34) with false. change (92 =? 92) with true.
  change (117 =? 117) with true. cbn iota.
  by apply read_hex4.
Qed.

Lemma read_high_hex (k : str) (h n : N) (rest : str) :
  n < 65536 →
  read_from (AfterHigh k h) acc (([92; 117] ++ hex4 n) ++ rest)
  = read_from (after_hex k (Some h) n) acc rest.
Proof.
  intros Hn. rewrite <-app_assoc. cbn [app read_from].
  change (92 =? 34) with false. change (92 =? 92) with true.
  change (117 =? 117) with true. cbn iota.
  by apply read_hex4.
Qed.

(** A key that was written is read back, also after a high surrogate that
    is still waiting for what follows it. *)
Lemma read_key (s : str) (tail : str) :
  unsplit s = true →
  (∀ k, read_from (InKey k) acc (flat_map escape_ascii s ++ 34 :: tail)
        = read_from (AtColon (k ++ s)) acc tail) ∧
  (∀ k h, starts_low s = false →
     read_from (AfterHigh k h) acc (flat_map escape_ascii s ++ 34 :: tail)
     = read_from (AtColon (k ++ h :: s)) acc tail).
Proof.
  induction s as [|c s IH]; intros Hs.
  - split.
    + intros k. rewrite app_nil_r. cbn [flat_map app read_from].
      by change (34 =? 34) with true.
    + intros k h _. cbn [flat_map app read_from].
      by change (34 =? 34) with true.
  - cbn [unsplit] in Hs.
    apply andb_true_iff in Hs as [[Hc Hpair%negb_true_iff]%andb_true_iff Hs].
    fold (starts_low s) in Hpair.
    destruct (IH Hs) as [IH1 IH2]. clear IH.
    cbn [flat_map]. rewrite <-!app_assoc.
    assert (Hin : ∀ k, read_from (InKey (k ++ [c])) acc
                         (flat_map escape_ascii s ++ 34 :: tail)
                       = read_from (AtColon (k ++ c :: s)) acc tail).
    { intros k. rewrite IH1. by rewrite <-app_assoc. }
    assert (Hin2 : ∀ k h, read_from (InKey (k ++ [h; c])) acc
                         (flat_map escape_ascii s ++ 34 :: tail)
                       = read_from (AtColon (k ++ h :: c :: s)) acc tail).
    { intros k h. rewrite IH1. by rewrite <-app_assoc. }
    destruct (escape_ascii_escaped c Hc)
      as [x Hx Hun|H34 H92 H32 Hhi Hlo|Hlt|hi lo Hhi16 Hlo16 Hhi Hlo Hjoin Hchi Hclo].
    + split; [intros k|intros k h _].
      * by rewrite (read_short k x c).
      * by rewrite (read_high_short k h x c).
    + split; [intros k|intros k h _].
      * by rewrite read_plain.
      * by rewrite read_high_plain.
    + split; [intros k|intros k h Hnotlow].
      * rewrite read_hex by done. unfold after_hex.
        destruct (high_surrogate c) eqn:Hhigh; [|done].
        rewrite andb_true_l in Hpair. by rewrite IH2.
      * rewrite read_high_hex by done. unfold after_hex.
        cbn [starts_low] in Hnotlow. rewrite Hnotlow.
        destruct (high_surrogate c) eqn:Hhigh; [|done].
        rewrite andb_true_l in Hpair. rewrite IH2 by done. by rewrite <-app_assoc.
    + split; [intros k|intros k h _].
      * rewrite <-(app_assoc ([92; 117] ++ hex4 hi)), read_hex by done.
        unfold after_hex at 1. rewrite Hhi.
        rewrite read_high_hex by done.
        unfold after_hex. rewrite Hlo, Hjoin. done.
      * rewrite <-(app_assoc ([92; 117] ++ hex4 hi)), read_high_hex by done.
        unfold after_hex at 1.
        assert (low_surrogate hi = false) as ->.
        { unfold high_surrogate, low_surrogate in *.
          apply andb_true_iff in Hhi as [_ Hle%N.leb_le].
          apply andb_false_iff. left. apply N.leb_gt. lia. }
        rewrite Hhi.
        rewrite read_high_hex by done.
        unfold after_hex. rewrite Hlo, Hjoin.
        rewrite IH1. by rewrite <-!app_assoc.
Qed.

End Reading.

Lemma read_blanks (p : place) (acc : gmap str pyval) (n : nat) (rest : str) :
  p = AtKey ∨ p = AtKeyOrClose →
  read_from p acc (replicate n 32 ++ rest) = read_from p acc rest.
Proof.
  intros Hp. induction n as [|n IH]; [done|].
  cbn [replicate app]. by destruct Hp as [-> | ->].
Qed.

Lemma read_entry (p : place) (e : str * Z) (acc : gmap str pyval)
    (indent : N) (tail : str) :
  p = AtKey ∨ p = AtKeyOrClose →
  cache_entry e →
  read_from p acc (entry_text indent e ++ tail)
  = read_from (InInt e.1 false e.2 1) acc tail.
Proof.
  intros Hp [Hk Hz]. destruct e as [k z]. cbn [fst snd] in *.
  unfold entry_text, json_string. cbn [fst snd].
  rewrite <-!app_assoc, read_blanks by done.
  assert (Hquote : read_from p acc ([34] ++ flat_map escape_ascii k ++ [34] ++ u ": " ++ decimal z ++ tail)
            = read_from (InKey []) acc (flat_map escape_ascii k ++ 34 :: u ": " ++ decimal z ++ tail)).
  { by destruct Hp as [-> | ->]. }
  rewrite Hquote, (proj1 (read_key acc k _ Hk)). cbn [app].
  by destruct Hz as [-> | ->].
Qed.

Lemma join_cons_cons (sep a b : str) (parts : list str) :
  join sep (a :: b :: parts) = a ++ sep ++ join sep (b :: parts).
Proof. done. Qed.

Lemma read_entries (p : place) (entries : list (str * Z))
    (acc : gmap str pyval) (indent : N) :
  p = AtKey ∨ p = AtKeyOrClose →
  entries ≠ [] →
  Forall cache_entry entries →
  read_from p acc
    (join (u "," ++ [10]) (map (entry_text indent) entries) ++ [10] ++ u "}")
  = Some (foldl put acc entries).
Proof.
  intros Hp Hne Hall. revert p acc Hp.
  induction Hall as [|e entries He Hall IH]; intros p acc Hp; [done|].
  destruct entries as [|e' entries].
  - cbn [map join foldl]. rewrite read_entry by done.
    destruct e as [k z]. destruct He as [_ Hz]. cbn [fst snd] in *.
    by destruct Hz as [-> | ->].
  - change (map (entry_text indent) (e :: e' :: entries))
      with (entry_text indent e :: entry_text indent e' :: map (entry_text indent) entries).
    change (foldl put acc (e :: e' :: entries))
      with (foldl put (put acc e) (e' :: entries)).
    rewrite join_cons_cons, <-!app_assoc, read_entry by done.
    rewrite <-(IH ltac:(done) AtKey (put acc e) (or_introl eq_refl)).
    destruct e as [k z]. destruct He as [_ Hz]. cbn [fst snd] in *.
    by destruct Hz as [-> | ->].
Qed.

Lemma foldl_put (entries : list (str * Z)) :
  NoDup entries.*1 →
  foldl put ∅ entries = list_to_map (prod_map id PInt <$> entries).
Proof.
  induction entries as [|[k v] entries IH] using rev_ind; [done|].
  rewrite fmap_app, NoDup_app. intros (Hnd & Hfresh & _).
  rewrite foldl_snoc, IH by done. unfold put at 1. cbn [fst snd].
  rewrite fmap_app. cbn [fmap list_fmap prod_map fst snd id].
  rewrite list_to_map_snoc; [done|].
  intros Hin. apply (Hfresh k); [|by left].
  by rewrite <-list_fmap_compose in Hin.
Qed.

(** What was written is read: an object of cache entries with distinct keys is
    read as the mapping of its entries. *)
Lemma read_object_text (indent : N) (entries : list (str * Z)) :
  NoDup entries.*1 →
  Forall cache_entry entries →
  read_object (object_text indent entries)
  = Some (list_to_map (prod_map id PInt <$> entries)).
Proof.
  intros Hnd Hall. unfold read_object, object_text.
  destruct entries as [|e entries]; [done|].
  change (u "{") with [123]. cbn [app read_from].
  change (blank_char 123) with false. change (123 =? 123) with true.
  change (blank_char 10) with true. cbn iota.
  rewrite (read_entries AtKeyOrClose); [|by right|done|done].
  by rewrite foldl_put.
Qed.

Section CacheFile.
Context `{Json}.

(** [json.load] reads the mapping back from what [json.dump] wrote. *)
Lemma dump_then_load (cache : gmap str pyval) :
  index_mapping cache →
  unsplit_keys cache →
  json_load (json_dump (PDict cache) 2) = Some (PDict cache).
Proof.
  intros Hidx Hkeys.
  destruct (json_dump_object cache 2 Hidx) as (entries & Hperm & ->).
  apply json_load_object.
  assert (Hfst : entries.*1 = (prod_map id PInt <$> entries).*1).
  { rewrite <-list_fmap_compose. by apply list_fmap_ext; intros ? []. }
  assert (Hnd : NoDup entries.*1).
  { rewrite Hfst, Hperm. apply NoDup_fst_map_to_list. }
  rewrite read_object_text; [|done|].
  - f_equal. trans (list_to_map (M:=gmap str pyval) (map_to_list cache));
      [|apply list_to_map_to_list].
    apply list_to_map_proper; [by rewrite <-Hfst | done].
  - apply Forall_forall. intros [k z] Hin.
    assert (Hcache : cache !! k = Some (PInt z)).
    { apply elem_of_map_to_list. rewrite <-Hperm.
      apply list_elem_of_fmap. by exists (k, z). }
    split; cbn [fst snd].
    + apply Hkeys. by rewrite Hcache.
    + destruct (Hidx k _ Hcache) as [Hz|Hz]; injection Hz as ->; [by left | by right].
Qed.

(** C8, as amended.  A mapping from tenants to the index 1 or 2, in whose
    tenants no high surrogate is directly followed by a low one, is loaded
    as it was saved, when the cache file is not there yet or may be read
    and written: the save returns, and the load that follows gives the
    mapping. *)
Theorem save_then_load (cache : gmap str pyval) (files : gmap str file) :
  index_mapping cache →
  unsplit_keys cache →
  cache_file_free files →
  ∃ files', save_workday_cache (PDict cache) files = (Ok (), files') ∧
    load_workday_cache files' = PDict cache.
Proof.
  intros Hidx Hkeys Hfile. unfold save_workday_cache.
  destruct (files !! WORKDAY_CACHE_PATH) as [f|] eqn:Hf.
  - destruct (Hfile f Hf) as [Hr Hw]. rewrite Hw, Hr.
    eexists. split; [done|].
    unfold load_workday_cache. rewrite lookup_insert_eq. cbn [may_read file_text].
    by rewrite dump_then_load.
  - eexists. split; [done|].
    unfold load_workday_cache. rewrite lookup_insert_eq. cbn [may_read file_text].
    by rewrite dump_then_load.
Qed.
End CacheFile.

Section CacheFileExamples.
Local Existing Instance flat_json.

Example flat_dump_acme :
  flat_dump (PDict {[u "acme" := PInt 2; u "spectris" := PInt 1]}) 2
  = u "{" ++ [10] ++
    u "  " ++ json_string (u "spectris") ++ u ": 1," ++ [10] ++
    u "  " ++ json_string (u "acme") ++ u ": 2" ++ [10] ++
    u "}".
Proof. by vm_compute. Qed.

Lemma save_then_load_witness :
  ∃ files',
    save_workday_cache (PDict {[u "acme" := PInt 2; u "spectris" := PInt 1]})
      {[WORKDAY_CACHE_PATH := File true true None]} = (Ok (), files') ∧
    load_workday_cache files' = PDict {[u "acme" := PInt 2; u "spectris" := PInt 1]}.
Proof.
  apply (save_then_load {[u "acme" := PInt 2; u "spectris" := PInt 1]}
           {[WORKDAY_CACHE_PATH := File true true None]}).
  - intros tenant v Hv.
    apply lookup_insert_Some in Hv as [[_ <-]|[_ Hv]]; [by right|].
    apply lookup_singleton_Some in Hv as [_ <-]. by left.
  - intros tenant [v Hv].
    apply lookup_insert_Some in Hv as [[<- _]|[_ Hv]]; [by vm_compute|].
    apply lookup_singleton_Some in Hv as [<- _]. by vm_compute.
  - intros f Hf. apply lookup_singleton_Some in Hf as [_ <-]. done.
Defined.

(** C8 as stated fails in two ways.  A cache file that may be written but
    not read takes the save and stays unreadable, so that the load gives
    the empty mapping.  And a tenant made of the two halves of a surrogate
    pair is written as two escapes, which are read as the one character of
    the pair: the mapping loaded has another key. *)
Lemma saved_cache_not_loaded :
  (let saved :=
     save_workday_cache (PDict {[u "acme" := PInt 1]})
       {[WORKDAY_CACHE_PATH := File false true (Some [])]} in
   saved.1 = Ok () ∧
   load_workday_cache saved.2 = PDict ∅ ∧
   ({[u "acme" := PInt 1]} : gmap str pyval) !! u "acme"
     ≠ (∅ : gmap str pyval) !! u "acme") ∧
  (let saved := save_workday_cache (PDict {[[55357; 56832] := PInt 1]}) ∅ in
   saved.1 = Ok () ∧
   load_workday_cache saved.2 = PDict {[[128512] := PInt 1]} ∧
   ({[[55357; 56832] := PInt 1]} : gmap str pyval) !! [55357; 56832]
     ≠ ({[[128512] := PInt 1]} : gmap str pyval) !! [55357; 56832]).
Proof.
  split; cbv zeta.
  - split; [by vm_compute|]. split; [by vm_compute|].
    by rewrite lookup_singleton_eq, lookup_empty.
  - split; [by vm_compute|]. split; [by vm_compute|].
    rewrite lookup_singleton_eq, lookup_singleton_ne; [done|].
    intros Heq. by apply (f_equal length) in Heq.
Qed.

End CacheFileExamples.

(** * Further properties *)

(** ** The tenant and the domain of an address *)

Section TenantDomain.
Context `{Unicode}.

Lemma extract_workday_tenant_Some (url t : str) :
  extract_workday_tenant url = Some t →
  ∃ pre digits rest, well_shaped t digits ∧ url = pre ++ workday_url t digits rest.
Proof.
  unfold extract_workday_tenant.
  destruct (re_search WORKDAY_TENANT_RE url) as [g|] eqn:Hs; [|done].
  intros [= ->]. apply re_search_Some in Hs as (pre & s' & -> & Hm & _).
  destruct (match_at_sound _ _ Hm) as (ds & rest & Hw & ->).
  by exists pre, ds, rest.
Qed.

(** X1.  A tenant that [extract_workday_tenant] returns is not empty and
    has no dot in it, so that the test [if tenant:] of the row processor
    never turns a tenant away. *)
Theorem extracted_tenant_is_label (url t : str) :
  extract_workday_tenant url = Some t →
  truthy t = true ∧ dot ∉ t.
Proof.
  intros (pre & ds & rest & (Hne & Hdot & _) & _)%extract_workday_tenant_Some.
  split; [by destruct t | done].
Qed.

(** X2.  An address from which a tenant is extracted mentions
    [myworkdayjobs.com], so [detect_domain] answers [workday] for it, or
    [linkedin] when the lower-cased address contains [linkedin.com] as
    well; it is never one of the other five domains. *)
Theorem extracted_tenant_domain (url t : str) :
  extract_workday_tenant url = Some t →
  detect_domain url =
    if str_in (u "linkedin.com") (lower url) then u "linkedin" else u "workday".
Proof.
  intros (pre & ds & rest & _ & ->)%extract_workday_tenant_Some.
  assert (Hin : str_in (u "myworkdayjobs.com")
            (lower (pre ++ workday_url t ds rest)) = true).
  { apply str_in_lower; [done|]. apply str_in_spec. unfold workday_url.
    exists (pre ++ u "https://" ++ t ++ u ".wd" ++ ds ++ [dot]), rest.
    by rewrite <-!app_assoc. }
  unfold detect_domain. by rewrite Hin.
Qed.

End TenantDomain.

Section TenantDomainExamples.
Local Existing Instance ascii_tables.

Lemma extracted_tenant_is_label_witness :
  truthy (u "northrop") = true ∧ dot ∉ u "northrop".
Proof.
  apply (extracted_tenant_is_label
           (u "see https://northrop.wd1.myworkdayjobs.com/Northrop_External")).
  by vm_compute.
Defined.

Lemma extracted_tenant_domain_witness :
  detect_domain (u "https://northrop.wd1.myworkdayjobs.com/x?src=LinkedIn.com")
  = (if str_in (u "linkedin.com")
          (lower (u "https://northrop.wd1.myworkdayjobs.com/x?src=LinkedIn.com"))
     then u "linkedin" else u "workday").
Proof.
  apply (extracted_tenant_domain _ (u "northrop")). by vm_compute.
Defined.

End TenantDomainExamples.

(** ** The classifier *)

Section Classifier.
Context `{Unicode}.

Lemma find_elem_of {A} (f : A → bool) (l : list A) (x : A) :
  find f l = Some x → x ∈ l ∧ f x = true.
Proof.
  induction l as [|y l IH]; simpl; [done|].
  destruct (f y) eqn:Hy.
  - intros [= ->]. split; [by left | done].
  - intros [Hin Hx]%IH. split; [by right | done].
Qed.

(** [classify_status] goes through the rules of the domain in their order. *)
Lemma classify_status_rules (text domain : str) :
  classify_status text domain =
  match find (λ '(ps, _), any_in ps (lower text)) (rules_of domain) with
  | Some (_, label) => label
  | None => unknown_of domain
  end.
Proof.
  unfold classify_status, rules_of, unknown_of, LINKEDIN_RULES, WORKDAY_RULES.
  destruct (str_eq domain (u "linkedin")); [|destruct (str_eq domain (u "workday"))];
    cbn [find].
  - destruct (any_in LINKEDIN_REJECT_PATTERNS (lower text)); [reflexivity|].
    destruct (any_in LINKEDIN_REVIEW_PATTERNS (lower text)); [reflexivity|].
    destruct (any_in LINKEDIN_VIEWED_PATTERNS (lower text)); [reflexivity|].
    destruct (any_in LINKEDIN_SUBMITTED_PATTERNS (lower text)); [reflexivity|].
    destruct (any_in CLOSED_PATTERNS (lower text)); reflexivity.
  - destruct (any_in WORKDAY_REJECT_PATTERNS (lower text)); [reflexivity|].
    destruct (any_in WORKDAY_INPROCESS_PATTERNS (lower text)); [reflexivity|].
    destruct (any_in CLOSED_PATTERNS (lower text)); reflexivity.
  - destruct (any_in CLOSED_PATTERNS (lower text)); reflexivity.
Qed.

(** X3.  First category wins: when a phrase of one list of the domain
    occurs in the page text, in any mix of upper and lower case, and no
    phrase of the lists that come before it does, the status is the label
    of that list.  For LinkedIn the order is reject, review, viewed,
    submitted, closed; for Workday reject, in process, closed; any other
    domain has the closed list only. *)
Theorem classify_status_first_rule (text domain : str)
    (earlier later : list (list str * str)) (phrases : list str) (label phrase : str) :
  rules_of domain = earlier ++ (phrases, label) :: later →
  (∀ ps l p, (ps, l) ∈ earlier → p ∈ ps → str_in p (lower text) = false) →
  phrase ∈ phrases →
  mentions text phrase →
  classify_status text domain = label.
Proof.
  intros Hrules Hearlier Hin Hm.
  rewrite classify_status_rules, Hrules.
  rewrite (find_first _ _ _ (phrases, label)); [done| |].
  - intros [ps l] Hps.
    destruct (any_in ps (lower text)) eqn:Hany; [|done].
    apply any_in_spec in Hany as (p & Hp & Hfound).
    by rewrite (Hearlier ps l p) in Hfound.
  - apply any_in_spec. exists phrase. split; [done | by apply mentions_lower].
Qed.

Lemma rule_labels_known (domain : str) (ps : list str) (label : str) :
  (ps, label) ∈ rules_of domain → label ≠ unknown_of domain.
Proof.
  unfold rules_of, unknown_of, LINKEDIN_RULES, WORKDAY_RULES.
  destruct (str_eq domain (u "linkedin")); [|destruct (str_eq domain (u "workday"))];
    rewrite ?elem_of_cons, elem_of_nil; intros Hin Heq.
  - destruct Hin as [Hin|[Hin|[Hin|[Hin|[Hin|[]]]]]];
      apply (inj2 pair) in Hin as [_ ->]; by vm_compute in Heq.
  - destruct Hin as [Hin|[Hin|[Hin|[]]]];
      apply (inj2 pair) in Hin as [_ ->]; by vm_compute in Heq.
  - destruct Hin as [Hin|[]]. apply (inj2 pair) in Hin as [_ ->].
    change (u "JOB CLOSED (") with (74 :: u "OB CLOSED (") in Heq.
    change (u "UNKNOWN (") with (85 :: u "NKNOWN (") in Heq.
    by rewrite <-!app_comm_cons in Heq.
Qed.

(** X4.  The status is the [UNKNOWN] label of the domain exactly when no
    phrase of any list of the domain occurs in the lower-cased page
    text. *)
Theorem classify_status_unknown (text domain : str) :
  classify_status text domain = unknown_of domain ↔
  ∀ ps l p, (ps, l) ∈ rules_of domain → p ∈ ps → str_in p (lower text) = false.
Proof.
  rewrite classify_status_rules. split.
  - destruct (find _ (rules_of domain)) as [[ps0 l0]|] eqn:Hfind.
    + apply find_elem_of in Hfind as [Hin _]. intros Heq.
      by destruct (rule_labels_known _ _ _ Hin).
    + intros _ ps l p Hps Hp.
      destruct (str_in p (lower text)) eqn:Hfound; [|done].
      assert (Hany : any_in ps (lower text) = true)
        by (apply any_in_spec; by exists p).
      apply list_elem_of_In in Hps.
      by rewrite (find_none _ _ Hfind (ps, l) Hps) in Hany.
  - intros Hnone. rewrite find_nowhere; [done|].
    intros [ps l] Hps.
    destruct (any_in ps (lower text)) eqn:Hany; [|done].
    apply any_in_spec in Hany as (p & Hp & Hfound).
    by rewrite (Hnone ps l p) in Hfound.
Qed.

Lemma detect_domain_cases (url : str) : detect_domain url ∈ DOMAINS.
Proof.
  unfold detect_domain, DOMAINS, HOST_MARKERS. cbn [fmap list_fmap snd app].
  repeat (destruct (str_in _ (lower url)); [rewrite !elem_of_cons; tauto|]).
  rewrite !elem_of_cons; tauto.
Qed.

(** The classification of a page of a detected domain is a known label. *)
Lemma classify_detected_label (text url : str) :
  classify_status text (detect_domain url) ∈ status_labels.
Proof.
  unfold status_labels. apply list_elem_of_In, in_flat_map.
  exists (detect_domain url).
  split; [apply list_elem_of_In, detect_domain_cases|].
  apply list_elem_of_In, elem_of_app. rewrite classify_status_rules.
  destruct (find _ _) as [[ps l]|] eqn:Hfind.
  - left. apply find_elem_of in Hfind as [Hin _].
    apply list_elem_of_fmap. by exists (ps, l).
  - right. by left.
Qed.

(** X5.  The status that the classifier gives a page of a detected domain
    is one of twenty fixed labels, all different: for each of the seven
    domains the labels of its lists and its [UNKNOWN] label. *)
Theorem classify_status_vocabulary (text url : str) :
  classify_status text (detect_domain url) ∈ status_labels ∧
  length status_labels = 20%nat ∧ NoDup status_labels.
Proof.
  split; [apply classify_detected_label|].
  split; [by vm_compute | apply (bool_decide_unpack _); by vm_compute].
Qed.

End Classifier.

Section ClassifierExamples.
Local Existing Instance ascii_tables.

Lemma classify_status_first_rule_witness :
  classify_status (u "Your application has been viewed by the hiring team")
    (u "linkedin")
  = u "APPLICATION VIEWED (LinkedIn)".
Proof.
  apply (classify_status_first_rule _ _ (take 2 LINKEDIN_RULES) (drop 3 LINKEDIN_RULES)
           LINKEDIN_VIEWED_PATTERNS _ (u "your application has been viewed")).
  - by vm_compute.
  - intros ps l p Hin Hp. cbn [take LINKEDIN_RULES] in Hin.
    rewrite !elem_of_cons, elem_of_nil in Hin.
    destruct Hin as [Hin|[Hin|[]]]; apply (inj2 pair) in Hin as [-> _].
    + unfold LINKEDIN_REJECT_PATTERNS in Hp.
      rewrite !elem_of_cons, elem_of_nil in Hp.
      destruct Hp as [->|[->|[->|[]]]]; by vm_compute.
    + unfold LINKEDIN_REVIEW_PATTERNS in Hp.
      rewrite !elem_of_cons, elem_of_nil in Hp.
      destruct Hp as [->|[->|[]]]; by vm_compute.
  - apply (bool_decide_unpack _). by vm_compute.
  - right. exists (u "Your application has been viewed"). by vm_compute.
Defined.

End ClassifierExamples.

(** ** More on the Workday login *)

Section LoginMore.
Context `{Unicode} {W : Type} `{World W}.

Lemma kept_or_index_refl (c : gmap str pyval) : kept_or_index c c.
Proof. intros t. by left. Qed.

Lemma kept_or_index_trans (c1 c2 c3 : gmap str pyval) :
  kept_or_index c1 c2 → kept_or_index c2 c3 → kept_or_index c1 c3.
Proof.
  intros H12 H23 t. destruct (H23 t) as [->|Hidx]; [apply H12 | by right].
Qed.

Lemma workday_try_login_detail (tenant : str) (s : state W) :
  ∃ ok s' tried,
    workday_try_login tenant s = (Ok ok, s') ∧
    log s' = log s ++ (TryPassword tenant <$> tried) ∧
    (length tried ≤ 2)%nat ∧ NoDup tried ∧
    (∀ idx, idx ∈ tried → idx = 1%Z ∨ idx = 2%Z) ∧
    kept_or_index (workday_cache s) (workday_cache s') ∧
    (∀ other, other ≠ tenant →
       workday_cache s' !! other = workday_cache s !! other) ∧
    (ok = true → ∃ idx, last tried = Some idx ∧
       workday_cache s' = <[tenant := PInt idx]> (workday_cache s)).
Proof.
  destruct (workday_try_login_run tenant s)
    as (ok & s' & tried & Hrun & Hlog & Hset & Hunset & Hfalse).
  exists ok, s', tried. split; [done|]. split; [done|].
  assert (Hpre : ∃ rest, login_order tenant (workday_cache s) = tried ++ rest).
  { destruct credentials_set_dec as [Hcred|Hno].
    - specialize (Hset Hcred). destruct ok.
      + destruct Hset as (idx & rest & -> & _). by exists rest.
      + exists []. by rewrite app_nil_r.
    - destruct (Hunset Hno) as [-> _]. by eexists. }
  destruct Hpre as [rest Hpre].
  assert (Hshape : (length tried ≤ 2)%nat ∧ NoDup tried ∧
            ∀ idx, idx ∈ tried → idx = 1%Z ∨ idx = 2%Z).
  { destruct (login_order_cases tenant (workday_cache s)) as [Ho|Ho];
      rewrite Ho in Hpre;
      destruct tried as [|i1 [|i2 [|i3 tried]]]; simplify_eq/=;
      (split; [lia|]); (split; [by apply (bool_decide_unpack _)|]);
      intros idx; rewrite ?elem_of_cons, elem_of_nil; tauto. }
  destruct Hshape as (Hlen & Hnd & Hidx).
  split; [done|]. split; [done|]. split; [done|].
  assert (Hcache : workday_cache s' = workday_cache s ∨
            ∃ idx, last tried = Some idx ∧
              workday_cache s' = <[tenant := PInt idx]> (workday_cache s)).
  { destruct ok; [|left; by apply Hfalse]. right.
    destruct credentials_set_dec as [Hcred|Hno]; [|by destruct (Hunset Hno)].
    destruct (Hset Hcred) as (idx & rest' & _ & Hlast & Hc). by exists idx. }
  split; [|split].
  - destruct Hcache as [->|(idx & Hlast & ->)]; [apply kept_or_index_refl|].
    intros t. destruct (decide (tenant = t)) as [<-|Hne].
    + right. rewrite lookup_insert_eq.
      destruct (Hidx idx (last_Some_elem_of _ _ Hlast)) as [->| ->]; [by left | by right].
    + left. by rewrite lookup_insert_ne.
  - intros other Hne. destruct Hcache as [->|(idx & _ & ->)]; [done|].
    by rewrite lookup_insert_ne.
  - intros ->. destruct Hcache as [Hc|Hc]; [|done].
    destruct credentials_set_dec as [Hcred|Hno]; [|by destruct (Hunset Hno)].
    destruct (Hset Hcred) as (idx & rest' & _ & Hlast & Hc'). by exists idx.
Qed.

(** X6.  Without the Workday credentials (one of the three settings is
    missing or empty) [workday_try_login] returns [False] and does
    nothing: the page is not touched, nothing is tried, the cache is as it
    was. *)
Theorem workday_try_login_without_credentials (tenant : str) (s : state W) :
  ¬ credentials_set (W:=W) →
  workday_try_login tenant s = (Ok false, s).
Proof.
  unfold credentials_set, workday_try_login. intros Hno.
  destruct (unset (os_getenv (u "WORKDAY_EMAIL"))); [done|].
  destruct (unset (os_getenv (u "WORKDAY_PASSWORD_1"))); [done|].
  destruct (unset (os_getenv (u "WORKDAY_PASSWORD_2"))); [done|].
  by destruct Hno.
Qed.

(** X8.  The cache learns: after a call that logged in, the order for the
    same tenant starts with the index of the password that worked, the one
    tried last, so that the next call tries it first. *)
Theorem workday_try_login_learns (tenant : str) (s s' : state W) :
  workday_try_login tenant s = (Ok true, s') →
  ∃ idx, last (log s') = Some (TryPassword tenant idx) ∧
    workday_cache s' !! tenant = Some (PInt idx) ∧
    head (login_order tenant (workday_cache s')) = Some idx.
Proof.
  intros Hrun.
  destruct (workday_try_login_detail tenant s)
    as (ok & s2 & tried & Hrun' & Hlog & _ & _ & Hidx & _ & _ & Hok).
  rewrite Hrun in Hrun'. injection Hrun' as <- <-.
  destruct (Hok eq_refl) as (idx & Hlast & Hcache).
  exists idx. split; [|split].
  - rewrite Hlog. apply last_app_Some. left. by rewrite fmap_last, Hlast.
  - by rewrite Hcache, lookup_insert_eq.
  - unfold login_order. rewrite Hcache, lookup_insert_eq.
    destruct (Hidx idx (last_Some_elem_of _ _ Hlast)) as [->| ->]; done.
Qed.

(** X9.  An attempt counts as a login only when the address of the page,
    read five seconds after Enter, does not contain [login] in any case;
    an attempt never raises. *)
Theorem attempt_login_left_login_page (url email password : str) (s : state W) :
  ∃ ok s', attempt_login url email password s = (Ok ok, s') ∧
    (ok = true → str_in (u "login") (lower (page_url (page s'))) = false).
Proof.
  unfold attempt_login, try_except, bind, goto, fill, press, sleep, get_url,
    on_page, ret.
  destruct (page_goto url 45000 (page s)) as [[[]|?] w1]; cbn [page workday_cache log];
    [|by (eexists false, _; split; [reflexivity | intros [=]])].
  destruct (page_fill _ email _) as [[[]|?] w2]; cbn [page workday_cache log];
    [|by (eexists false, _; split; [reflexivity | intros [=]])].
  destruct (page_fill _ password _) as [[[]|?] w3]; cbn [page workday_cache log];
    [|by (eexists false, _; split; [reflexivity | intros [=]])].
  destruct (keyboard_press _ _) as [[[]|?] w4]; cbn [page workday_cache log];
    [|by (eexists false, _; split; [reflexivity | intros [=]])].
  destruct (str_in (u "login") (lower (page_url (time_sleep 5 w4)))) eqn:Hurl;
    cbn [negb]; eexists _, _; (split; [reflexivity|]); by cbn [page].
Qed.

End LoginMore.

Section LoginMoreExamples.
Local Existing Instance ascii_tables.

Lemma workday_try_login_without_credentials_witness :
  workday_try_login (H0:=bare_world) (u "acme") (State blank ∅ [])
  = (Ok false, State blank ∅ []).
Proof.
  apply (workday_try_login_without_credentials (H0:=bare_world)).
  by intros [Hemail _].
Defined.

Lemma workday_try_login_learns_witness :
  ∃ idx,
    last (log (State (Browser (u "https://acme.myworkday.com/acme/home.htm") (u "pw-two"))
                 {[u "acme" := PInt 2]}
                 [TryPassword (u "acme") 1; TryPassword (u "acme") 2]))
      = Some (TryPassword (u "acme") idx) ∧
    workday_cache
      (State (Browser (u "https://acme.myworkday.com/acme/home.htm") (u "pw-two"))
         {[u "acme" := PInt 2]}
         [TryPassword (u "acme") 1; TryPassword (u "acme") 2]) !! u "acme"
      = Some (PInt idx) ∧
    head (login_order (u "acme")
            (workday_cache
               (State (Browser (u "https://acme.myworkday.com/acme/home.htm") (u "pw-two"))
                  {[u "acme" := PInt 2]}
                  [TryPassword (u "acme") 1; TryPassword (u "acme") 2])))
      = Some idx.
Proof.
  apply (workday_try_login_learns (H0:=demo_world) (u "acme") (State blank ∅ [])).
  by vm_compute.
Defined.

End LoginMoreExamples.

(** ** The login with any value as the cache *)

Section AnyCacheFacts.
Context `{Unicode} {W : Type} `{World W}.

(** An attempt does not look at the cache. *)
Lemma attempt_login_any_cache (url email password : str) (w : W) (l : list event) :
  ∃ ok w', ∀ cache,
    attempt_login url email password (State w cache l) = (Ok ok, State w' cache l).
Proof.
  unfold attempt_login, try_except, bind, goto, fill, press, sleep, get_url,
    on_page, ret. cbn [page workday_cache log].
  destruct (page_goto url 45000 w) as [[[]|?] w1]; cbn [page workday_cache log];
    [|by exists false, w1].
  destruct (page_fill _ email _) as [[[]|?] w2]; cbn [page workday_cache log];
    [|by exists false, w2].
  destruct (page_fill _ password _) as [[[]|?] w3]; cbn [page workday_cache log];
    [|by exists false, w3].
  destruct (keyboard_press _ _) as [[[]|?] w4]; cbn [page workday_cache log];
    [|by exists false, w4].
  destruct (negb _); by eexists _, _.
Qed.

Lemma login_order_any_dict (tenant : str) (s : state W) :
  login_order_any tenant (to_run s)
  = (Ok (login_order tenant (workday_cache s)), to_run s).
Proof.
  unfold login_order_any, login_order, to_run. cbn [run_cache py_contains py_getitem].
  destruct (workday_cache s !! tenant) as [v|] eqn:Hv.
  - rewrite bool_decide_eq_true_2 by done. done.
  - rewrite bool_decide_eq_false_2; [done|]. by intros [? ?].
Qed.

Lemma login_loop_any_dict (tenant url email pwd1 pwd2 : str) (order : list Z)
    (s : state W) :
  login_loop_any tenant url email pwd1 pwd2 order (to_run s)
  = ((login_loop tenant url email pwd1 pwd2 order s).1,
     to_run (login_loop tenant url email pwd1 pwd2 order s).2).
Proof.
  revert s. induction order as [|idx order IH]; intros s; [done|].
  destruct (attempt_login_any_cache url email (if (idx =? 1)%Z then pwd1 else pwd2)
              (page s) (log s ++ [TryPassword tenant idx])) as (ok & w' & Hatt).
  assert (Hstep : login_loop tenant url email pwd1 pwd2 (idx :: order) s
            = if ok then
                (Ok true,
                 State w' (<[tenant := PInt idx]> (workday_cache s))
                   (log s ++ [TryPassword tenant idx]))
              else login_loop tenant url email pwd1 pwd2 order
                     (State w' (workday_cache s) (log s ++ [TryPassword tenant idx]))).
  { cbn [login_loop]. unfold bind at 1, emit at 1, bind at 1.
    rewrite (Hatt (workday_cache s)). by destruct ok. }
  rewrite Hstep. cbn [login_loop_any].
  unfold bind_any at 1, on_state at 1, emit at 1.
  cbn [to_run run_page run_log run_cache page log].
  unfold bind_any at 1, on_state at 1. cbn [run_page run_log run_cache].
  rewrite (Hatt ∅). cbn [page log].
  destruct ok.
  - by unfold bind_any at 1, set_any at 1, ret_any.
  - apply (IH (State w' (workday_cache s) (log s ++ [TryPassword tenant idx]))).
Qed.

(** On a dict the function over any value is [workday_try_login]. *)
Lemma workday_try_login_any_dict (tenant : str) (s : state W) :
  workday_try_login_any tenant (to_run s)
  = ((workday_try_login tenant s).1, to_run (workday_try_login tenant s).2).
Proof.
  unfold workday_try_login_any, workday_try_login.
  destruct (unset (os_getenv (u "WORKDAY_EMAIL")) || unset (os_getenv (u "WORKDAY_PASSWORD_1"))
            || unset (os_getenv (u "WORKDAY_PASSWORD_2"))); [done|].
  unfold bind_any at 1. rewrite login_order_any_dict.
  unfold bind at 1, get_cache at 1.
  apply login_loop_any_dict.
Qed.

Lemma set_any_other (tenant : str) (v : pyval) (t : run W) :
  is_dict (run_cache t) = false →
  set_any tenant v t = (Raised (u "TypeError"), t).
Proof. unfold set_any. by destruct (run_cache t). Qed.

(** With a cache that is not a dict the loop cannot return [True]: the
    assignment after a login raises. *)
Lemma login_loop_any_other (tenant url email pwd1 pwd2 : str) (order : list Z)
    (t : run W) :
  is_dict (run_cache t) = false →
  ∃ r t' tried,
    login_loop_any tenant url email pwd1 pwd2 order t = (r, t') ∧
    run_log t' = run_log t ++ (TryPassword tenant <$> tried) ∧
    run_cache t' = run_cache t ∧
    tried `prefix_of` order ∧
    (r = Ok false ∨ r = Raised (u "TypeError")).
Proof.
  revert t. induction order as [|idx order IH]; intros t Hc.
  - exists (Ok false), t, []. cbn [login_loop_any fmap list_fmap].
    rewrite app_nil_r. split; [done|]. split; [done|]. split; [done|].
    split; [done | by left].
  - cbn [login_loop_any].
    unfold bind_any at 1, on_state at 1, emit at 1. cbn [run_page run_log run_cache page log].
    unfold bind_any at 1, on_state at 1. cbn [run_page run_log run_cache].
    destruct (attempt_login_any_cache url email (if (idx =? 1)%Z then pwd1 else pwd2)
                (run_page t) (run_log t ++ [TryPassword tenant idx])) as (ok & w' & Hatt).
    rewrite (Hatt ∅). cbn [page log]. destruct ok.
    + unfold bind_any at 1. rewrite set_any_other by done.
      eexists _, _, [idx]. split; [reflexivity|]. cbn [run_log run_cache].
      split; [done|]. split; [done|]. split; [by exists order | by right].
    + destruct (IH (Run w' (run_cache t) (run_log t ++ [TryPassword tenant idx])) Hc)
        as (r & t' & tried & Hrun & Hlog & Hcache & Hpre & Hr).
      cbn [run_log run_cache] in *.
      exists r, t', (idx :: tried). split; [done|].
      split; [by rewrite Hlog, <-app_assoc|]. split; [done|].
      split; [by apply prefix_cons | done].
Qed.

Lemma on_state_attempt (tenant : str) (idx : Z) (t : run W) :
  on_state (attempt_login (login_url_of tenant) email_set (candidate idx)) t
  = (Ok (attempt_on tenant idx (run_page t)).1,
     Run (attempt_on tenant idx (run_page t)).2 (run_cache t) (run_log t)).
Proof. unfold on_state. by rewrite attempt_login_on. Qed.

(** With a cache that is not a dict and does not contain the tenant, the
    call raises exactly when one of the two attempts logs in. *)
Lemma workday_try_login_any_attempts (tenant : str) (t : run W) :
  is_dict (run_cache t) = false →
  credentials_set (W:=W) →
  py_contains (run_cache t) tenant = Ok false →
  (workday_try_login_any tenant t).1
  = if (attempt_on tenant 1 (run_page t)).1
       || (attempt_on tenant 2 (attempt_on tenant 1 (run_page t)).2).1
    then Raised (u "TypeError") else Ok false.
Proof.
  intros Hdict (He & H1 & H2) Hin.
  unfold workday_try_login_any. rewrite He, H1, H2. cbn [orb].
  unfold bind_any at 1, login_order_any. rewrite Hin.
  cbn [login_loop_any].
  unfold bind_any at 1, on_state at 1, emit at 1. cbn [run_page run_log run_cache page log].
  unfold bind_any at 1.
  pose proof (on_state_attempt tenant 1
                (Run (run_page t) (run_cache t) (run_log t ++ [TryPassword tenant 1])))
    as Hatt1.
  unfold login_url_of, email_set, candidate in Hatt1.
  change (1 =? 1)%Z with true in Hatt1 |- *. cbn iota in Hatt1 |- *.
  rewrite Hatt1. cbn [run_page run_cache run_log].
  destruct (attempt_on tenant 1 (run_page t)) as [ok1 w1]. cbn [fst snd].
  destruct ok1; cbn [orb].
  - unfold bind_any at 1. by rewrite set_any_other.
  - unfold bind_any at 1, on_state at 1, emit at 1. cbn [run_page run_log run_cache page log].
    unfold bind_any at 1.
    pose proof (on_state_attempt tenant 2
                  (Run w1 (run_cache t)
                     ((run_log t ++ [TryPassword tenant 1]) ++ [TryPassword tenant 2])))
      as Hatt2.
    unfold login_url_of, email_set, candidate in Hatt2.
    change (2 =? 1)%Z with false in Hatt2 |- *. cbn iota in Hatt2 |- *.
    rewrite Hatt2. cbn [run_page run_cache run_log].
    destruct (attempt_on tenant 2 w1) as [ok2 w2]. cbn [fst snd].
    destruct ok2.
    + unfold bind_any at 1. by rewrite set_any_other.
    + done.
Qed.
(** X7.  [workday_try_login] on any value that the cache file can give.
    A call tries at most two passwords, never the same one twice and only
    the indices 1 and 2.  With a dict it returns, and the entries of the
    other tenants are as they were.  With any other value the cache stays
    as it is and the call cannot return [True]: it returns [False] or it
    raises [TypeError].  With the credentials configured it raises before
    any attempt unless [tenant in cache] is [False], and then it raises
    exactly when one of the two attempts logs in. *)
Theorem workday_try_login_any_outcome (tenant : str) (t : run W) :
  ∃ r t' tried,
    workday_try_login_any tenant t = (r, t') ∧
    run_log t' = run_log t ++ (TryPassword tenant <$> tried) ∧
    (length tried ≤ 2)%nat ∧ NoDup tried ∧
    (∀ idx, idx ∈ tried → idx = 1%Z ∨ idx = 2%Z) ∧
    (∀ d, run_cache t = PDict d →
       ∃ ok d', r = Ok ok ∧ run_cache t' = PDict d' ∧
         ∀ other, other ≠ tenant → d' !! other = d !! other) ∧
    (is_dict (run_cache t) = false →
       run_cache t' = run_cache t ∧
       (r = Ok false ∨ r = Raised (u "TypeError")) ∧
       (credentials_set (W:=W) → py_contains (run_cache t) tenant ≠ Ok false →
          r = Raised (u "TypeError") ∧ tried = []) ∧
       (credentials_set (W:=W) → py_contains (run_cache t) tenant = Ok false →
          r = if (attempt_on tenant 1 (run_page t)).1
                 || (attempt_on tenant 2 (attempt_on tenant 1 (run_page t)).2).1
              then Raised (u "TypeError") else Ok false)).
Proof.
  destruct (is_dict (run_cache t)) eqn:Hdict.
  - destruct t as [w c l]. destruct c as [| | | | | |d]; try done. clear Hdict.
    pose proof (workday_try_login_any_dict tenant (State w d l)) as Hany.
    destruct (workday_try_login_detail tenant (State w d l))
      as (ok & s' & tried & Hrun & Hlog & Hlen & Hnd & Hidx & _ & Hother & _).
    rewrite Hrun in Hany. cbn [fst snd to_run page workday_cache log] in Hany.
    eexists _, _, tried. split; [exact Hany|]. cbn [run_log run_cache].
    split; [done|]. split; [done|]. split; [done|]. split; [done|].
    split; [|done].
    intros d' [= <-]. by exists ok, (workday_cache s').
  - pose proof (workday_try_login_any_attempts tenant t Hdict) as Hexact.
    assert (Hshape : ∀ tried : list Z, tried `prefix_of` [1; 2]%Z →
              (length tried ≤ 2)%nat ∧ NoDup tried ∧
              ∀ idx, idx ∈ tried → idx = 1%Z ∨ idx = 2%Z).
    { intros tried [rest Hpre].
      destruct tried as [|i1 [|i2 [|i3 tried]]]; simplify_eq/=;
        (split; [lia|]); (split; [by apply (bool_decide_unpack _)|]);
        intros idx; rewrite ?elem_of_cons, elem_of_nil; tauto. }
    assert (Hearly : ∀ r,
              workday_try_login_any tenant t = (r, t) →
              (r = Ok false ∨ r = Raised (u "TypeError")) →
              (credentials_set (W:=W) → py_contains (run_cache t) tenant ≠ Ok false →
                 r = Raised (u "TypeError")) →
              ∃ (r0 : result bool) (t' : run W) (tried : list Z),
                workday_try_login_any tenant t = (r0, t') ∧
                run_log t' = run_log t ++ (TryPassword tenant <$> tried) ∧
                (length tried ≤ 2)%nat ∧ NoDup tried ∧
                (∀ idx, idx ∈ tried → idx = 1%Z ∨ idx = 2%Z) ∧
                (∀ d, run_cache t = PDict d →
                   ∃ ok d', r0 = Ok ok ∧ run_cache t' = PDict d' ∧
                     ∀ other, other ≠ tenant → d' !! other = d !! other) ∧
                (false = false →
                   run_cache t' = run_cache t ∧
                   (r0 = Ok false ∨ r0 = Raised (u "TypeError")) ∧
                   (credentials_set (W:=W) → py_contains (run_cache t) tenant ≠ Ok false →
                      r0 = Raised (u "TypeError") ∧ tried = []) ∧
                   (credentials_set (W:=W) → py_contains (run_cache t) tenant = Ok false →
                      r0 = if (attempt_on tenant 1 (run_page t)).1
                              || (attempt_on tenant 2 (attempt_on tenant 1 (run_page t)).2).1
                           then Raised (u "TypeError") else Ok false))).
    { intros r Hrun Hr Hraise. exists r, t, []. cbn [fmap list_fmap]. rewrite app_nil_r.
      split; [done|]. split; [done|]. split; [simpl; lia|]. split; [constructor|].
      split; [by intros ? ?%elem_of_nil|]. split.
      - intros d Hd. by rewrite Hd in Hdict.
      - intros _. split; [done|]. split; [done|]. split.
        + intros Hcred Hin. by split; [apply Hraise|].
        + intros Hcred Hin. rewrite <-(Hexact Hcred Hin). by rewrite Hrun. }
    assert (Hcases :
      (workday_try_login_any tenant t = (Ok false, t) ∧ ¬ credentials_set (W:=W)) ∨
      (workday_try_login_any tenant t = (Raised (u "TypeError"), t) ∧
         py_contains (run_cache t) tenant ≠ Ok false) ∨
      (credentials_set (W:=W) ∧ py_contains (run_cache t) tenant = Ok false ∧
       workday_try_login_any tenant t
       = login_loop_any tenant
           (u "https://" ++ tenant ++ u ".myworkday.com/" ++ tenant ++ u "/login.htm")
           (default [] (os_getenv (u "WORKDAY_EMAIL")))
           (default [] (os_getenv (u "WORKDAY_PASSWORD_1")))
           (default [] (os_getenv (u "WORKDAY_PASSWORD_2"))) [1; 2]%Z t)).
    { unfold workday_try_login_any, credentials_set.
      destruct (unset (os_getenv (u "WORKDAY_EMAIL"))) eqn:He;
        [|destruct (unset (os_getenv (u "WORKDAY_PASSWORD_1"))) eqn:H1;
          [|destruct (unset (os_getenv (u "WORKDAY_PASSWORD_2"))) eqn:H2]];
        cbn [orb].
      1-3: left; split; [done | by intros (? & ? & ?)].
      right. unfold bind_any, login_order_any.
      destruct (py_contains (run_cache t) tenant) as [[|]|e] eqn:Hin.
      - left. split; [|done].
        assert (py_getitem (run_cache t) tenant = Raised (u "TypeError")) as ->; [|done].
        by destruct (run_cache t).
      - right. split; [by repeat split|]. by split.
      - left. split; [|done].
        assert (e = u "TypeError") as ->; [|done].
        destruct (run_cache t); cbn [py_contains] in Hin; congruence. }
    destruct Hcases as [[Hrun Hno]|[[Hrun Hin]|(Hcred & Hin & Hrun)]].
    + apply (Hearly (Ok false)); [done | by left | done].
    + apply (Hearly (Raised (u "TypeError"))); [done | by right | done].
    + destruct (login_loop_any_other tenant
                  (u "https://" ++ tenant ++ u ".myworkday.com/" ++ tenant ++ u "/login.htm")
                  (default [] (os_getenv (u "WORKDAY_EMAIL")))
                  (default [] (os_getenv (u "WORKDAY_PASSWORD_1")))
                  (default [] (os_getenv (u "WORKDAY_PASSWORD_2")))
                  [1; 2]%Z t Hdict) as (r & t' & tried & Hloop & Hlog & Hcache & Hpre & Hr).
      rewrite Hloop in Hrun.
      exists r, t', tried. split; [done|]. split; [done|].
      destruct (Hshape tried Hpre) as (Hlen & Hnd & Hidx).
      split; [done|]. split; [done|]. split; [done|]. split.
      * intros d Hd. by rewrite Hd in Hdict.
      * intros _. split; [done|]. split; [done|]. split; [done|].
        intros _ _. rewrite <-(Hexact Hcred Hin). by rewrite Hrun.
Qed.

End AnyCacheFacts.

Section AnyCacheExamples.
Local Existing Instance ascii_tables.
Local Existing Instance demo_world.

Lemma workday_try_login_any_outcome_witness :
  (workday_try_login_any (u "acme") (Run blank (PList [PStr (u "acme")]) [])).1
  = Raised (u "TypeError").
Proof.
  destruct (workday_try_login_any_outcome (u "acme")
              (Run blank (PList [PStr (u "acme")]) []))
    as (r & t' & tried & Hrun & _ & _ & _ & _ & _ & Hother).
  rewrite Hrun. cbn [fst].
  destruct (Hother eq_refl) as (_ & _ & Hraise & _).
  apply Hraise; [exact demo_credentials_set|].
  intros Hin. vm_compute in Hin. discriminate Hin.
Defined.

(** A cache file that holds the list [["acme"]]: the call for the tenant
    raises at [cache[tenant]], before any attempt. *)
Example list_cache_raises :
  workday_try_login_any (u "acme") (Run blank (PList [PStr (u "acme")]) [])
  = (Raised (u "TypeError"), Run blank (PList [PStr (u "acme")]) []).
Proof. by vm_compute. Qed.

(** A cache file that holds the empty list: the password 2 logs in, and
    the assignment to the cache raises. *)
Example empty_list_cache_raises :
  workday_try_login_any (u "acme") (Run blank (PList []) [])
  = (Raised (u "TypeError"),
     Run (Browser (u "https://acme.myworkday.com/acme/home.htm") (u "pw-two"))
       (PList []) [TryPassword (u "acme") 1; TryPassword (u "acme") 2]).
Proof. by vm_compute. Qed.

(** With the empty list and a tenant whose login page times out both
    attempts fail, and the call returns [False]. *)
Example empty_list_cache_returns :
  workday_try_login_any (u "downtown") (Run blank (PList []) [])
  = (Ok false,
     Run blank (PList []) [TryPassword (u "downtown") 1; TryPassword (u "downtown") 2]).
Proof. by vm_compute. Qed.

End AnyCacheExamples.

(** ** The LinkedIn login *)

Section LinkedIn.
Context `{Unicode} {W : Type} `{World W} `{Session W}.

Ltac session_op :=
  match goal with
  | |- context [page_goto ?a ?b ?c] => destruct (page_goto a b c) as [[[]|?] ?]
  | |- context [page_fill ?a ?b ?c] => destruct (page_fill a b c) as [[[]|?] ?]
  | |- context [page_click ?a ?b] => destruct (page_click a b) as [[[]|?] ?]
  | |- context [page_wait_for_load_state ?a ?b ?c] =>
      destruct (page_wait_for_load_state a b c) as [[[]|?] ?]
  end; cbn [page workday_cache log].

Ltac unfold_session :=
  unfold linkedin_login, linkedin_steps, try_except, bind, goto, fill, click,
    wait_for_load_state, sleep, get_url, on_page, ret.

(** X10.  [linkedin_login] never raises and touches neither the cache nor
    the log.  Without the two LinkedIn settings it returns [False] and
    leaves the page alone.  With them it returns [True] whenever none of
    its calls on the page raises, whatever address the page ends on (a
    challenge is taken for a login), and [False] when one raises. *)
Theorem linkedin_login_outcome (s : state W) :
  (∃ ok s', linkedin_login s = (Ok ok, s') ∧
     workday_cache s' = workday_cache s ∧ log s' = log s) ∧
  (¬ linkedin_credentials_set (W:=W) → linkedin_login s = (Ok false, s)) ∧
  (linkedin_credentials_set (W:=W) → ∀ s1,
     linkedin_steps s = (Ok (), s1) → linkedin_login s = (Ok true, s1)) ∧
  (linkedin_credentials_set (W:=W) → ∀ e s1,
     linkedin_steps s = (Raised e, s1) → linkedin_login s = (Ok false, s1)).
Proof.
  split; [|split; [|split]].
  - unfold_session.
    destruct (unset (os_getenv (u "LINKEDIN_EMAIL")) || unset (os_getenv (u "LINKEDIN_PASSWORD")));
      [by eauto|].
    repeat (session_op; [|by eauto]).
    destruct (str_in (u "feed") _ || str_in (u "/jobs") _); by eauto.
  - unfold linkedin_credentials_set, linkedin_login. intros Hno.
    destruct (unset (os_getenv (u "LINKEDIN_EMAIL"))); [done|].
    destruct (unset (os_getenv (u "LINKEDIN_PASSWORD"))); [done|].
    by destruct Hno.
  - intros [He Hp] s1. unfold_session. rewrite He, Hp. cbn [orb].
    repeat (session_op; [|intros Heq; inversion Heq]).
    intros [= <-].
    by destruct (str_in (u "feed") _ || str_in (u "/jobs") _).
  - intros [He Hp] e s1. unfold_session. rewrite He, Hp. cbn [orb].
    repeat (session_op; [|by intros [= <- <-]]).
    intros Heq. inversion Heq.
Qed.

End LinkedIn.

Section LinkedInExamples.
Local Existing Instance ascii_tables.

Lemma linkedin_login_outcome_witness :
  linkedin_login (H0:=linkedin_world) (H1:=demo_session) (State blank ∅ [])
  = (Ok true, State (Browser (u "https://www.linkedin.com/feed/") []) ∅ []).
Proof.
  apply (proj1 (proj2 (proj2
    (linkedin_login_outcome (H0:=linkedin_world) (H1:=demo_session) (State blank ∅ []))))).
  - split; by vm_compute.
  - by vm_compute.
Defined.

End LinkedInExamples.

(** ** The columns of a sheet *)

Lemma last_index_snoc (f : str → bool) (i : nat) (l : list str) (h : str)
    (acc : option nat) :
  last_index f i (l ++ [h]) acc =
  if f h then Some (i + length l)%nat else last_index f i l acc.
Proof.
  revert i acc. induction l as [|x l IH]; intros i acc; cbn [app last_index length].
  - by rewrite Nat.add_0_r.
  - rewrite IH. by replace (S i + length l)%nat with (i + S (length l))%nat by lia.
Qed.

Lemma last_index_spec (f : str → bool) (l : list str) :
  (∀ i, last_index f 0 l None = Some i ↔
     ∃ h, l !! i = Some h ∧ f h = true ∧
       ∀ j h', (i < j)%nat → l !! j = Some h' → f h' = false) ∧
  (last_index f 0 l None = None ↔ ∀ h, h ∈ l → f h = false).
Proof.
  induction l as [|h l [IHsome IHnone]] using rev_ind.
  - split.
    + intros i. split; [done|]. by intros (h & Hh & _).
    + split; [|done]. intros _ h Hh. inversion Hh.
  - rewrite last_index_snoc. cbn [Nat.add]. destruct (f h) eqn:Hfh.
    + split.
      * intros i. split.
        -- intros [= <-]. exists h. split; [by apply list_lookup_middle|].
           split; [done|]. intros j h' Hj Hlook.
           apply lookup_lt_Some in Hlook. rewrite length_app in Hlook. simpl in Hlook. lia.
        -- intros (h0 & Hlook & Hf0 & Hlast).
           destruct (decide (i = length l)) as [->|Hne]; [done|].
           pose proof (lookup_lt_Some _ _ _ Hlook) as Hlt.
           rewrite length_app in Hlt. simpl in Hlt.
           assert (Hfalse : f h = false).
           { apply (Hlast (length l)); [lia|]. by apply list_lookup_middle. }
           congruence.
      * split; [done|]. intros Hall.
        assert (Hfalse : f h = false)
          by (apply Hall, elem_of_app; right; by left).
        congruence.
    + split.
      * intros i. rewrite IHsome. split.
        -- intros (h0 & Hlook & Hf0 & Hlast). exists h0.
           split; [by apply lookup_app_l_Some|]. split; [done|].
           intros j h' Hj Hlook'.
           apply lookup_app_Some in Hlook' as [Hl|[Hge Hr]]; [by eapply Hlast|].
           apply list_lookup_singleton_Some in Hr as [_ <-]. done.
        -- intros (h0 & Hlook & Hf0 & Hlast).
           apply lookup_app_Some in Hlook as [Hl|[Hge Hr]].
           ++ exists h0. split; [done|]. split; [done|].
              intros j h' Hj Hlook'. eapply Hlast; [done|].
              by apply lookup_app_l_Some.
           ++ apply list_lookup_singleton_Some in Hr as [_ <-]. congruence.
      * rewrite IHnone. split.
        -- intros Hall h' [Hin|Hin]%elem_of_app; [by apply Hall|].
           apply list_elem_of_singleton in Hin as ->. done.
        -- intros Hall h' Hin. apply Hall, elem_of_app. by left.
Qed.

Section Columns.
Context `{Unicode} {W : Type} `{World W}.

Lemma find_columns_from_last_index (i : nat) (header : list str)
    (url_idx decision_idx : option nat) :
  find_columns_from i header url_idx decision_idx =
  (last_index (named (u "url")) i header url_idx,
   last_index (named (u "decision")) i header decision_idx).
Proof.
  revert i url_idx decision_idx.
  induction header as [|h header IH]; intros i url_idx decision_idx; [done|].
  cbn [find_columns_from last_index]. by rewrite IH.
Qed.

(** X11.  [find_columns] finds each of the two columns by its header,
    stripped and lower-cased: the index it returns for [url] is that of
    the last header cell with this name (a later duplicate wins), inside
    the header row, and it returns none exactly when no header cell has
    the name; the same holds for [decision]. *)
Theorem find_columns_last_named (header : list str) :
  (∀ i, (find_columns header).1 = Some i ↔ last_named (u "url") header i) ∧
  ((find_columns header).1 = None ↔
     ∀ h, h ∈ header → named (u "url") h = false) ∧
  (∀ i, (find_columns header).2 = Some i ↔ last_named (u "decision") header i) ∧
  ((find_columns header).2 = None ↔
     ∀ h, h ∈ header → named (u "decision") h = false).
Proof.
  unfold find_columns, last_named. rewrite find_columns_from_last_index.
  cbn [fst snd].
  destruct (last_index_spec (named (u "url")) header) as [Hus Hun].
  destruct (last_index_spec (named (u "decision")) header) as [Hds Hdn].
  done.
Qed.

(** X12.  A sheet without values, or whose header row lacks a cell named
    [url] or a cell named [decision], is skipped: [process_worksheet]
    returns 0 and touches nothing, neither page nor sheet nor cache. *)
Theorem process_worksheet_skips (values : list (list str)) (s : state W) :
  values = [] ∨
  (∃ header rows, values = header :: rows ∧
     ((∀ h, h ∈ header → named (u "url") h = false) ∨
      (∀ h, h ∈ header → named (u "decision") h = false))) →
  process_worksheet values s = (Ok 0%nat, s).
Proof.
  intros [->|(header & rows & -> & Hmissing)]; [done|].
  unfold process_worksheet, find_columns.
  rewrite find_columns_from_last_index.
  destruct (last_index_spec (named (u "url")) header) as [_ Hun].
  destruct (last_index_spec (named (u "decision")) header) as [_ Hdn].
  destruct Hmissing as [Hno|Hno].
  - apply Hun in Hno. rewrite Hno. done.
  - apply Hdn in Hno. rewrite Hno.
    by destruct (last_index (named (u "url")) 0 header None).
Qed.

End Columns.

Section ColumnsExamples.
Local Existing Instance ascii_tables.
Local Existing Instance demo_world.

Example find_columns_later_duplicate :
  find_columns [u "Company"; u " URL "; u "decision"; u "Url"] = (Some 3%nat, Some 2%nat).
Proof. by vm_compute. Qed.

Lemma process_worksheet_skips_witness :
  process_worksheet
    [[u "Company"; u "Link"; u "Decision"]; [u "Acme"; u "https://example.com/job"; []]]
    (State blank ∅ [])
  = (Ok 0%nat, State blank ∅ []).
Proof.
  apply process_worksheet_skips. right.
  exists [u "Company"; u "Link"; u "Decision"],
         [[u "Acme"; u "https://example.com/job"; []]].
  split; [done|]. left. intros h Hin.
  rewrite !elem_of_cons, elem_of_nil in Hin.
  destruct Hin as [->|[->|[->|[]]]]; by vm_compute.
Defined.

End ColumnsExamples.

(** ** What a run over a sheet writes, tries and learns *)

Lemma written_rows_app (l k : list event) :
  written_rows (l ++ k) = written_rows l ++ written_rows k.
Proof. apply omap_app. Qed.

Lemma tried_passwords_app (l k : list event) :
  tried_passwords (l ++ k) = tried_passwords l ++ tried_passwords k.
Proof. apply omap_app. Qed.

Lemma written_rows_tries (tenant : str) (tried : list Z) :
  written_rows (TryPassword tenant <$> tried) = [].
Proof. by induction tried. Qed.

Lemma tried_passwords_tries (tenant : str) (tried : list Z) :
  length (tried_passwords (TryPassword tenant <$> tried)) = length tried.
Proof. induction tried; [done|]. simpl. by f_equal. Qed.

Lemma eligible_rows_above (url_idx decision_idx : nat) `{Unicode}
    (rows : list (list str)) (i r : nat) :
  r ∈ eligible_rows url_idx decision_idx i rows → (i < r)%nat.
Proof.
  revert i. induction rows as [|row rows IH]; intros i; cbn [eligible_rows].
  - intros Hin. inversion Hin.
  - intros [Hin|Hin]%elem_of_app.
    + destruct (eligible _ _ row); [|inversion Hin].
      apply list_elem_of_singleton in Hin. lia.
    + apply IH in Hin. lia.
Qed.

Lemma eligible_rows_sorted (url_idx decision_idx : nat) `{Unicode}
    (rows : list (list str)) (i : nat) :
  StronglySorted lt (eligible_rows url_idx decision_idx i rows).
Proof.
  revert i. induction rows as [|row rows IH]; intros i; cbn [eligible_rows].
  - constructor.
  - destruct (eligible _ _ row); cbn [app]; [|apply IH].
    constructor; [apply IH|].
    apply Forall_forall. intros r Hr%eligible_rows_above. lia.
Qed.

Section Rows.
Context `{Unicode} {W : Type} `{World W}.

Lemma workday_login_step_detail (url domain : str) (s : state W) :
  ∃ s' logins,
    workday_login_step url domain s = (Ok (), s') ∧
    log s' = log s ++ logins ∧
    written_rows logins = [] ∧
    (length (tried_passwords logins) ≤ 2)%nat ∧
    kept_or_index (workday_cache s) (workday_cache s') ∧
    (str_eq domain (u "workday") = false → s' = s ∧ logins = []).
Proof.
  assert (Hskip : ∃ s' logins, (Ok (), s) = (Ok (), s') ∧
            log s' = log s ++ logins ∧ written_rows logins = [] ∧
            (length (tried_passwords logins) ≤ 2)%nat ∧
            kept_or_index (workday_cache s) (workday_cache s') ∧
            (str_eq domain (u "workday") = false → s' = s ∧ logins = [])).
  { exists s, []. rewrite app_nil_r. repeat split; [simpl; lia|].
    apply kept_or_index_refl. }
  unfold workday_login_step.
  destruct (str_eq domain (u "workday")) eqn:Hdom; [|exact Hskip].
  destruct (extract_workday_tenant url) as [tenant|]; [|exact Hskip].
  destruct (truthy tenant); [|exact Hskip].
  destruct (workday_try_login_detail tenant s)
    as (ok & s' & tried & Hrun & Hlog & Hlen & _ & _ & Hkept & _).
  exists s', (TryPassword tenant <$> tried).
  unfold bind, ret. rewrite Hrun. split; [done|]. split; [done|].
  split; [apply written_rows_tries|].
  split; [by rewrite tried_passwords_tries|]. by split.
Qed.

Lemma fetch_status_detail (url domain : str) (s : state W) :
  ∃ r w, fetch_status url domain s = (r, State w (workday_cache s) (log s)) ∧
    match r with
    | Ok status => ∃ text, status = classify_status text domain
    | Raised _ => True
    end.
Proof.
  unfold fetch_status, bind, goto, sleep, content, on_page, ret.
  destruct (page_goto url 45000 (page s)) as [[[]|?] ?]; cbn [page workday_cache log];
    [|by eexists _, _].
  destruct (page_content _) as [[text|?] ?]; eexists _, _; (split; [reflexivity|]);
    [by exists text | done].
Qed.

Lemma process_row_detail (url_idx decision_idx i : nat) (row : list str)
    (updated : nat) (s : state W) :
  ∃ n s' new,
    process_row url_idx decision_idx i row updated s = (Ok n, s') ∧
    log s' = log s ++ new ∧
    kept_or_index (workday_cache s) (workday_cache s') ∧
    written_rows new = (if eligible url_idx decision_idx row then [(i + 1)%nat] else []) ∧
    n = (updated + length (written_rows new))%nat ∧
    (length (tried_passwords new) ≤ 2 * length (written_rows new))%nat ∧
    (∀ r c v, UpdateCell r c v ∈ new →
       c = (decision_idx + 1)%nat ∧
       (v ∈ status_labels ∨ ∃ e, v = u "ERROR: " ++ e)) ∧
    ((eligible url_idx decision_idx row = true →
      str_eq (detect_domain (cell row url_idx)) (u "workday") = false) →
     workday_cache s' = workday_cache s ∧ tried_passwords new = []).
Proof.
  destruct (eligible url_idx decision_idx row) eqn:Hel.
  - destruct (workday_login_step_detail (cell row url_idx)
                (detect_domain (cell row url_idx)) s)
      as (s1 & logins & Hlogin & Hlog1 & Hwr & Htr & Hkept & Hnw).
    destruct (fetch_status_detail (cell row url_idx)
                (detect_domain (cell row url_idx)) s1) as (r & w & Hfetch & Hr).
    eexists _, _, _. split; [by eapply eligible_true_visit|].
    cbn [log workday_cache]. rewrite Hlog1, <-app_assoc.
    split; [done|]. split; [done|].
    rewrite written_rows_app, tried_passwords_app, Hwr, length_app.
    change (written_rows [UpdateCell (i + 1) (decision_idx + 1) ?v]) with [(i + 1)%nat].
    change (tried_passwords [UpdateCell (i + 1) (decision_idx + 1) ?v]) with (@nil (str * Z)).
    cbn [app length]. rewrite (app_nil_r (tried_passwords logins)).
    split; [done|]. split; [done|]. split; [lia|]. split.
    + intros r0 c v [Hin|Hin]%elem_of_app.
      * assert (Hrow : r0 ∈ written_rows logins).
        { apply list_elem_of_omap. by exists (UpdateCell r0 c v). }
        rewrite Hwr in Hrow. inversion Hrow.
      * apply list_elem_of_singleton in Hin. injection Hin as -> -> ->.
        split; [done|]. destruct r as [status|e].
        -- left. destruct Hr as [text ->]. apply classify_detected_label.
        -- right. by exists e.
    + intros Hdom. by destruct (Hnw (Hdom eq_refl)) as [-> ->].
  - exists updated, s, []. rewrite app_nil_r, eligible_false_skip by done.
    split; [done|]. split; [done|]. split; [apply kept_or_index_refl|].
    split; [done|]. split; [simpl; lia|]. split; [simpl; lia|].
    split; [|done]. intros r c v Hin. inversion Hin.
Qed.

Lemma process_rows_detail (url_idx decision_idx i : nat) (rows : list (list str))
    (updated : nat) (s : state W) :
  ∃ n s' new,
    process_rows url_idx decision_idx i rows updated s = (Ok n, s') ∧
    log s' = log s ++ new ∧
    kept_or_index (workday_cache s) (workday_cache s') ∧
    written_rows new = eligible_rows url_idx decision_idx i rows ∧
    n = (updated + length (written_rows new))%nat ∧
    (length (tried_passwords new) ≤ 2 * length (written_rows new))%nat ∧
    (∀ r c v, UpdateCell r c v ∈ new →
       c = (decision_idx + 1)%nat ∧
       (v ∈ status_labels ∨ ∃ e, v = u "ERROR: " ++ e)) ∧
    (Forall (λ row, eligible url_idx decision_idx row = true →
               str_eq (detect_domain (cell row url_idx)) (u "workday") = false) rows →
     workday_cache s' = workday_cache s ∧ tried_passwords new = []).
Proof.
  revert i updated s. induction rows as [|row rows IH]; intros i updated s.
  - exists updated, s, []. rewrite app_nil_r.
    split; [done|]. split; [done|]. split; [apply kept_or_index_refl|].
    split; [done|]. split; [simpl; lia|]. split; [simpl; lia|].
    split; [|done]. intros r c v Hin. inversion Hin.
  - destruct (process_row_detail url_idx decision_idx i row updated s)
      as (n1 & s1 & new1 & Hrow & Hlog1 & Hk1 & Hw1 & Hn1 & Ht1 & Hv1 & Hd1).
    destruct (IH (S i) n1 s1)
      as (n & s' & new & Hrest & Hlog & Hk & Hw & Hn & Ht & Hv & Hd).
    exists n, s', (new1 ++ new).
    cbn [process_rows eligible_rows]. unfold bind at 1. rewrite Hrow.
    split; [done|]. split; [by rewrite Hlog, Hlog1, <-app_assoc|].
    split; [by eapply kept_or_index_trans|].
    rewrite written_rows_app, tried_passwords_app, !length_app, Hw1, Hw.
    split; [done|]. rewrite Hw1 in Hn1, Ht1. rewrite Hw in Hn, Ht.
    split; [lia|]. split; [lia|]. split.
    + intros r c v [Hin|Hin]%elem_of_app; [by eapply Hv1 | by eapply Hv].
    + intros [Hhead Htail]%Forall_cons.
      destruct (Hd1 Hhead) as [Hc1 Hp1]. destruct (Hd Htail) as [Hc Hp].
      split; [congruence|]. by rewrite Hp1, Hp.
Qed.

Lemma process_worksheet_detail (values : list (list str)) (s : state W) :
  ∃ n s' new,
    process_worksheet values s = (Ok n, s') ∧
    log s' = log s ++ new ∧
    kept_or_index (workday_cache s) (workday_cache s') ∧
    n = length (written_rows new) ∧
    (length (tried_passwords new) ≤ 2 * length (written_rows new))%nat ∧
    (∀ r c v, UpdateCell r c v ∈ new → v ∈ status_labels ∨ ∃ e, v = u "ERROR: " ++ e).
Proof.
  assert (Hnone : ∃ n s' new, (Ok 0%nat, s) = (Ok n, s') ∧
    log s' = log s ++ new ∧
    kept_or_index (workday_cache s) (workday_cache s') ∧
    n = length (written_rows new) ∧
    (length (tried_passwords new) ≤ 2 * length (written_rows new))%nat ∧
    (∀ r c v, UpdateCell r c v ∈ new → v ∈ status_labels ∨ ∃ e, v = u "ERROR: " ++ e)).
  { exists 0%nat, s, []. rewrite app_nil_r.
    split; [done|]. split; [done|]. split; [apply kept_or_index_refl|].
    split; [done|]. split; [simpl; lia|].
    intros r c v Hin. inversion Hin. }
  destruct values as [|header rows]; [exact Hnone|].
  unfold process_worksheet, ret in *.
  destruct (find_columns header) as [[url_idx|] [decision_idx|]]; try exact Hnone.
  destruct (process_rows_detail url_idx decision_idx 1 rows 0 s)
    as (n & s' & new & Hrun & Hlog & Hk & _ & Hn & Ht & Hv & _).
  exists n, s', new. repeat split; try done. intros r c v Hin. by eapply Hv.
Qed.

End Rows.

Section RowsMore.
Context `{Unicode} {W : Type} `{World W}.

(** X13.  With both columns found, the cells that [process_worksheet]
    writes are those of the eligible rows (long enough, with an address,
    without a decision), one cell for each, from the top of the sheet to
    the bottom and all in the decision column; the number it returns is
    their number. *)
Theorem process_worksheet_writes_eligible_rows (header : list str)
    (rows : list (list str)) (url_idx decision_idx : nat) (s : state W) :
  find_columns header = (Some url_idx, Some decision_idx) →
  ∃ n s' new,
    process_worksheet (header :: rows) s = (Ok n, s') ∧
    log s' = log s ++ new ∧
    written_rows new = eligible_rows url_idx decision_idx 1 rows ∧
    StronglySorted lt (written_rows new) ∧
    n = length (written_rows new) ∧
    ∀ r c v, UpdateCell r c v ∈ new → c = (decision_idx + 1)%nat.
Proof.
  intros Hcols. unfold process_worksheet. rewrite Hcols.
  destruct (process_rows_detail url_idx decision_idx 1 rows 0 s)
    as (n & s' & new & Hrun & Hlog & _ & Hw & Hn & _ & Hv & _).
  exists n, s', new. split; [done|]. split; [done|]. split; [done|].
  split; [rewrite Hw; apply eligible_rows_sorted|]. split; [done|].
  intros r c v Hin. by destruct (Hv r c v Hin).
Qed.

(** X14.  Every status that [process_worksheet] writes is one of the
    twenty labels of the classifier or [ERROR: ] followed by the name of
    an exception. *)
Theorem process_worksheet_status_vocabulary (values : list (list str)) (s : state W) :
  ∃ n s' new,
    process_worksheet values s = (Ok n, s') ∧
    log s' = log s ++ new ∧
    ∀ r c v, UpdateCell r c v ∈ new →
      v ∈ status_labels ∨ ∃ kind, v = u "ERROR: " ++ kind.
Proof.
  destruct (process_worksheet_detail values s)
    as (n & s' & new & Hrun & Hlog & _ & _ & _ & Hv).
  by exists n, s', new.
Qed.

(** X15.  A run over a sheet changes a cache entry only to the index 1 or
    2 and removes none, so a cache that maps every tenant to 1 or 2 still
    does so after the run. *)
Theorem process_worksheet_keeps_index_mapping (values : list (list str))
    (s s' : state W) (n : nat) :
  process_worksheet values s = (Ok n, s') →
  kept_or_index (workday_cache s) (workday_cache s') ∧
  (index_mapping (workday_cache s) → index_mapping (workday_cache s')).
Proof.
  intros Hrun.
  destruct (process_worksheet_detail values s)
    as (n2 & s2 & new & Hrun' & _ & Hk & _).
  rewrite Hrun in Hrun'. injection Hrun' as <- <-.
  split; [done|]. intros Hidx t v Hv.
  destruct (Hk t) as [Hsame|[Hone|Htwo]].
  - apply (Hidx t). by rewrite <-Hsame.
  - left. congruence.
  - right. congruence.
Qed.

(** X16.  Logins are tried for Workday rows only: when no eligible row has
    an address of the Workday domain, the run over the sheet tries no
    password and leaves the cache as it was. *)
Theorem process_worksheet_without_workday (header : list str)
    (rows : list (list str)) (url_idx decision_idx : nat) (s : state W) :
  find_columns header = (Some url_idx, Some decision_idx) →
  Forall (λ row, eligible url_idx decision_idx row = true →
            str_eq (detect_domain (cell row url_idx)) (u "workday") = false) rows →
  ∃ n s' new,
    process_worksheet (header :: rows) s = (Ok n, s') ∧
    log s' = log s ++ new ∧
    tried_passwords new = [] ∧
    workday_cache s' = workday_cache s.
Proof.
  intros Hcols Hrows. unfold process_worksheet. rewrite Hcols.
  destruct (process_rows_detail url_idx decision_idx 1 rows 0 s)
    as (n & s' & new & Hrun & Hlog & _ & _ & _ & _ & _ & Hd).
  destruct (Hd Hrows) as [Hc Hp]. by exists n, s', new.
Qed.

(** X17.  Over a sheet at most two passwords are tried for each cell
    written, and the number returned is the number of cells written. *)
Theorem process_worksheet_attempts_bounded (values : list (list str)) (s : state W) :
  ∃ n s' new,
    process_worksheet values s = (Ok n, s') ∧
    log s' = log s ++ new ∧
    n = length (written_rows new) ∧
    (length (tried_passwords new) ≤ 2 * n)%nat.
Proof.
  destruct (process_worksheet_detail values s)
    as (n & s' & new & Hrun & Hlog & _ & Hn & Ht & _).
  exists n, s', new. split; [done|]. split; [done|]. split; [done|].
  by rewrite Hn.
Qed.

(** X18.  When the page of a visited row is fetched, the status written to
    the decision cell of that row is the classification, for the domain
    of the address, of the content read five seconds after the page was
    opened; the counter goes up by one. *)
Theorem process_row_fetch_success (url_idx decision_idx i : nat) (row : list str)
    (updated : nat) (s s1 : state W) (w1 w2 : W) (text : str) :
  eligible url_idx decision_idx row = true →
  workday_login_step (cell row url_idx) (detect_domain (cell row url_idx)) s
    = (Ok (), s1) →
  page_goto (cell row url_idx) 45000 (page s1) = (Ok (), w1) →
  page_content (time_sleep 5 w1) = (Ok text, w2) →
  process_row url_idx decision_idx i row updated s
  = (Ok (updated + 1)%nat,
     State (sleep_uniform 3 6 w2) (workday_cache s1)
       (log s1 ++ [UpdateCell (i + 1) (decision_idx + 1)
                     (classify_status text (detect_domain (cell row url_idx)))])).
Proof.
  intros Hel Hlogin Hgoto Hcontent.
  assert (Hfetch : fetch_status (cell row url_idx) (detect_domain (cell row url_idx)) s1
            = (Ok (classify_status text (detect_domain (cell row url_idx))),
               State w2 (workday_cache s1) (log s1))).
  { unfold fetch_status, bind, goto, sleep, content, on_page, ret.
    rewrite Hgoto. cbn [page workday_cache log]. by rewrite Hcontent. }
  by rewrite (eligible_true_visit _ _ i _ updated _ _ _ _ Hel Hlogin Hfetch).
Qed.

(** The loop over the sheets, sheet by sheet. *)
Lemma process_worksheets_detail (sheets : list (list (list str)))
    (total_updated : nat) (s : state W) :
  ∃ n s' new,
    process_worksheets sheets total_updated s = (Ok n, s') ∧
    log s' = log s ++ new ∧
    n = (total_updated + length (written_rows new))%nat ∧
    kept_or_index (workday_cache s) (workday_cache s').
Proof.
  revert total_updated s.
  induction sheets as [|values sheets IH]; intros total_updated s.
  - exists total_updated, s, []. rewrite app_nil_r.
    split; [done|]. split; [done|]. split; [simpl; lia|]. apply kept_or_index_refl.
  - destruct (process_worksheet_detail values s)
      as (n1 & s1 & new1 & Hrun1 & Hlog1 & Hk1 & Hn1 & _).
    destruct (IH (total_updated + n1)%nat s1) as (n & s' & new & Hrun & Hlog & Hn & Hk).
    exists n, s', (new1 ++ new).
    cbn [process_worksheets]. unfold bind at 1. rewrite Hrun1.
    split; [done|]. split; [by rewrite Hlog, Hlog1, <-app_assoc|].
    split; [rewrite written_rows_app, length_app; lia|].
    by eapply kept_or_index_trans.
Qed.

(** X19.  When the loop over the sheets is through, the total that it
    returns is the total it started from plus the number of cells written
    over all the sheets, and the cache that it handed from sheet to sheet
    differs from the one it started with only in entries set to the index
    1 or 2. *)
Theorem process_worksheets_total (sheets : list (list (list str)))
    (total_updated n : nat) (s s' : state W) :
  process_worksheets sheets total_updated s = (Ok n, s') →
  ∃ new,
    log s' = log s ++ new ∧
    n = (total_updated + length (written_rows new))%nat ∧
    kept_or_index (workday_cache s) (workday_cache s').
Proof.
  intros Hrun.
  destruct (process_worksheets_detail sheets total_updated s)
    as (n2 & s2 & new & Hrun2 & Hlog & Hn & Hk).
  rewrite Hrun in Hrun2. injection Hrun2 as <- <-.
  by exists new.
Qed.

End RowsMore.

Section RowsMoreExamples.
Local Existing Instance ascii_tables.
Local Existing Instance demo_world.

Lemma process_worksheet_writes_eligible_rows_witness :
  ∃ n s' new,
    process_worksheet
      [[u "URL"; u "Decision"];
       [u "https://example.com/a"; []];
       [u "https://example.com/b"; u "UNKNOWN (generic)"];
       [u "https://example.com/c"];
       [u "https://example.com/d"; []]]
      (State blank ∅ []) = (Ok n, s') ∧
    log s' = [] ++ new ∧
    written_rows new
      = eligible_rows 0 1 1
          [[u "https://example.com/a"; []];
           [u "https://example.com/b"; u "UNKNOWN (generic)"];
           [u "https://example.com/c"];
           [u "https://example.com/d"; []]] ∧
    StronglySorted lt (written_rows new) ∧
    n = length (written_rows new) ∧
    ∀ r c v, UpdateCell r c v ∈ new → c = (1 + 1)%nat.
Proof.
  apply (process_worksheet_writes_eligible_rows [u "URL"; u "Decision"]).
  by vm_compute.
Defined.

Example eligible_rows_example :
  eligible_rows 0 1 1
    [[u "https://example.com/a"; []];
     [u "https://example.com/b"; u "UNKNOWN (generic)"];
     [u "https://example.com/c"];
     [u "https://example.com/d"; []]]
  = [2; 5]%nat.
Proof. by vm_compute. Qed.

Lemma process_worksheet_keeps_index_mapping_witness :
  kept_or_index
    (workday_cache (State blank {[u "spectris" := PInt 1]} []))
    (workday_cache
       (State (Browser (u "https://acme.wd3.myworkdayjobs.com/job/7") (u "pw-two"))
          {[u "spectris" := PInt 1; u "acme" := PInt 2]}
          [TryPassword (u "acme") 1; TryPassword (u "acme") 2;
           UpdateCell 2 2 (u "UNKNOWN (Workday)")])) ∧
  (index_mapping (workday_cache (State blank {[u "spectris" := PInt 1]} [])) →
   index_mapping
     (workday_cache
        (State (Browser (u "https://acme.wd3.myworkdayjobs.com/job/7") (u "pw-two"))
           {[u "spectris" := PInt 1; u "acme" := PInt 2]}
           [TryPassword (u "acme") 1; TryPassword (u "acme") 2;
            UpdateCell 2 2 (u "UNKNOWN (Workday)")]))).
Proof.
  apply (process_worksheet_keeps_index_mapping
           [[u "URL"; u "Decision"]; [u "https://acme.wd3.myworkdayjobs.com/job/7"; []]]
           (State blank {[u "spectris" := PInt 1]} []) _ 1%nat).
  by vm_compute.
Defined.

Lemma process_worksheet_without_workday_witness :
  ∃ n s' new,
    process_worksheet
      [[u "URL"; u "Decision"];
       [u "https://boards.greenhouse.io/acme/jobs/1"; []];
       [u "https://jobs.lever.co/acme/2"; []]]
      (State blank {[u "acme" := PInt 2]} []) = (Ok n, s') ∧
    log s' = [] ++ new ∧
    tried_passwords new = [] ∧
    workday_cache s' = workday_cache (State blank {[u "acme" := PInt 2]} []).
Proof.
  apply (process_worksheet_without_workday [u "URL"; u "Decision"] _ 0 1).
  - by vm_compute.
  - repeat constructor; intros _; by vm_compute.
Defined.

Lemma process_row_fetch_success_witness :
  process_row 0 1 1 [u "https://jobs.lever.co/acme/position filled"; []] 0
    (State blank ∅ [])
  = (Ok (0 + 1)%nat,
     State (sleep_uniform 3 6 (Browser (u "https://jobs.lever.co/acme/position filled") []))
       (workday_cache (State blank ∅ []))
       (log (State blank ∅ []) ++
        [UpdateCell (1 + 1) (1 + 1)
           (classify_status (u "https://jobs.lever.co/acme/position filled")
              (detect_domain
                 (cell [u "https://jobs.lever.co/acme/position filled"; []] 0)))])).
Proof.
  apply (process_row_fetch_success 0 1 1
           [u "https://jobs.lever.co/acme/position filled"; []] 0
           (State blank ∅ []) (State blank ∅ [])
           (Browser (u "https://jobs.lever.co/acme/position filled") [])).
  - by vm_compute.
  - by vm_compute.
  - by vm_compute.
  - by vm_compute.
Defined.

Example lever_position_filled :
  classify_status (u "https://jobs.lever.co/acme/position filled") (u "lever")
  = u "JOB CLOSED (lever)".
Proof. by vm_compute. Qed.

Lemma process_worksheets_total_witness :
  ∃ new,
    log (State (Browser (u "https://acme.wd3.myworkdayjobs.com/job/7") (u "pw-two"))
           {[u "acme" := PInt 2]}
           [UpdateCell 2 2 (u "UNKNOWN (lever)");
            TryPassword (u "acme") 1; TryPassword (u "acme") 2;
            UpdateCell 2 1 (u "UNKNOWN (Workday)")])
      = log (State blank ∅ []) ++ new ∧
    2%nat = (0 + length (written_rows new))%nat ∧
    kept_or_index (workday_cache (State blank ∅ []))
      (workday_cache
         (State (Browser (u "https://acme.wd3.myworkdayjobs.com/job/7") (u "pw-two"))
            {[u "acme" := PInt 2]}
            [UpdateCell 2 2 (u "UNKNOWN (lever)");
             TryPassword (u "acme") 1; TryPassword (u "acme") 2;
             UpdateCell 2 1 (u "UNKNOWN (Workday)")])).
Proof.
  apply (process_worksheets_total
           [[[u "URL"; u "Decision"]; [u "https://jobs.lever.co/acme/2"; []]];
            [];
            [[u "Decision"; u "URL"]; [[]; u "https://acme.wd3.myworkdayjobs.com/job/7"]]]
           0%nat 2%nat (State blank ∅ [])).
  by vm_compute.
Defined.

End RowsMoreExamples.

(** ** Which rows are visited *)

Section Visits.
Context `{Unicode} {W : Type} `{World W}.

Lemma truthy_cell (row : list str) (idx : nat) :
  truthy (cell row idx) = true ↔ ∃ c, row !! idx = Some c ∧ strip c ≠ [].
Proof.
  unfold cell. destruct (row !! idx) as [c|]; [|split; [done | by intros (? & ? & ?)]].
  destruct c as [|a c]; cbn [truthy].
  - split; [done|]. intros (c & [= <-] & Hs). by destruct Hs.
  - split.
    + intros Ht. exists (a :: c). split; [done|]. by destruct (strip (a :: c)).
    + intros (c' & [= <-] & Hs). by destruct (strip (a :: c)).
Qed.

Lemma eligible_to_visit (url_idx decision_idx : nat) (row : list str) :
  eligible url_idx decision_idx row = true ↔ to_visit url_idx decision_idx row.
Proof.
  unfold eligible, to_visit.
  rewrite !andb_true_iff, !negb_true_iff, bool_decide_eq_false, truthy_cell.
  split.
  - intros [[Hlen (url & Hu & Hsu)] Hdec].
    destruct (row !! decision_idx) as [dec|] eqn:Hd.
    + exists url, dec. repeat split; try done.
      destruct (strip dec) eqn:Hsd; [done|].
      assert (Ht : truthy (cell row decision_idx) = true).
      { apply truthy_cell. exists dec. split; [done|]. by rewrite Hsd. }
      congruence.
    + apply lookup_ge_None in Hd. lia.
  - intros (url & dec & Hu & Hd & Hsu & Hsd). split; [split|].
    + apply lookup_lt_Some in Hu. apply lookup_lt_Some in Hd. lia.
    + by exists url.
    + destruct (truthy (cell row decision_idx)) eqn:Ht; [|done].
      apply truthy_cell in Ht as (c & Hc & Hs). congruence.
Qed.

(** X20.  A row is visited exactly when it has both cells, an address
    that is not blank and a decision that is blank.  Any other row (too
    short, without an address, already decided) is passed over: nothing is
    fetched, nothing written, the counter stays.  A visited row always has
    its decision cell written and is counted, whatever the page does. *)
Theorem process_row_visits (url_idx decision_idx i : nat) (row : list str)
    (updated : nat) (s : state W) :
  (¬ to_visit url_idx decision_idx row →
     process_row url_idx decision_idx i row updated s = (Ok updated, s)) ∧
  (to_visit url_idx decision_idx row →
     ∃ s' logins status,
       process_row url_idx decision_idx i row updated s = (Ok (updated + 1)%nat, s') ∧
       no_writes logins ∧
       log s' = log s ++ logins ++ [UpdateCell (i + 1) (decision_idx + 1) status]).
Proof.
  split.
  - intros Hno. apply eligible_false_skip.
    destruct (eligible url_idx decision_idx row) eqn:Hel; [|done].
    by apply eligible_to_visit in Hel.
  - intros Hel%eligible_to_visit.
    destruct (process_row_run url_idx decision_idx i row updated s)
      as (n & s' & new & Hrun & Hlog & Hres).
    rewrite Hel in Hres. destruct Hres as (-> & logins & status & Hnw & ->).
    by exists s', logins, status.
Qed.

End Visits.

Section VisitsExamples.
Local Existing Instance ascii_tables.
Local Existing Instance demo_world.

Lemma process_row_visits_witness :
  process_row 0 2 1 [u "   "; u "Acme"; []] 7 (State blank ∅ [])
  = (Ok 7%nat, State blank ∅ []).
Proof.
  apply (proj1 (process_row_visits 0 2 1 [u "   "; u "Acme"; []] 7 (State blank ∅ []))).
  intros (url & dec & Hu & _ & Hs & _). injection Hu as <-.
  apply Hs. by vm_compute.
Defined.

End VisitsExamples.

(** ** Addresses without a tenant *)

Section NoTenant.
Context `{Unicode}.

(** X21.  The tenant is looked for in the address as it is written: an
    address that does not contain [https://] or does not contain
    [.myworkdayjobs.com], in exactly these lower-case letters, has no
    tenant, even when [detect_domain], which ignores case, calls it a
    Workday address. *)
Theorem extract_workday_tenant_literal (url : str) :
  str_in (u "https://") url = false ∨ str_in (u ".myworkdayjobs.com") url = false →
  extract_workday_tenant url = None.
Proof.
  intros Hmissing.
  destruct (extract_workday_tenant url) as [t|] eqn:Hx; [|done].
  apply extract_workday_tenant_Some in Hx as (pre & ds & rest & _ & ->).
  assert (Hs : str_in (u "https://") (pre ++ workday_url t ds rest) = true).
  { apply str_in_spec. unfold workday_url. by exists pre, (t ++ u ".wd" ++ ds ++ u ".myworkdayjobs.com" ++ rest). }
  assert (Hh : str_in (u ".myworkdayjobs.com") (pre ++ workday_url t ds rest) = true).
  { apply str_in_spec. unfold workday_url.
    exists (pre ++ u "https://" ++ t ++ u ".wd" ++ ds), rest.
    by rewrite <-!app_assoc. }
  destruct Hmissing; congruence.
Qed.

End NoTenant.

Section NoTenantExamples.
Local Existing Instance ascii_tables.

Lemma extract_workday_tenant_literal_witness :
  extract_workday_tenant (u "HTTPS://ACME.WD3.MYWORKDAYJOBS.COM/jobs") = None.
Proof.
  apply extract_workday_tenant_literal. left. by vm_compute.
Defined.

Example upper_case_workday_address :
  detect_domain (u "HTTPS://ACME.WD3.MYWORKDAYJOBS.COM/jobs") = u "workday".
Proof. by vm_compute. Qed.

End NoTenantExamples.

(** ** A second run over the sheet *)

Section SecondRun.
Context `{Unicode} {W : Type} `{World W}.

Lemma lstrip_keeps (s : str) (c : char) :
  c ∈ s → isspace c = false → c ∈ lstrip s.
Proof.
  intros Hin Hc. induction s as [|a s IH]; [done|].
  cbn [lstrip]. destruct (isspace a) eqn:Ha; [|done].
  apply elem_of_cons in Hin as [->|Hin]; [congruence | by apply IH].
Qed.

Lemma strip_not_blank (s : str) (c : char) :
  c ∈ s → isspace c = false → strip s ≠ [].
Proof.
  intros Hin Hc. unfold strip, rstrip.
  assert (Hkept : c ∈ reverse (lstrip (reverse (lstrip s)))).
  { apply elem_of_reverse, lstrip_keeps; [|done].
    apply elem_of_reverse. by apply lstrip_keeps. }
  intros Hnil. rewrite Hnil in Hkept. inversion Hkept.
Qed.

Lemma status_not_blank (v : str) :
  visible_not_space →
  v ∈ status_labels ∨ (∃ kind, v = u "ERROR: " ++ kind) →
  strip v ≠ [].
Proof.
  intros Hvis [Hin|[kind ->]].
  - assert (Hheads : Forall (λ l : str, ∃ c, c ∈ l ∧ 33 ≤ c ≤ 126) status_labels).
    { apply Forall_forall. intros l Hl.
      assert (Hb : forallb (λ l : str,
                match l with
                | c :: _ => (33 <=? c) && (c <=? 126)
                | [] => false
                end) status_labels = true) by (by vm_compute).
      rewrite forallb_forall in Hb. apply list_elem_of_In in Hl.
      specialize (Hb l Hl). destruct l as [|c l]; [done|].
      apply andb_prop in Hb as [H1%N.leb_le H2%N.leb_le].
      exists c. split; [by left | done]. }
    rewrite Forall_forall in Hheads.
    destruct (Hheads v Hin) as (c & Hc & Hrange).
    by apply (strip_not_blank v c), Hvis.
  - apply (strip_not_blank _ 69).
    + change (u "ERROR: ") with (69 :: u "RROR: "). by left.
    + apply Hvis. lia.
Qed.

Lemma no_writes_after (values : list (list str)) (logins : list event) :
  written_rows logins = [] → after_writes values logins = values.
Proof.
  unfold after_writes. revert values.
  induction logins as [|[t idx|r c v] logins IH]; intros values Hw; [done| |done].
  cbn [foldl write_cell]. by apply IH.
Qed.

Lemma process_rows_all_decided (url_idx decision_idx i : nat)
    (rows : list (list str)) (updated : nat) (s : state W) :
  Forall (λ row, eligible url_idx decision_idx row = false) rows →
  process_rows url_idx decision_idx i rows updated s = (Ok updated, s).
Proof.
  intros Hall. revert i. induction Hall as [|row rows Hrow Hall IH]; intros i; [done|].
  cbn [process_rows]. unfold bind at 1. by rewrite eligible_false_skip.
Qed.

Lemma written_row_decided (url_idx decision_idx : nat) (row : list str) (v : str) :
  eligible url_idx decision_idx row = true →
  strip v ≠ [] →
  eligible url_idx decision_idx (<[decision_idx := v]> row) = false.
Proof.
  intros Hel Hv. unfold eligible in *.
  apply andb_prop in Hel as [[Hlen%negb_true_iff%bool_decide_eq_false _]%andb_prop _].
  assert (Hcell : truthy (cell (<[decision_idx := v]> row) decision_idx) = true).
  { unfold cell. rewrite list_lookup_insert_eq by lia.
    destruct v as [|a v]; [by destruct Hv|]. cbn [truthy].
    by destruct (strip (a :: v)). }
  rewrite Hcell. by rewrite andb_false_r.
Qed.

Lemma process_rows_after_writes (url_idx decision_idx : nat)
    (rows above : list (list str)) (updated : nat) (s : state W) :
  visible_not_space →
  ∃ n s' new rows',
    process_rows url_idx decision_idx (length above) rows updated s = (Ok n, s') ∧
    log s' = log s ++ new ∧
    after_writes (above ++ rows) new = above ++ rows' ∧
    Forall (λ row, eligible url_idx decision_idx row = false) rows'.
Proof.
  intros Hvis. revert above updated s.
  induction rows as [|row rows IH]; intros above updated s.
  - exists updated, s, [], []. by rewrite !app_nil_r.
  - destruct (process_row_detail url_idx decision_idx (length above) row updated s)
      as (n1 & s1 & new1 & Hrow & Hlog1 & _ & Hw1 & _ & _ & Hv1 & _).
    assert (Hstep : ∃ row', after_writes (above ++ row :: rows) new1
                      = (above ++ [row']) ++ rows ∧
                    eligible url_idx decision_idx row' = false).
    { destruct (eligible url_idx decision_idx row) eqn:Hel.
      - destruct (process_row_run url_idx decision_idx (length above) row updated s)
          as (n2 & s2 & new2 & Hrow2 & Hlog2 & Hres).
        rewrite Hrow in Hrow2. injection Hrow2 as <- <-.
        rewrite Hlog1 in Hlog2. apply app_inv_head in Hlog2 as <-.
        rewrite Hel in Hres. destruct Hres as (_ & logins & status & Hnw & ->).
        exists (<[decision_idx := status]> row). split.
        + unfold after_writes. rewrite foldl_app.
          change (foldl write_cell (above ++ row :: rows) logins)
            with (after_writes (above ++ row :: rows) logins).
          rewrite (no_writes_after (above ++ row :: rows) logins).
          * cbn [foldl write_cell].
            replace (pred (length above + 1)) with (length above + 0)%nat by lia.
            replace (pred (decision_idx + 1)) with decision_idx by lia.
            rewrite alter_app_r. by rewrite <-app_assoc.
          * destruct (written_rows logins) as [|r rs] eqn:Hrs; [done|].
            assert (Hin : r ∈ written_rows logins) by (rewrite Hrs; by left).
            apply list_elem_of_omap in Hin as ([t idx|r' c v] & Hin & Heq); [done|].
            by destruct (Hnw r' c v).
        + apply written_row_decided; [done|].
          apply status_not_blank; [done|].
          apply (Hv1 (length above + 1)%nat (decision_idx + 1)%nat).
          apply elem_of_app. right. by left.
      - exists row. split; [|done].
        rewrite no_writes_after by done. by rewrite <-app_assoc. }
    destruct Hstep as (row' & Hafter & Hdecided).
    destruct (IH (above ++ [row']) n1 s1) as (n & s' & new & rows' & Hrest & Hlog & Haw & Hall).
    rewrite length_app in Hrest. cbn [length] in Hrest.
    replace (length above + 1)%nat with (S (length above)) in Hrest by lia.
    exists n, s', (new1 ++ new), (row' :: rows').
    cbn [process_rows]. unfold bind at 1. rewrite Hrow.
    split; [done|]. split; [by rewrite Hlog, Hlog1, <-app_assoc|].
    split; [|by constructor].
    unfold after_writes in *. rewrite foldl_app, Hafter, Haw.
    by rewrite <-app_assoc.
Qed.

(** X23.  A run over a sheet marks every row that it visits as decided: no
    status that is written is blank (the visible ASCII characters not
    being white space), so that on the values of the sheet after the
    writes a second run, from any state, visits no row, writes nothing and
    returns 0.  This holds for rows marked [ERROR: ...] as well: they are
    not fetched again. *)
Theorem second_run_writes_nothing (values : list (list str)) (s : state W) :
  visible_not_space →
  ∃ n s' new,
    process_worksheet values s = (Ok n, s') ∧
    log s' = log s ++ new ∧
    (∀ r c v, UpdateCell r c v ∈ new → strip v ≠ []) ∧
    ∀ s2, process_worksheet (after_writes values new) s2 = (Ok 0%nat, s2).
Proof.
  intros Hvis.
  assert (Hnone : ∀ values', process_worksheet values' = ret 0%nat →
            ∃ n s' new, process_worksheet values' s = (Ok n, s') ∧
              log s' = log s ++ new ∧
              (∀ r c v, UpdateCell r c v ∈ new → strip v ≠ []) ∧
              ∀ s2, process_worksheet (after_writes values' new) s2 = (Ok 0%nat, s2)).
  { intros values' Hret. exists 0%nat, s, []. rewrite app_nil_r.
    split; [by rewrite Hret|]. split; [done|]. split; [intros r c v Hin; inversion Hin|].
    intros s2. unfold after_writes. cbn [foldl]. by rewrite Hret. }
  destruct values as [|header rows]; [by apply Hnone|].
  assert (Hmissing : (∀ url_idx decision_idx,
              find_columns header ≠ (Some url_idx, Some decision_idx)) →
            process_worksheet (header :: rows) = ret 0%nat).
  { intros Hno. unfold process_worksheet.
    destruct (find_columns header) as [[url_idx|] [decision_idx|]];
      [by destruct (Hno url_idx decision_idx) | done..]. }
  destruct (find_columns header) as [[url_idx|] [decision_idx|]] eqn:Hcols;
    [|by apply Hnone, Hmissing..].
  clear Hnone Hmissing.
  destruct (process_rows_after_writes url_idx decision_idx rows [header] 0 s Hvis)
    as (n & s' & new & rows' & Hrun & Hlog & Hafter & Hall).
  destruct (process_rows_detail url_idx decision_idx 1 rows 0 s)
    as (n2 & s2 & new2 & Hrun2 & Hlog2 & _ & _ & _ & _ & Hv & _).
  cbn [length] in Hrun. rewrite Hrun in Hrun2. injection Hrun2 as <- <-.
  rewrite Hlog in Hlog2. apply app_inv_head in Hlog2 as <-.
  exists n, s', new. unfold process_worksheet at 1. rewrite Hcols.
  split; [done|]. split; [done|]. split.
  - intros r c v Hin. apply status_not_blank; [done|]. by eapply Hv.
  - intros s3. cbn [app] in Hafter. rewrite Hafter.
    unfold process_worksheet. rewrite Hcols.
    by apply process_rows_all_decided.
Qed.

End SecondRun.

Section SecondRunExamples.
Local Existing Instance ascii_tables.
Local Existing Instance demo_world.

Lemma ascii_visible_not_space : visible_not_space.
Proof.
  intros c [Hlo Hhi]. unfold isspace, ascii_tables, ascii_isspace.
  apply orb_false_iff. split; apply andb_false_iff.
  - right. apply N.leb_gt. lia.
  - right. apply N.leb_gt. lia.
Qed.

Lemma second_run_writes_nothing_witness :
  ∃ n s' new,
    process_worksheet
      [[u "URL"; u "Decision"];
       [u "https://down.example.com/a"; []];
       [u "https://jobs.lever.co/acme/2"; u "  "]]
      (State blank ∅ []) = (Ok n, s') ∧
    log s' = log (State blank ∅ []) ++ new ∧
    (∀ r c v, UpdateCell r c v ∈ new → strip v ≠ []) ∧
    ∀ s2, process_worksheet
            (after_writes
               [[u "URL"; u "Decision"];
                [u "https://down.example.com/a"; []];
                [u "https://jobs.lever.co/acme/2"; u "  "]] new) s2
          = (Ok 0%nat, s2).
Proof.
  apply second_run_writes_nothing. exact ascii_visible_not_space.
Defined.

Example sheet_after_two_writes :
  after_writes
    [[u "URL"; u "Decision"];
     [u "https://down.example.com/a"; []];
     [u "https://jobs.lever.co/acme/2"; u "  "]]
    [UpdateCell 2 2 (u "ERROR: TimeoutError"); UpdateCell 3 2 (u "UNKNOWN (lever)")]
  = [[u "URL"; u "Decision"];
     [u "https://down.example.com/a"; u "ERROR: TimeoutError"];
     [u "https://jobs.lever.co/acme/2"; u "UNKNOWN (lever)"]].
Proof. by vm_compute. Qed.

End SecondRunExamples.

(** ** From one run to the next *)

Lemma unsplit_app (a b : str) :
  unsplit (a ++ b) = true → unsplit a = true ∧ unsplit b = true.
Proof.
  induction a as [|c a IH]; [done|].
  cbn [app unsplit]. intros [[Hc Hpair]%andb_true_iff Hrest]%andb_true_iff.
  destruct (IH Hrest) as [Ha Hb]. split; [|done].
  rewrite Hc, Ha, andb_true_l, andb_true_r.
  destruct a as [|c' a]; [by rewrite andb_false_r|done].
Qed.

Section Strips.
Context `{Unicode}.

Lemma lstrip_suffix (s : str) : ∃ pre, s = pre ++ lstrip s.
Proof.
  induction s as [|c s [pre IH]]; [by exists []|].
  cbn [lstrip]. destruct (isspace c); [|by exists []].
  exists (c :: pre). by rewrite IH at 1.
Qed.

Lemma unsplit_reverse_parts (s a b : str) :
  unsplit s = true → s = a ++ b → unsplit a = true ∧ unsplit b = true.
Proof. intros Hs ->. by apply unsplit_app. Qed.

Lemma unsplit_strip (s : str) : unsplit s = true → unsplit (strip s) = true.
Proof.
  intros Hs. unfold strip, rstrip.
  destruct (lstrip_suffix s) as [pre Hpre].
  assert (Hl : unsplit (lstrip s) = true).
  { rewrite Hpre in Hs. by apply unsplit_app in Hs as [_ ?]. }
  destruct (lstrip_suffix (reverse (lstrip s))) as [pre' Hpre'].
  assert (Heq : lstrip s = reverse (lstrip (reverse (lstrip s))) ++ reverse pre').
  { rewrite <-reverse_app, <-Hpre'. by rewrite reverse_involutive. }
  rewrite Heq in Hl. by apply unsplit_app in Hl as [? _].
Qed.

Lemma unsplit_cell (row : list str) (idx : nat) :
  Forall (λ c, unsplit c = true) row → unsplit (cell row idx) = true.
Proof.
  intros Hrow. unfold cell. destruct (row !! idx) as [c|] eqn:Hc; [|done].
  destruct (truthy c); [|done].
  apply unsplit_strip. by apply (Forall_lookup_1 _ _ _ _ Hrow Hc).
Qed.

Lemma unsplit_tenant (url tenant : str) :
  unsplit url = true → extract_workday_tenant url = Some tenant →
  unsplit tenant = true.
Proof.
  intros Hurl Hext.
  apply extract_workday_tenant_Some in Hext as (pre & digits & rest & _ & ->).
  unfold workday_url in Hurl.
  apply unsplit_app in Hurl as [_ Hurl].
  apply unsplit_app in Hurl as [_ Hurl].
  by apply unsplit_app in Hurl as [? _].
Qed.

End Strips.

Section Persist.
Context `{Unicode} {W : Type} `{World W}.

Lemma index_mapping_kept (c c' : gmap str pyval) :
  index_mapping c → kept_or_index c c' → index_mapping c'.
Proof.
  intros Hidx Hkept tenant v Hv.
  destruct (Hkept tenant) as [Heq|[Heq|Heq]]; rewrite Heq in Hv.
  - by apply (Hidx tenant).
  - injection Hv as <-. by left.
  - injection Hv as <-. by right.
Qed.

Lemma workday_try_login_keys (tenant : str) (s : state W) :
  unsplit tenant = true →
  unsplit_keys (workday_cache s) →
  unsplit_keys (workday_cache (workday_try_login tenant s).2).
Proof.
  intros Ht Hkeys.
  destruct (workday_try_login_detail tenant s)
    as (ok & s' & tried & Hrun & _ & _ & _ & _ & _ & Hother & _).
  rewrite Hrun. cbn [snd]. intros k Hk.
  destruct (decide (k = tenant)) as [->|Hne]; [done|].
  apply Hkeys. by rewrite <-Hother.
Qed.

Lemma workday_login_step_keys (url domain : str) (s : state W) :
  unsplit url = true →
  unsplit_keys (workday_cache s) →
  unsplit_keys (workday_cache (workday_login_step url domain s).2).
Proof.
  intros Hurl Hkeys. unfold workday_login_step.
  destruct (str_eq domain (u "workday")); [|done].
  destruct (extract_workday_tenant url) as [tenant|] eqn:Hext; [|done].
  destruct (truthy tenant); [|done].
  unfold bind.
  pose proof (workday_try_login_keys tenant s (unsplit_tenant _ _ Hurl Hext) Hkeys) as Hk.
  destruct (workday_try_login tenant s) as [[ok|e] s']; done.
Qed.

Lemma process_row_keys (url_idx decision_idx i : nat) (row : list str)
    (updated : nat) (s : state W) :
  Forall (λ c, unsplit c = true) row →
  unsplit_keys (workday_cache s) →
  unsplit_keys (workday_cache (process_row url_idx decision_idx i row updated s).2).
Proof.
  intros Hrow Hkeys.
  destruct (eligible url_idx decision_idx row) eqn:Hel;
    [|by rewrite eligible_false_skip].
  pose proof (workday_login_step_keys (cell row url_idx)
                (detect_domain (cell row url_idx)) s
                (unsplit_cell row url_idx Hrow) Hkeys) as Hk.
  destruct (workday_login_step_run (cell row url_idx)
              (detect_domain (cell row url_idx)) s) as (s1 & logins & Hlogin & _).
  rewrite Hlogin in Hk. cbn [snd] in Hk.
  destruct (fetch_status_frame (cell row url_idx)
              (detect_domain (cell row url_idx)) s1) as (r & w & Hfetch).
  by rewrite (eligible_true_visit _ _ i _ updated _ _ _ _ Hel Hlogin Hfetch).
Qed.

Lemma process_rows_keys (url_idx decision_idx i : nat) (rows : list (list str))
    (updated : nat) (s : state W) :
  Forall (Forall (λ c, unsplit c = true)) rows →
  unsplit_keys (workday_cache s) →
  unsplit_keys (workday_cache (process_rows url_idx decision_idx i rows updated s).2).
Proof.
  intros Hrows. revert i updated s.
  induction Hrows as [|row rows Hrow Hrows IH]; intros i updated s Hkeys; [done|].
  cbn [process_rows]. unfold bind at 1.
  pose proof (process_row_keys url_idx decision_idx i row updated s Hrow Hkeys) as Hk.
  destruct (process_row url_idx decision_idx i row updated s) as [[n|e] s1]; [|done].
  by apply IH.
Qed.

Lemma process_worksheet_keys (values : list (list str)) (s : state W) :
  Forall (Forall (λ c, unsplit c = true)) values →
  unsplit_keys (workday_cache s) →
  unsplit_keys (workday_cache (process_worksheet values s).2).
Proof.
  intros Hvalues Hkeys. unfold process_worksheet.
  destruct Hvalues as [|header rows _ Hrows]; [done|].
  destruct (find_columns header) as [[url_idx|] [decision_idx|]]; try done.
  by apply process_rows_keys.
Qed.

Lemma process_worksheets_keys (sheets : list (list (list str)))
    (total_updated : nat) (s : state W) :
  unsplit_cells sheets →
  unsplit_keys (workday_cache s) →
  unsplit_keys (workday_cache (process_worksheets sheets total_updated s).2).
Proof.
  intros Hsheets. revert total_updated s.
  induction Hsheets as [|values sheets Hvalues Hsheets IH]; intros total s Hkeys; [done|].
  cbn [process_worksheets]. unfold bind at 1.
  pose proof (process_worksheet_keys values s Hvalues Hkeys) as Hk.
  destruct (process_worksheet values s) as [[n|e] s1]; [|done].
  by apply IH.
Qed.

Context `{Json}.

(** X22.  What a run has learned is what the next run starts from.  When
    the loop over the sheets starts from a mapping of tenants to the index
    1 or 2 and is through, where no cell of the sheets and no tenant of
    that mapping holds a surrogate pair split in two and the cache file is
    missing or may be read and written, the cache at the end is such a
    mapping again, saving it returns, and loading it gives the cache that
    the run ended with. *)
Theorem learned_cache_is_loaded (sheets : list (list (list str)))
    (total_updated n : nat) (s s' : state W) (files : gmap str file) :
  index_mapping (workday_cache s) →
  unsplit_keys (workday_cache s) →
  unsplit_cells sheets →
  cache_file_free files →
  process_worksheets sheets total_updated s = (Ok n, s') →
  index_mapping (workday_cache s') ∧
  ∃ files',
    save_workday_cache (PDict (workday_cache s')) files = (Ok (), files') ∧
    load_workday_cache files' = PDict (workday_cache s').
Proof.
  intros Hidx Hkeys Hcells Hfile Hrun.
  assert (Hidx' : index_mapping (workday_cache s')).
  { destruct (process_worksheets_detail sheets total_updated s)
      as (n2 & s2 & new & Hrun2 & _ & _ & Hkept).
    rewrite Hrun in Hrun2. injection Hrun2 as <- <-.
    by eapply index_mapping_kept. }
  split; [done|].
  pose proof (process_worksheets_keys sheets total_updated s Hcells Hkeys) as Hkeys'.
  rewrite Hrun in Hkeys'. cbn [snd] in Hkeys'.
  unfold save_workday_cache.
  destruct (files !! WORKDAY_CACHE_PATH) as [f|] eqn:Hf.
  - destruct (Hfile f Hf) as [Hr Hw]. rewrite Hw, Hr.
    eexists. split; [done|].
    unfold load_workday_cache. rewrite lookup_insert_eq. cbn [may_read file_text].
    by rewrite dump_then_load.
  - eexists. split; [done|].
    unfold load_workday_cache. rewrite lookup_insert_eq. cbn [may_read file_text].
    by rewrite dump_then_load.
Qed.

End Persist.

Section PersistExamples.
Local Existing Instance ascii_tables.
Local Existing Instance demo_world.
Local Existing Instance flat_json.

Lemma learned_cache_is_loaded_witness :
  index_mapping
    (workday_cache
       (State (Browser (u "https://acme.wd3.myworkdayjobs.com/job/7") (u "pw-two"))
          {[u "acme" := PInt 2]}
          [TryPassword (u "acme") 1; TryPassword (u "acme") 2;
           UpdateCell 2 2 (u "UNKNOWN (Workday)")])) ∧
  ∃ files',
    save_workday_cache
      (PDict
         (workday_cache
            (State (Browser (u "https://acme.wd3.myworkdayjobs.com/job/7") (u "pw-two"))
               {[u "acme" := PInt 2]}
               [TryPassword (u "acme") 1; TryPassword (u "acme") 2;
                UpdateCell 2 2 (u "UNKNOWN (Workday)")]))) ∅ = (Ok (), files') ∧
    load_workday_cache files'
    = PDict
        (workday_cache
           (State (Browser (u "https://acme.wd3.myworkdayjobs.com/job/7") (u "pw-two"))
              {[u "acme" := PInt 2]}
              [TryPassword (u "acme") 1; TryPassword (u "acme") 2;
               UpdateCell 2 2 (u "UNKNOWN (Workday)")])).
Proof.
  apply (learned_cache_is_loaded
           [[[u "URL"; u "Decision"]; [u "https://acme.wd3.myworkdayjobs.com/job/7"; []]]]
           0%nat 1%nat (State blank ∅ [])).
  - intros tenant v Hv. cbn [workday_cache] in Hv. by rewrite lookup_empty in Hv.
  - intros tenant [v Hv]. cbn [workday_cache] in Hv. by rewrite lookup_empty in Hv.
  - unfold unsplit_cells. apply (bool_decide_unpack _). by vm_compute.
  - intros f Hf. by rewrite lookup_empty in Hf.
  - by vm_compute.
Defined.

End PersistExamples.
